(** * Creator/Critic attempt loop: a shallow embedding and its properties

    The development follows the Python sources:
    - [adcp_payload.py]  : [contains_emoji], [build_adcp_payload];
    - [agents.py]        : [Evaluation], [Attempt], [Creator], [Critic];
    - [workflow_graph.py]: [GraphState], the two graph nodes, [_route],
      the compiled graph ([invoke]), [_build_llm] and [run_workflow].

    Python [str] values are sequences of Unicode code points, so they are
    modelled as lists of code points; dictionaries [Dict[str, str]] are
    finite maps with extensional equality. *)

From Stdlib Require Import ZArith NArith List Ascii String DecimalString Lia.
From Stdlib Require Import DecimalPos.
From stdpp Require Import gmap strings list fin_maps.

Set Default Proof Using "Type".

(** ** Python strings *)

Module PyStr.

(** A [str] is a list of code points. *)
Abbreviation str := (list N) (only parsing).

(** Decoding of a UTF-8 literal of this file into code points, so that
    captions can be written as they are in the sources. *)
Fixpoint utf8_decode (bs : list N) : list N :=
  match bs with
  | [] => []
  | b0 :: t0 =>
    if (b0 <? 0x80)%N then b0 :: utf8_decode t0
    else match t0 with
    | [] => [b0]
    | b1 :: t1 =>
      if (b0 <? 0xE0)%N
      then ((b0 - 0xC0) * 64 + (b1 - 0x80))%N :: utf8_decode t1
      else match t1 with
      | [] => [b0; b1]
      | b2 :: t2 =>
        if (b0 <? 0xF0)%N
        then ((b0 - 0xE0) * 4096 + (b1 - 0x80) * 64 + (b2 - 0x80))%N
               :: utf8_decode t2
        else match t2 with
        | [] => [b0; b1; b2]
        | b3 :: t3 =>
          ((b0 - 0xF0) * 262144 + (b1 - 0x80) * 4096
           + (b2 - 0x80) * 64 + (b3 - 0x80))%N :: utf8_decode t3
        end
      end
    end
  end.

Definition lit (s : string) : str :=
  utf8_decode (map N_of_ascii (list_ascii_of_string s)).

(** [str(n)] for an [int]: decimal digits, with a leading minus sign. *)
Definition str_of_int (z : Z) : str :=
  lit (NilZero.string_of_int (Z.to_int z)).

(** [len(s)] as a Python [int]. *)
Definition len {A} (l : list A) : Z := Z.of_nat (length l).

(** [c.isspace()] for one code point: the white space of [str.split()],
    [str.strip()] and the pattern [\s] on [str]. *)
Definition isspace (c : N) : bool :=
  ((0x09 <=? c) && (c <=? 0x0D) || (0x1C <=? c) && (c <=? 0x20)
   || (c =? 0x85) || (c =? 0xA0) || (c =? 0x1680)
   || (0x2000 <=? c) && (c <=? 0x200A)
   || (c =? 0x2028) || (c =? 0x2029) || (c =? 0x202F)
   || (c =? 0x205F) || (c =? 0x3000))%N.

(** [s.split()]: the maximal runs of non-space code points. [cur] is the
    word being read. *)
Fixpoint split_from (cur : str) (s : str) : list str :=
  match s with
  | [] => match cur with [] => [] | _ => [cur] end
  | c :: t =>
    if isspace c
    then match cur with [] => split_from [] t | _ => cur :: split_from [] t end
    else split_from (cur ++ [c]) t
  end.

Definition split (s : str) : list str := split_from [] s.

(** [sep.join(parts)]. *)
Fixpoint join (sep : str) (parts : list str) : str :=
  match parts with
  | [] => []
  | [p] => p
  | p :: rest => p ++ sep ++ join sep rest
  end.

Fixpoint lstrip (s : str) : str :=
  match s with
  | c :: t => if isspace c then lstrip t else s
  | [] => []
  end.

(** [s.strip()]. *)
Definition strip (s : str) : str := rev (lstrip (rev (lstrip s))).

(** [re.sub(r"\s+", " ", s)]: every maximal run of white space becomes
    one space. [in_run] tells that the previous code point was white. *)
Fixpoint sub_spaces (in_run : bool) (s : str) : str :=
  match s with
  | [] => []
  | c :: t =>
    if isspace c
    then if in_run then sub_spaces true t else 0x20%N :: sub_spaces true t
    else c :: sub_spaces false t
  end.

Fixpoint startswith (p s : str) : bool :=
  match p, s with
  | [], _ => true
  | _ :: _, [] => false
  | a :: p', b :: s' => (a =? b)%N && startswith p' s'
  end.

(** [needle in hay]. *)
Fixpoint contains (needle hay : str) : bool :=
  startswith needle hay
  || match hay with [] => false | _ :: t => contains needle t end.

(** The built-ins that depend on the tables of the Unicode database:
    [s.lower()], and [int(s)] on a [str] ([None] stands for the
    [ValueError] of a string that is not an integer literal). *)
Class Builtins := {
  lower : str -> str;
  int_of_str : str -> option Z;
}.

(** *** The built-ins on ASCII text

    An instance for running the definitions on concrete inputs. It agrees
    with Python on strings whose code points outside ASCII are neither
    cased letters nor digits (emoji and punctuation are such). *)

Definition ascii_lower_char (c : N) : N :=
  if ((0x41 <=? c) && (c <=? 0x5A))%N then (c + 32)%N else c.

Definition is_digit (c : N) : bool := ((0x30 <=? c) && (c <=? 0x39))%N.

(** Digits with single underscores between them; [acc] is the value read
    so far and [prev_digit] tells that the previous code point was one. *)
Fixpoint digits_value (acc : Z) (prev_digit : bool) (s : str) : option Z :=
  match s with
  | [] => if prev_digit then Some acc else None
  | c :: t =>
    if is_digit c then digits_value (acc * 10 + Z.of_N (c - 0x30)) true t
    else if (c =? 0x5F)%N && prev_digit then digits_value acc false t
    else None
  end.

Definition ascii_int (s : str) : option Z :=
  match strip s with
  | 0x2D%N :: t => Z.opp <$> digits_value 0 false t
  | 0x2B%N :: t => digits_value 0 false t
  | t => digits_value 0 false t
  end.

Definition ascii_builtins : Builtins :=
  {| lower := map ascii_lower_char; int_of_str := ascii_int |}.

End PyStr.

Import PyStr.

(** ** adcp_payload.py *)

Module AdcpPayload.

(** [re.search(r"[\u2600-\u27BF\U0001F300-\U0001FAFF]", text)] finds a
    code point of one of the two ranges. *)
Definition emoji_range (c : N) : bool :=
  ((0x2600 <=? c) && (c <=? 0x27BF) || (0x1F300 <=? c) && (c <=? 0x1FAFF))%N.

Definition contains_emoji (text : str) : bool := existsb emoji_range text.

(** The shape of the returned dictionary. *)
Record Asset := { type : str; content : str }.

Record Payload := {
  target_audience : str;
  creative_assets : list Asset;
  product : str;
}.

Record Metadata := {
  length : Z;
  word_count : Z;
  sentiment : str;
  brand_safety_check : str;
}.

Record Adcp := {
  adcp_version : str;
  task : str;
  payload : Payload;
  metadata : Metadata;
}.

(** [meta.get(key, default)] where the default is an [int] gives either
    a [str] of the mapping or that [int]. *)
Inductive str_or_int := FromMeta (s : str) | Default (n : Z).

Definition get_or_int (meta : gmap str str) (key : str) (default : Z)
  : str_or_int :=
  match meta !! key with
  | Some v => FromMeta v
  | None => Default default
  end.

(** [int(x)]: parses a [str], leaves an [int] as it is. *)
Definition int `{Builtins} (x : str_or_int) : option Z :=
  match x with
  | FromMeta s => int_of_str s
  | Default n => Some n
  end.

(** [None] is the [ValueError] raised by [int]. *)
Definition build_adcp_payload `{Builtins}
    (product audience caption : str) (meta : gmap str str) : option Adcp :=
  length_ ← int (get_or_int meta (lit "length") (len caption));
  word_count_ ← int (get_or_int meta (lit "word_count") (len (split caption)));
  Some {|
    adcp_version := lit "1.0";
    task := lit "creative_generation";
    payload := {|
      target_audience := audience;
      creative_assets := [ {| type := lit "text_ad"; content := caption |} ];
      product := product;
    |};
    metadata := {|
      length := length_;
      word_count := word_count_;
      sentiment := lit "energetic";
      brand_safety_check :=
        default (lit "unknown") (meta !! lit "brand_safety_check");
    |};
  |}.

End AdcpPayload.

(** ** agents.py *)

Module Evaluation.
Record t := {
  approved : bool;
  feedback : str;
  metadata : gmap str str;
}.
End Evaluation.

Module Attempt.
Record t := {
  caption : str;
  evaluation : Evaluation.t;
}.
End Attempt.

(** [template.format] with keyword arguments, for templates whose replacement fields are
    plain names: [field] is the name being read inside braces. A name that
    is no keyword is a [KeyError], an unmatched brace a [ValueError]; both
    are [None]. (Doubled braces and format specifications, which no
    template of the sources has, are not interpreted.) *)
Fixpoint format_from (kwargs : gmap str str) (field : option str) (s : str)
  : option str :=
  match s with
  | [] => match field with None => Some [] | Some _ => None end
  | c :: t =>
    match field with
    | None =>
      if (c =? 0x7B)%N then format_from kwargs (Some []) t
      else if (c =? 0x7D)%N then None
      else rest ← format_from kwargs None t; Some (c :: rest)
    | Some name =>
      if (c =? 0x7D)%N
      then value ← kwargs !! name;
           rest ← format_from kwargs None t;
           Some (value ++ rest)
      else format_from kwargs (Some (name ++ [c])) t
    end
  end.

Definition format (template : str) (kwargs : gmap str str) : option str :=
  format_from kwargs None template.

Module Creator.

Record t := {
  product : str;
  audience : str;
  attempts : list Attempt.t;
  templates : list str;
}.

Definition __init__ (product audience : str) : t := {|
  product := product;
  audience := audience;
  attempts := [];
  templates := [
    lit "{product}: power up, {audience}! ⚡";
    lit "Boost with {product} for {audience} 🚀";
    lit "{audience}, grab {product} and win! 🏆";
    lit "Stay sharp with {product}, {audience}! ✨"
  ];
|}.

(** [random.choice(self.templates)]; [r] is the number drawn. An empty
    list is an [IndexError]. *)
Definition _pick_template (self : t) (r : nat) : option str :=
  templates self !! (r mod length (templates self)).

Definition _apply_feedback `{Builtins} (self : t) (caption feedback : str)
  : str :=
  let lowered := lower feedback in
  let caption :=
    if contains (lit "emoji") lowered
       && negb (AdcpPayload.contains_emoji caption)
    then caption ++ lit " 🔥" else caption in
  let caption :=
    if contains (lit "too long") lowered || contains (lit "under") lowered
    then join (lit " ") (take 15 (split caption)) else caption in
  let caption :=
    if contains (lit "mention the product") lowered
       && negb (contains (lower (product self)) (lower caption))
    then product self ++ lit " - " ++ strip caption else caption in
  strip (sub_spaces false caption).

(** The method returns the caption; the object it leaves behind is
    returned with it. *)
Definition propose `{Builtins} (self : t) (feedback : option str) (r : nat)
  : option (str * t) :=
  match feedback, attempts self with
  | None, _ | Some _, [] =>
    template ← _pick_template self r;
    caption ← format template
      (<[lit "product" := product self]> {[lit "audience" := audience self]});
    Some (caption, self)
  | Some feedback, _ :: _ =>
    last_attempt ← last (attempts self);
    Some (_apply_feedback self (Attempt.caption last_attempt) feedback, self)
  end.

(** The four templates with product and audience substituted, written
    out. *)
Definition captions (product audience : str) : list str := [
  product ++ lit ": power up, " ++ audience ++ lit "! ⚡";
  lit "Boost with " ++ product ++ lit " for " ++ audience ++ lit " 🚀";
  audience ++ lit ", grab " ++ product ++ lit " and win! 🏆";
  lit "Stay sharp with " ++ product ++ lit ", " ++ audience ++ lit "! ✨" ].

(** The creator objects a program can hold: the one [__init__] builds,
    and the object left by any call of [propose] on such an object. *)
Inductive reachable `{Builtins} (product audience : str) : t -> Prop :=
  | reachable_init : reachable product audience (__init__ product audience)
  | reachable_propose self feedback r caption self' :
      reachable product audience self ->
      propose self feedback r = Some (caption, self') ->
      reachable product audience self'.

End Creator.

Module Critic.

Record t := {
  product : str;
  max_words : Z;
  blocklist : gset str;
}.

Definition __init__ (product : str) (max_words : Z) : t := {|
  product := product;
  max_words := max_words;
  blocklist := {[ lit "kill"; lit "violence"; lit "hate" ]};
|}.

Definition default_max_words : Z := 15.

(** The four rules append to [rules_failed] one after the other. *)
Definition evaluate `{Builtins} (self : t) (caption : str) : Evaluation.t :=
  let rules_failed : list str := [] in
  let rules_failed :=
    if negb (AdcpPayload.contains_emoji caption)
    then rules_failed ++ [lit "Must contain an emoji."] else rules_failed in
  let word_count := len (split caption) in
  let rules_failed :=
    if (word_count >? max_words self)%Z
    then rules_failed ++
         [lit "Too long (" ++ str_of_int word_count ++ lit " words). Keep under "
          ++ str_of_int (max_words self) ++ lit "."]
    else rules_failed in
  let rules_failed :=
    if negb (contains (lower (product self)) (lower caption))
    then rules_failed ++ [lit "Please mention the product by name."]
    else rules_failed in
  let rules_failed :=
    if existsb (fun term => contains term (lower caption))
               (elements (blocklist self))
    then rules_failed ++ [lit "Contains blocked terms; rewrite for brand safety."]
    else rules_failed in
  match rules_failed with
  | _ :: _ => {|
      Evaluation.approved := false;
      Evaluation.feedback := join (lit " ") rules_failed;
      Evaluation.metadata := {[ lit "status" := lit "rejected" ]};
    |}
  | [] =>
    let metadata : gmap str str :=
      <[lit "status" := lit "approved"]>
      (<[lit "length" := str_of_int (len caption)]>
      (<[lit "word_count" := str_of_int word_count]>
      {[ lit "brand_safety_check" := lit "passed" ]})) in
    {| Evaluation.approved := true;
       Evaluation.feedback := lit "Approved";
       Evaluation.metadata := metadata |}
  end.

(** *** The rule set as the specification gives it

    Four rules in a fixed order, each a check of the caption with the
    message of its failure. *)
Record rule := { holds : bool; message : str }.

Definition rules `{Builtins} (self : t) (caption : str) : list rule := [
  {| holds := AdcpPayload.contains_emoji caption;
     message := lit "Must contain an emoji." |};
  {| holds := (len (split caption) <=? max_words self)%Z;
     message := lit "Too long (" ++ str_of_int (len (split caption))
                ++ lit " words). Keep under " ++ str_of_int (max_words self)
                ++ lit "." |};
  {| holds := contains (lower (product self)) (lower caption);
     message := lit "Please mention the product by name." |};
  {| holds := forallb (fun term => negb (contains term (lower caption)))
                      (elements (blocklist self));
     message := lit "Contains blocked terms; rewrite for brand safety." |}
].

Definition failures (rs : list rule) : list str :=
  message <$> List.filter (fun r => negb (holds r)) rs.

(** Accepted when no rule fails; otherwise rejected with the messages of
    the failed rules joined by spaces. *)
Definition evaluate_by_rules `{Builtins} (self : t) (caption : str)
  : Evaluation.t :=
  match failures (rules self caption) with
  | [] => {|
      Evaluation.approved := true;
      Evaluation.feedback := lit "Approved";
      Evaluation.metadata :=
        list_to_map [
          (lit "status", lit "approved");
          (lit "length", str_of_int (len caption));
          (lit "word_count", str_of_int (len (split caption)));
          (lit "brand_safety_check", lit "passed") ];
    |}
  | failed => {|
      Evaluation.approved := false;
      Evaluation.feedback := join (lit " ") failed;
      Evaluation.metadata := list_to_map [ (lit "status", lit "rejected") ];
    |}
  end.

End Critic.

(** ** workflow_graph.py *)

Module GraphState.
(** The mapping threaded through the graph. [exhausted] is the one key
    read with [state.get]: [None] is a mapping without that key. *)
Record t := {
  product : str;
  audience : str;
  caption : str;
  feedback : option str;
  approved : bool;
  attempts : list Attempt.t;
  metadata : gmap str str;
  exhausted : option bool;
}.

(** The truth value of [state.get("exhausted")]. *)
Definition get_exhausted (state : t) : bool := default false (exhausted state).
End GraphState.

(** The calls made to the two capabilities, in the order they are made. *)
Inductive Call :=
  | CallPropose (feedback : option str)
  | CallEvaluate (caption : str).

(** A computation either returns or propagates the exception of a
    capability; the nodes catch nothing. *)
Inductive outcome (A : Type) :=
  | Ret (a : A)
  | Raised.
Arguments Ret {A} a.
Arguments Raised {A}.

(** Where [_route] sends the state. *)
Inductive route := done | retry.

(** How [app.invoke] ends when no node raises: with the state at [END],
    or with the [GraphRecursionError] of LangGraph. *)
Inductive halt :=
  | Done (state : GraphState.t)
  | GraphRecursionError.

(** Where an edge of the graph leads: to a node, or to [END]. *)
Inductive target := to_creator | to_critic | to_END.

(** Where the loop stands after some whole iterations: at [END], or with
    the state about to be retried. *)
Inductive progress :=
  | AtEnd (state : GraphState.t)
  | Pending (state : GraphState.t).

Definition progress_state (h : progress) : GraphState.t :=
  match h with AtEnd s | Pending s => s end.

Definition is_propose (c : Call) : bool :=
  match c with CallPropose _ => true | CallEvaluate _ => false end.

Definition is_evaluate (c : Call) : bool :=
  match c with CallEvaluate _ => true | CallPropose _ => false end.

Definition count_propose (cs : list Call) : nat :=
  length (List.filter is_propose cs).

Definition count_evaluate (cs : list Call) : nat :=
  length (List.filter is_evaluate cs).

Section Controller.

(** [W] is everything the controller does not own: the creator and critic
    objects and what they depend on. [propose] is [creator.propose] and
    [evaluate] is [critic.evaluate]; [None] is a call that raises. *)
Context {W : Type}.
Variable propose : option str -> W -> option (str * W).
Variable evaluate : str -> W -> option (Evaluation.t * W).
Variable max_attempts : Z.

Record Run := { world : W; calls : list Call }.

Definition M (A : Type) : Type := Run -> outcome A * Run.

Definition ret {A} (a : A) : M A := fun r => (Ret a, r).

Definition bind {A B} (m : M A) (k : A -> M B) : M B :=
  fun r =>
    match m r with
    | (Ret a, r') => k a r'
    | (Raised, r') => (Raised, r')
    end.

Notation "x <- m ;; k" := (bind m (fun x => k))
  (at level 100, m at next level, right associativity).

(** The run after calls [cs] that leave the world as [w]. *)
Definition logged (r : Run) (w : W) (cs : list Call) : Run :=
  {| world := w; calls := calls r ++ cs |}.

Definition call_propose (feedback : option str) : M str :=
  fun r =>
    match propose feedback (world r) with
    | Some (caption, w) => (Ret caption, logged r w [CallPropose feedback])
    | None => (Raised, logged r (world r) [CallPropose feedback])
    end.

Definition call_evaluate (caption : str) : M Evaluation.t :=
  fun r =>
    match evaluate caption (world r) with
    | Some (evaluation, w) => (Ret evaluation, logged r w [CallEvaluate caption])
    | None => (Raised, logged r (world r) [CallEvaluate caption])
    end.

(** [{**state, "caption": caption}]. *)
Definition with_caption (state : GraphState.t) (caption : str) : GraphState.t := {|
  GraphState.product := GraphState.product state;
  GraphState.audience := GraphState.audience state;
  GraphState.caption := caption;
  GraphState.feedback := GraphState.feedback state;
  GraphState.approved := GraphState.approved state;
  GraphState.attempts := GraphState.attempts state;
  GraphState.metadata := GraphState.metadata state;
  GraphState.exhausted := GraphState.exhausted state;
|}.

Definition _creator_node (state : GraphState.t) : M GraphState.t :=
  if GraphState.get_exhausted state then ret state
  else
    caption <- call_propose (GraphState.feedback state) ;;
    ret (with_caption state caption).

(** What the critic node returns once it has the evaluation: the
    attempt is appended and the budget is checked. *)
Definition record_evaluation (state : GraphState.t) (evaluation : Evaluation.t)
  : GraphState.t :=
  let attempts :=
    GraphState.attempts state ++
    [ {| Attempt.caption := GraphState.caption state;
         Attempt.evaluation := evaluation |} ] in
  let exhausted :=
    (len attempts >=? max_attempts)%Z
    && negb (Evaluation.approved evaluation) in
  if exhausted then {|
    GraphState.product := GraphState.product state;
    GraphState.audience := GraphState.audience state;
    GraphState.caption := GraphState.caption state;
    GraphState.feedback := Some (
      lit "Attempt budget exhausted after " ++ str_of_int max_attempts
      ++ lit " tries. " ++ lit "Last feedback: "
      ++ Evaluation.feedback evaluation);
    GraphState.approved := false;
    GraphState.attempts := attempts;
    GraphState.metadata :=
      <[lit "exhausted" := lit "true"]>
      (<[lit "status" := lit "rejected"]> (Evaluation.metadata evaluation));
    GraphState.exhausted := Some true;
  |}
  else {|
    GraphState.product := GraphState.product state;
    GraphState.audience := GraphState.audience state;
    GraphState.caption := GraphState.caption state;
    GraphState.feedback := Some (Evaluation.feedback evaluation);
    GraphState.approved := Evaluation.approved evaluation;
    GraphState.attempts := attempts;
    GraphState.metadata := Evaluation.metadata evaluation;
    GraphState.exhausted := Some false;
  |}.

Definition _critic_node (state : GraphState.t) : M GraphState.t :=
  if GraphState.get_exhausted state then ret state
  else
    evaluation <- call_evaluate (GraphState.caption state) ;;
    ret (record_evaluation state evaluation).

Definition _route (state : GraphState.t) : route :=
  if GraphState.get_exhausted state then done
  else if GraphState.approved state then done else retry.

(** The compiled graph: its two nodes and the router of the conditional
    edge after the critic. *)
Record Graph := {
  creator_node : GraphState.t -> M GraphState.t;
  critic_node : GraphState.t -> M GraphState.t;
  router : GraphState.t -> route;
}.

Definition build_graph : Graph := {|
  creator_node := _creator_node;
  critic_node := _critic_node;
  router := _route;
|}.

(** LangGraph runs the compiled graph in super-steps, here one node each,
    along the edges [__start__ -> creator], [creator -> critic] and, after
    the critic, [done -> END] or [retry -> creator]. It counts the
    super-steps, the first node being step 1, and looks at the count before
    it runs a node and before it stops at [END]: a count above the
    recursion limit raises [GraphRecursionError]. [steps] is the number of
    such looks left. *)
Fixpoint super_steps (app : Graph) (steps : nat) (next : target)
    (state : GraphState.t) : M halt :=
  match steps with
  | O => ret GraphRecursionError
  | S steps =>
    match next with
    | to_END => ret (Done state)
    | to_creator =>
      state <- creator_node app state ;;
      super_steps app steps to_critic state
    | to_critic =>
      state <- critic_node app state ;;
      match router app state with
      | done => super_steps app steps to_END state
      | retry => super_steps app steps to_creator state
      end
    end
  end.

(** [app.invoke(state)], under the recursion limit of the library:
    [run_workflow] passes no config. *)
Definition invoke (app : Graph) (recursion_limit : nat) (state : GraphState.t)
  : M halt :=
  super_steps app recursion_limit to_creator state.

(** The loop of the graph taken by whole iterations, creator then critic,
    and without the limit on steps: at most [n] iterations, then the state
    about to be retried. The proofs about [invoke] go through it. *)
Fixpoint iterate (app : Graph) (n : nat) (state : GraphState.t) : M progress :=
  match n with
  | O => ret (Pending state)
  | S n =>
    state <- creator_node app state ;;
    state <- critic_node app state ;;
    match router app state with
    | done => ret (AtEnd state)
    | retry => iterate app n state
    end
  end.

(** The [initial_state] of [run_workflow]. *)
Definition initial_state (product audience : str) : GraphState.t := {|
  GraphState.product := product;
  GraphState.audience := audience;
  GraphState.caption := [];
  GraphState.feedback := None;
  GraphState.approved := false;
  GraphState.attempts := [];
  GraphState.metadata := ∅;
  GraphState.exhausted := Some false;
|}.

(** The states the controller can be in: the initial state of a run and
    whatever a node returns from such a state, whatever the capabilities
    answer and in whatever order the nodes are applied. *)
Inductive reachable : GraphState.t -> Prop :=
  | reachable_initial product audience :
      reachable (initial_state product audience)
  | reachable_creator state r state' r' :
      reachable state ->
      _creator_node state r = (Ret state', r') ->
      reachable state'
  | reachable_critic state r state' r' :
      reachable state ->
      _critic_node state r = (Ret state', r') ->
      reachable state'.

End Controller.

Arguments Run : clear implicits.
Arguments M : clear implicits.
Arguments Graph : clear implicits.

(** *** Building a run *)

(** The chat-model clients; [Temp] is the type of temperatures. *)
Inductive LLM (Temp : Type) :=
  | ChatOpenAI (model : str) (temperature : Temp)
               (api_key : option str) (base_url : option str)
  | ChatOllama (model : str) (temperature : Temp) (base_url : str).
Arguments ChatOpenAI {Temp}.
Arguments ChatOllama {Temp}.

(** The model-backed agents of agents.py. What they return is the answer
    of the chat model; here they are the objects only. *)
Module LLMCreator.
Record t (Temp : Type) := {
  product : str;
  audience : str;
  llm : LLM Temp;
}.
Arguments product {Temp}.
Arguments audience {Temp}.
Arguments llm {Temp}.

Definition __init__ {Temp} (product audience model : str)
    (temperature : Temp) (base_url : str) (llm : option (LLM Temp)) : t Temp :=
  {| product := product;
     audience := audience;
     llm := match llm with
            | Some llm => llm
            | None => ChatOllama model temperature base_url
            end |}.
End LLMCreator.

Module LLMCritic.
Record t (Temp : Type) := {
  product : str;
  max_words : Z;
  llm : LLM Temp;
}.
Arguments product {Temp}.
Arguments max_words {Temp}.
Arguments llm {Temp}.

Definition __init__ {Temp} (product : str) (max_words : Z) (model : str)
    (temperature : Temp) (base_url : str) (llm : option (LLM Temp)) : t Temp :=
  {| product := product;
     max_words := max_words;
     llm := match llm with
            | Some llm => llm
            | None => ChatOllama model temperature base_url
            end |}.
End LLMCritic.

(** What [_build_llm] raises: its own [ValueError], or the exception of
    the constructor of the client. *)
Inductive build_error :=
  | ValueError (message : str)
  | ClientError.

(** What [run_workflow] gives: the exception of [_build_llm], or the
    outcome of [app.invoke]. *)
Inductive run_result :=
  | NotBuilt (e : build_error)
  | Invoked (o : outcome halt).

Section RunWorkflow.

Context `{Builtins}.

(** [Env] is the world outside the program: the random number generator
    and the chat models. [draw] draws a number, [llm_propose] and
    [llm_evaluate] are [LLMCreator.propose] and [LLMCritic.evaluate],
    and [zero] is the temperature [0.0]. *)
Context {Temp Env : Type}.
Variable zero : Temp.
Variable draw : Env -> nat * Env.
Variable llm_propose :
  LLMCreator.t Temp -> option str -> Env -> option (str * Env).
Variable llm_evaluate :
  LLMCritic.t Temp -> str -> Env -> option (Evaluation.t * Env).

(** Two facts of the libraries where the program runs. [constructs llm]
    says whether the constructor of the client [llm] returns: [ChatOpenAI]
    raises when it finds no API key, in its arguments or in the
    environment. [recursion_limit] is the recursion limit LangGraph applies
    to an [invoke] without config. *)
Variable constructs : LLM Temp -> bool.
Variable recursion_limit : nat.

(** The call of a client's constructor. *)
Definition construct (llm : LLM Temp) : build_error + LLM Temp :=
  if constructs llm then inr llm else inl ClientError.

(** An exception is [inl]. *)
Definition _build_llm (provider model : str) (temperature : Temp)
    (base_url : str) (api_key openai_base_url : option str)
  : build_error + LLM Temp :=
  if decide (provider = lit "openai") then
    if contains (lit ":") model then
      inl (ValueError (
        lit "provider=openai but model looks like an Ollama tag (e.g. llama3:8b). "
        ++ lit "Use an OpenAI model name (e.g. gpt-4o-mini, gpt-4.1-mini, etc.)."))
    else construct (ChatOpenAI model temperature api_key openai_base_url)
  else construct (ChatOllama model temperature base_url).

(** The creator and the critic are any object with the method the node
    calls; [run_workflow] builds one of two kinds of each. *)
Inductive creator_object :=
  | TemplateCreator (self : Creator.t)
  | ModelCreator (self : LLMCreator.t Temp).

Inductive critic_object :=
  | RuleCritic (self : Critic.t)
  | ModelCritic (self : LLMCritic.t Temp).

Record Agents := {
  creator : creator_object;
  critic : critic_object;
  env : Env;
}.

Definition propose_dispatch (feedback : option str) (w : Agents)
  : option (str * Agents) :=
  match creator w with
  | TemplateCreator self =>
    let '(r, env') := draw (env w) in
    '(caption, self') ← Creator.propose self feedback r;
    Some (caption,
          {| creator := TemplateCreator self'; critic := critic w; env := env' |})
  | ModelCreator self =>
    '(caption, env') ← llm_propose self feedback (env w);
    Some (caption, {| creator := creator w; critic := critic w; env := env' |})
  end.

Definition evaluate_dispatch (caption : str) (w : Agents)
  : option (Evaluation.t * Agents) :=
  match critic w with
  | RuleCritic self => Some (Critic.evaluate self caption, w)
  | ModelCritic self =>
    '(evaluation, env') ← llm_evaluate self caption (env w);
    Some (evaluation, {| creator := creator w; critic := critic w; env := env' |})
  end.

(** The result of the run and the calls made to the capabilities. *)
Definition run_workflow (product audience : str)
    (max_attempts : Z) (creator_mode critic_mode model : str)
    (temperature : Temp) (base_url provider : str)
    (api_key openai_base_url : option str) (env : Env)
  : run_result * list Call :=
  match _build_llm provider model temperature base_url api_key openai_base_url with
  | inl e => (NotBuilt e, [])
  | inr creator_llm =>
    match _build_llm provider model zero base_url api_key openai_base_url with
    | inl e => (NotBuilt e, [])
    | inr critic_llm =>
      let creator :=
        if decide (creator_mode = lit "llm")
        then ModelCreator (LLMCreator.__init__ product audience model
                             temperature base_url (Some creator_llm))
        else TemplateCreator (Creator.__init__ product audience) in
      let critic :=
        if decide (critic_mode = lit "llm")
        then ModelCritic (LLMCritic.__init__ product 15 model zero base_url
                            (Some critic_llm))
        else RuleCritic (Critic.__init__ product Critic.default_max_words) in
      let app := build_graph propose_dispatch evaluate_dispatch max_attempts in
      let '(final_state, r) :=
        invoke app recursion_limit (initial_state product audience)
          {| world := {| creator := creator; critic := critic; env := env |};
             calls := [] |} in
      (Invoked final_state, calls r)
    end
  end.

End RunWorkflow.

(** ** tests/test_workflow_routing.py: the deterministic capabilities *)

Module Tests.

(** [SequenceCreator]: the world is the captions not yet proposed. *)
Definition sequence_propose (feedback : option str) (captions : list str)
  : option (str * list str) :=
  match captions with
  | caption :: rest => Some (caption, rest)
  | [] => Some (lit "fallback", [])
  end.

(** [FlakyCritic(approve_on_substring=ok)]. *)
Definition flaky_evaluate {W} (ok : str) (caption : str) (w : W)
  : option (Evaluation.t * W) :=
  if contains ok caption
  then Some ({| Evaluation.approved := true;
                Evaluation.feedback := lit "Approved";
                Evaluation.metadata := {[ lit "status" := lit "approved" ]} |}, w)
  else Some ({| Evaluation.approved := false;
                Evaluation.feedback := lit "Needs keyword";
                Evaluation.metadata := {[ lit "status" := lit "rejected" ]} |}, w).

(** [AlwaysRejectCritic]. *)
Definition always_reject : Evaluation.t :=
  {| Evaluation.approved := false;
     Evaluation.feedback := lit "Always reject";
     Evaluation.metadata := {[ lit "status" := lit "rejected" ]} |}.

Definition always_reject_evaluate {W} (caption : str) (w : W)
  : option (Evaluation.t * W) :=
  Some (always_reject, w).

(** The state the tests start from; the first test leaves the key
    [exhausted] out. *)
Definition state_of_test (caption : str) (exhausted : option bool)
  : GraphState.t := {|
  GraphState.product := lit "Prod";
  GraphState.audience := lit "QA";
  GraphState.caption := caption;
  GraphState.feedback := None;
  GraphState.approved := false;
  GraphState.attempts := [];
  GraphState.metadata := ∅;
  GraphState.exhausted := exhausted;
|}.

End Tests.


(** ** The calls a history accounts for *)

(** The calls behind a sequence of attempts: for each attempt the
    generator is called with the feedback in force, and the evaluator with
    the attempt's caption; the verdict's reasons are the feedback of the
    next call. *)
Fixpoint calls_of (feedback : option str) (attempts : list Attempt.t)
  : list Call :=
  match attempts with
  | [] => []
  | attempt :: rest =>
    CallPropose feedback
    :: CallEvaluate (Attempt.caption attempt)
    :: calls_of (Some (Evaluation.feedback (Attempt.evaluation attempt))) rest
  end.

(** The feedback in force after a sequence of attempts: the reasons of the
    last verdict, or the feedback there was before them. *)
Definition feedback_after (feedback : option str) (attempts : list Attempt.t)
  : option str :=
  foldl (fun _ attempt =>
           Some (Evaluation.feedback (Attempt.evaluation attempt)))
        feedback attempts.

Definition rejected (attempt : Attempt.t) : Prop :=
  Evaluation.approved (Attempt.evaluation attempt) = false.

(** An attempt whose verdict the evaluator returned for its caption. *)
Definition returned_by {W : Type}
    (evaluate : str -> W -> option (Evaluation.t * W)) (attempt : Attempt.t)
  : Prop :=
  exists w w',
    evaluate (Attempt.caption attempt) w = Some (Attempt.evaluation attempt, w').

(** The feedback and the attributes of an exhausted state, from the budget
    and the last verdict. *)
Definition exhausted_feedback (max_attempts : Z) (evaluation : Evaluation.t)
  : str :=
  lit "Attempt budget exhausted after " ++ str_of_int max_attempts
  ++ lit " tries. Last feedback: " ++ Evaluation.feedback evaluation.

Definition exhausted_metadata (evaluation : Evaluation.t) : gmap str str :=
  <[lit "exhausted" := lit "true"]>
  (<[lit "status" := lit "rejected"]> (Evaluation.metadata evaluation)).

(** The agents of a run in which neither mode is "llm": the template
    creator as [__init__] builds it and the rule-based critic with its
    default limit of words. *)
Definition rule_based {Temp Env : Type} (product audience : str)
    (w : @Agents Temp Env) : Prop :=
  creator w = TemplateCreator (Creator.__init__ product audience)
  /\ critic w = RuleCritic (Critic.__init__ product Critic.default_max_words).

(** ** adcp_workflow.py *)

Module AdcpWorkflow.

Record AttemptEntry := {
  sequence : Z;
  type : str;
  content : str;
  status : str;
  feedback : str;
}.

Record AttemptLog := {
  adcp_version : str;
  task : str;
  attempts : list AttemptEntry;
}.

(** The loop over [enumerate(attempts, start=idx)] that appends one entry
    for each attempt. *)
Fixpoint entries_from (idx : Z) (attempts : list Attempt.t)
  : list AttemptEntry :=
  match attempts with
  | [] => []
  | attempt :: rest =>
    {| sequence := idx;
       type := lit "text_ad";
       content := Attempt.caption attempt;
       status :=
         default (lit "unknown")
           (Evaluation.metadata (Attempt.evaluation attempt) !! lit "status");
       feedback := Evaluation.feedback (Attempt.evaluation attempt) |}
    :: entries_from (idx + 1) rest
  end.

Definition _attempts_as_adcp (attempts : list Attempt.t) : AttemptLog := {|
  adcp_version := lit "1.0";
  task := lit "creative_generation_log";
  attempts := entries_from 1 attempts;
|}.

(** What [main] prints: a line of text, the reason after "Reason:", and
    the two JSON documents. *)
Inductive printed :=
  | Text (line : str)
  | Reason (feedback : option str)
  | LogJson (log : AttemptLog)
  | PayloadJson (payload : AdcpPayload.Adcp).

(** How [main] ends: it returns, or an exception leaves it. *)
Inductive ending := Returned | Uncaught.

(** The part of [main] after [run_workflow] has returned [final_state]. *)
Definition report `{Builtins} (product audience : str)
    (final_state : GraphState.t) : list printed * ending :=
  let notice :=
    if negb (GraphState.approved final_state)
    then [ Text ([10%N] ++ lit "No approved caption produced.");
           Reason (GraphState.feedback final_state) ]
    else [] in
  let caption := GraphState.caption final_state in
  let attempts := GraphState.attempts final_state in
  let metadata := GraphState.metadata final_state in
  let attempts_log := _attempts_as_adcp attempts in
  let printed_log :=
    notice ++ [ Text ([10%N] ++ lit "Attempt Log (AdCP-style):");
                LogJson attempts_log ] in
  match AdcpPayload.build_adcp_payload product audience caption metadata with
  | None => (printed_log, Uncaught)
  | Some final_payload =>
    (printed_log ++ [ Text ([10%N] ++ lit "Final AdCP JSON:");
                      PayloadJson final_payload ],
     Returned)
  end.

(** The parsed command line. *)
Record Args (Temp : Type) := {
  product : str;
  audience : str;
  max_attempts : Z;
  creator : str;
  critic : str;
  model : str;
  temperature : Temp;
  ollama_base_url : str;
  provider : str;
  api_key : option str;
  openai_base_url : option str;
}.
Arguments product {Temp}.
Arguments audience {Temp}.
Arguments max_attempts {Temp}.
Arguments creator {Temp}.
Arguments critic {Temp}.
Arguments model {Temp}.
Arguments temperature {Temp}.
Arguments ollama_base_url {Temp}.
Arguments provider {Temp}.
Arguments api_key {Temp}.
Arguments openai_base_url {Temp}.

Section Main.

Context `{Builtins}.
Context {Temp Env : Type}.
Variable zero : Temp.
Variable draw : Env -> nat * Env.
Variable llm_propose :
  LLMCreator.t Temp -> option str -> Env -> option (str * Env).
Variable llm_evaluate :
  LLMCritic.t Temp -> str -> Env -> option (Evaluation.t * Env).
Variable constructs : LLM Temp -> bool.
Variable recursion_limit : nat.

(** [main] catches nothing: an exception of [run_workflow] leaves it
    before anything is printed. *)
Definition main (args : Args Temp) (env : Env)
  : list printed * ending :=
  match
    run_workflow zero draw llm_propose llm_evaluate constructs recursion_limit
      (product args) (audience args) (max_attempts args)
      (creator args) (critic args) (model args) (temperature args)
      (ollama_base_url args) (provider args) (api_key args)
      (openai_base_url args) env
  with
  | (NotBuilt _, _) => ([], Uncaught)
  | (Invoked Raised, _) => ([], Uncaught)
  | (Invoked (Ret GraphRecursionError), _) => ([], Uncaught)
  | (Invoked (Ret (Done final_state)), _) =>
    report (product args) (audience args) final_state
  end.

End Main.

End AdcpWorkflow.

(** ** agents.py: the model-backed agents *)

(** More of [str]: [s.splitlines()], [s.replace(old, new)] for a non-empty
    [old], and [s.strip(chars)]. *)
Definition is_linebreak (c : N) : bool :=
  ((0x0A <=? c) && (c <=? 0x0D) || (0x1C <=? c) && (c <=? 0x1E)
   || (c =? 0x85) || (c =? 0x2028) || (c =? 0x2029))%N.

(** [cur] is the line being read; a carriage return followed by a line
    feed is one boundary, and the text after the last boundary is a line
    when it is not empty. *)
Fixpoint splitlines_from (cur : str) (s : str) : list str :=
  match s with
  | [] => match cur with [] => [] | _ => [cur] end
  | c :: t =>
    if is_linebreak c then
      cur ::
      match t with
      | c' :: t' =>
        if (c =? 0x0D)%N && (c' =? 0x0A)%N
        then splitlines_from [] t' else splitlines_from [] t
      | [] => splitlines_from [] t
      end
    else splitlines_from (cur ++ [c]) t
  end.

Definition splitlines (s : str) : list str := splitlines_from [] s.

(** [skip] counts the code points of a replaced occurrence still to pass. *)
Fixpoint replace_from (old new : str) (skip : nat) (s : str) : str :=
  match s with
  | [] => []
  | c :: t =>
    match skip with
    | S skip' => replace_from old new skip' t
    | O =>
      if startswith old s
      then new ++ replace_from old new (length old - 1) t
      else c :: replace_from old new 0 t
    end
  end.

Definition replace (old new s : str) : str := replace_from old new 0 s.

Fixpoint lstrip_chars (chars : str) (s : str) : str :=
  match s with
  | c :: t => if existsb (N.eqb c) chars then lstrip_chars chars t else s
  | [] => []
  end.

Definition strip_chars (chars : str) (s : str) : str :=
  rev (lstrip_chars chars (rev (lstrip_chars chars s))).

(** [x or default] on strings: the empty string is false. *)
Definition str_or (x default : str) : str :=
  match x with [] => default | _ => x end.

(** The lines of a literal that the source writes with line feeds. *)
Definition lines (ls : list str) : str := join [0x0A%N] ls.

Inductive message :=
  | SystemMessage (content : str)
  | HumanMessage (content : str).

(** Text in which white space is single spaces only: every white code
    point is a space, and the code point after it is not white. *)
Definition single_spaced (s : str) : Prop :=
  forall (i : nat) (c : N),
    s !! i = Some c -> isspace c = true ->
    c = 0x20%N
    /\ forall c', s !! S i = Some c' -> isspace c' = false.

Section ChatModel.

Context `{Builtins}.
Context {Temp Env : Type}.

(** [llm.invoke(messages)] as the text [str(getattr(result, "content",
    result))] of its result; [None] is a call that raises. *)
Variable chat : LLM Temp -> list message -> Env -> option (str * Env).

(** [LLMCreator.propose]. *)
Definition LLMCreator_propose (self : LLMCreator.t Temp)
    (feedback : option str) (env : Env) : option (str * Env) :=
  let feedback_text :=
    str_or (default [] feedback) (lit "No prior feedback; follow the rules.") in
  let messages := [
    SystemMessage (lines [
      lit "You are an ad copywriter. Generate ONE short caption that:";
      lit "- Mentions the product name exactly as given.";
      lit "- Is 15 words or fewer.";
      lit "- Includes at least one emoji.";
      lit "- Avoids blocked terms: kill, violence, hate.";
      lit "- Tone: energetic, concise." ]);
    HumanMessage (lines [
      lit "Product: " ++ LLMCreator.product self;
      lit "Audience: " ++ LLMCreator.audience self;
      lit "Feedback: " ++ feedback_text;
      lit "Return only the caption." ])
  ] in
  '(content, env') ← chat (LLMCreator.llm self) messages env;
  let caption := strip content in
  let caption := strip_chars [0x27%N] (strip_chars [0x22%N] caption) in
  let caption := sub_spaces false caption in
  Some (caption, env').

(** [LLMCritic.evaluate]; the first line of an empty answer is an
    [IndexError]. *)
Definition LLMCritic_evaluate (self : LLMCritic.t Temp) (caption : str)
    (env : Env) : option (Evaluation.t * Env) :=
  let messages := [
    SystemMessage (lines [
      lit "You are a strict ad quality and safety checker.";
      lit "- Caption must mention the product name: "
        ++ LLMCritic.product self ++ lit ".";
      lit "- Caption must be " ++ str_of_int (LLMCritic.max_words self)
        ++ lit " words or fewer.";
      lit "- Caption must include at least one emoji.";
      lit "- Avoid blocked terms: kill, violence, hate.";
      lit "Respond with either:";
      lit "APPROVED";
      lit "or";
      lit "REJECTED: <concise feedback listing violated rules>" ]);
    HumanMessage (lines [
      lit "Product: " ++ LLMCritic.product self;
      lit "Caption: " ++ caption;
      lit "Evaluate now." ])
  ] in
  '(content, env') ← chat (LLMCritic.llm self) messages env;
  let text := strip content in
  first_line ← head (splitlines (strip text));
  let first_line := lower first_line in
  let approved :=
    contains (lit "approved") first_line
    && negb (contains (lit "rejected") first_line) in
  let '(feedback, status, brand_safety) :=
    if approved
    then (lit "Approved", lit "approved", lit "passed")
    else (str_or (strip (replace (lit "REJECTED:") [] text)) (lit "Rejected"),
          lit "rejected", lit "failed") in
  let word_count := len (split caption) in
  let metadata : gmap str str :=
    <[lit "status" := status]>
    (<[lit "length" := str_of_int (len caption)]>
    (<[lit "word_count" := str_of_int word_count]>
    {[ lit "brand_safety_check" := brand_safety ]})) in
  Some ({| Evaluation.approved := approved;
           Evaluation.feedback := feedback;
           Evaluation.metadata := metadata |}, env').

End ChatModel.

(** A string of white space only. *)
Definition blank (s : str) : Prop := Forall (fun c => isspace c = true) s.

(** A word: not empty and without white space. *)
Definition word (w : str) : Prop :=
  w <> [] /\ Forall (fun c => isspace c = false) w.

(** *** Stand-ins for the chat model *)

(** A chat model that answers [answer] to everything; the world counts
    its calls. *)
Definition answering (answer : str) (llm : LLM Z) (messages : list message)
    (calls : nat) : option (str * nat) :=
  Some (answer, S calls).

Definition critic_of_tests : LLMCritic.t Z :=
  LLMCritic.__init__ (lit "Prod") 15 (lit "llama3:8b") 0%Z
    (lit "http://localhost:11434") None.

(** Attributes that [build_adcp_payload] can read: [length] and
    [word_count], where present, are accepted by [int]. *)
Definition parseable `{Builtins} (metadata : gmap str str) : Prop :=
  (forall v, metadata !! lit "length" = Some v -> is_Some (int_of_str v))
  /\ (forall v, metadata !! lit "word_count" = Some v -> is_Some (int_of_str v)).

(** * Properties *)

(** ** String literals and built-ins *)

Lemma lit_emoji : lit "⚡🚀🏆✨🔥" = [0x26A1; 0x1F680; 0x1F3C6; 0x2728; 0x1F525]%N.
Proof. reflexivity. Qed.

Lemma startswith_app (p s : str) : startswith p (p ++ s) = true.
Proof.
  induction p as [|a p IH]; simpl; [done|].
  by rewrite N.eqb_refl, IH.
Qed.

Lemma contains_prefix (p s : str) : contains p (p ++ s) = true.
Proof.
  destruct (p ++ s) eqn:E; simpl; rewrite <- E, startswith_app; done.
Qed.

(** ** The nodes of the graph *)

Section ControllerFacts.

Context {W : Type}.
Variable propose : option str -> W -> option (str * W).
Variable evaluate : str -> W -> option (Evaluation.t * W).
Variable max_attempts : Z.

#[local] Abbreviation creator := (_creator_node propose).
#[local] Abbreviation critic := (_critic_node evaluate max_attempts).
#[local] Abbreviation record := (record_evaluation max_attempts).
#[local] Abbreviation graph := (build_graph propose evaluate max_attempts).

Lemma creator_exhausted state r :
  GraphState.get_exhausted state = true -> creator state r = (Ret state, r).
Proof. intros E. unfold _creator_node. by rewrite E. Qed.

Lemma critic_exhausted state r :
  GraphState.get_exhausted state = true -> critic state r = (Ret state, r).
Proof. intros E. unfold _critic_node. by rewrite E. Qed.

Lemma creator_live state r :
  GraphState.get_exhausted state = false ->
  creator state r =
    match propose (GraphState.feedback state) (world r) with
    | Some (caption, w) =>
      (Ret (with_caption state caption),
       logged r w [CallPropose (GraphState.feedback state)])
    | None => (Raised, logged r (world r) [CallPropose (GraphState.feedback state)])
    end.
Proof.
  intros E. unfold _creator_node, bind, call_propose, ret, logged. rewrite E.
  by destruct (propose _ _) as [[c w]|].
Qed.

Lemma critic_live state r :
  GraphState.get_exhausted state = false ->
  critic state r =
    match evaluate (GraphState.caption state) (world r) with
    | Some (evaluation, w) =>
      (Ret (record state evaluation),
       logged r w [CallEvaluate (GraphState.caption state)])
    | None => (Raised, logged r (world r) [CallEvaluate (GraphState.caption state)])
    end.
Proof.
  intros E. unfold _critic_node, bind, call_evaluate, ret, logged. rewrite E.
  by destruct (evaluate _ _) as [[c w]|].
Qed.

Lemma record_attempts state evaluation :
  GraphState.attempts (record state evaluation) =
  GraphState.attempts state ++
    [ {| Attempt.caption := GraphState.caption state;
         Attempt.evaluation := evaluation |} ].
Proof. unfold record_evaluation. by destruct (_ && _). Qed.

Lemma record_flags state evaluation :
  ~ (GraphState.approved (record state evaluation) = true
     /\ GraphState.get_exhausted (record state evaluation) = true).
Proof.
  unfold record_evaluation, GraphState.get_exhausted.
  destruct (_ && _); simpl; intros [? ?]; congruence.
Qed.

Lemma record_retry state evaluation :
  _route (record state evaluation) = retry ->
  Evaluation.approved evaluation = false
  /\ (len (GraphState.attempts state) + 1 < max_attempts)%Z
  /\ GraphState.get_exhausted (record state evaluation) = false.
Proof.
  unfold record_evaluation, _route, len.
  destruct (Z.geb_spec (Z.of_nat (length (GraphState.attempts state ++
    [ {| Attempt.caption := GraphState.caption state;
         Attempt.evaluation := evaluation |} ]))) max_attempts) as [Hge|Hlt];
  destruct (Evaluation.approved evaluation) eqn:Ha; simpl; try rewrite Ha;
    try discriminate.
  intros _. rewrite length_app in Hlt. simpl in Hlt. split; [done|]. split; [lia|done].
Qed.

Lemma record_done state evaluation :
  _route (record state evaluation) = done ->
  GraphState.approved (record state evaluation) = true
  \/ GraphState.get_exhausted (record state evaluation) = true.
Proof.
  unfold _route. destruct (GraphState.get_exhausted _); [by right|].
  destruct (GraphState.approved _); [by left|discriminate].
Qed.

End ControllerFacts.

(** ** Runs of the graph *)

Section RunFacts.

Context {W : Type}.
Variable propose : option str -> W -> option (str * W).
Variable evaluate : str -> W -> option (Evaluation.t * W).
Variable max_attempts : Z.

#[local] Abbreviation record := (record_evaluation max_attempts).
#[local] Abbreviation graph := (build_graph propose evaluate max_attempts).

Lemma logged_logged (r : Run W) w1 cs1 w2 cs2 :
  logged (logged r w1 cs1) w2 cs2 = logged r w2 (cs1 ++ cs2).
Proof. unfold logged; simpl. by rewrite app_assoc. Qed.

(** One pass through creator and critic from a state that is not
    exhausted. *)
Lemma iterate_S iterations state r :
  GraphState.get_exhausted state = false ->
  iterate graph (S iterations) state r =
    let feedback := GraphState.feedback state in
    match propose feedback (world r) with
    | None => (Raised, logged r (world r) [CallPropose feedback])
    | Some (caption, w1) =>
      let log := [CallPropose feedback; CallEvaluate caption] in
      match evaluate caption w1 with
      | None => (Raised, logged r w1 log)
      | Some (evaluation, w2) =>
        let state' := record (with_caption state caption) evaluation in
        match _route state' with
        | done => (Ret (AtEnd state'), logged r w2 log)
        | retry => iterate graph iterations state' (logged r w2 log)
        end
      end
    end.
Proof.
  intros E. cbn [iterate build_graph creator_node critic_node router].
  unfold bind at 1. rewrite creator_live by done.
  destruct (propose _ _) as [[caption w1]|]; [|done].
  unfold bind at 1. rewrite critic_live by done. cbn [world logged GraphState.caption with_caption].
  destruct (evaluate _ _) as [[evaluation w2]|].
  - fold (logged r w1 [CallPropose (GraphState.feedback state)]).
    rewrite logged_logged. cbn [app]. destruct (_route _); reflexivity.
  - fold (logged r w1 [CallPropose (GraphState.feedback state)]).
    by rewrite logged_logged.
Qed.

(** What at most [iterations] iterations from a state that is not
    exhausted do: the calls they add, the attempts they append and how
    they stop. *)
Lemma iterate_run iterations : forall state r out r',
  GraphState.get_exhausted state = false ->
  iterate graph iterations state r = (out, r') ->
  exists cs,
    calls r' = calls r ++ cs
    /\ count_propose cs <= iterations
    /\ count_evaluate cs <= count_propose cs
    /\ (Z.of_nat (count_propose cs)
        <= Z.max 1 (max_attempts - len (GraphState.attempts state)))%Z
    /\ match out with
       | Raised => True
       | Ret h =>
         count_propose cs = count_evaluate cs
         /\ (exists new,
               GraphState.attempts (progress_state h)
               = GraphState.attempts state ++ new
               /\ length new = count_evaluate cs)
         /\ match h with
            | AtEnd state' => _route state' = done /\ 1 <= count_evaluate cs
            | Pending state' =>
              count_evaluate cs = iterations
              /\ GraphState.get_exhausted state' = false
              /\ (0 < iterations ->
                  (len (GraphState.attempts state') < max_attempts)%Z)
            end
       end.
Proof.
  induction iterations as [|iterations IH]; intros state r out r' E Hrun.
  - cbn in Hrun. injection Hrun as <- <-. exists []. cbn.
    rewrite app_nil_r. repeat split; try lia; try done.
    exists []. by rewrite app_nil_r.
  - rewrite iterate_S in Hrun by done. cbn zeta in Hrun.
    destruct (propose _ _) as [[caption w1]|].
    2:{ injection Hrun as <- <-. eexists. split; [reflexivity|].
        cbn. repeat split; lia. }
    destruct (evaluate _ _) as [[evaluation w2]|].
    2:{ injection Hrun as <- <-. eexists. split; [reflexivity|].
        cbn. repeat split; lia. }
    set (state' := record (with_caption state caption) evaluation) in *.
    assert (Hatt : GraphState.attempts state' = GraphState.attempts state ++
              [{| Attempt.caption := caption; Attempt.evaluation := evaluation |}])
      by apply record_attempts.
    destruct (_route state') eqn:Hroute.
    + injection Hrun as <- <-. eexists. split; [reflexivity|].
      cbn. repeat split; try lia.
      * eexists. split; [exact Hatt|done].
      * done.
    + apply record_retry in Hroute as (Happ & Hlt & Hex).
      cbn [with_caption GraphState.attempts] in Hlt.
      apply IH in Hrun as (cs & Hcs & Hp & Hep & Hbound & Hout); [|done].
      exists ([CallPropose (GraphState.feedback state); CallEvaluate caption] ++ cs).
      split; [cbn in *; by rewrite Hcs, <- app_assoc|].
      assert (Hlen : len (GraphState.attempts state')
                     = (len (GraphState.attempts state) + 1)%Z).
      { unfold len. rewrite Hatt, length_app. cbn. lia. }
      rewrite Hlen in Hbound.
      change (count_propose (_ ++ cs)) with (S (count_propose cs)).
      change (count_evaluate (_ ++ cs)) with (S (count_evaluate cs)).
      split; [lia|]. split; [lia|]. split; [lia|].
      destruct out as [h|]; [|done].
      destruct Hout as (Hpe & (new & Hnew & Hnewlen) & Hh).
      split; [lia|]. split.
      * eexists. rewrite Hnew, Hatt, <- app_assoc. split; [reflexivity|].
        rewrite length_app. cbn. lia.
      * destruct h as [s'|s'].
        -- destruct Hh. split; [done|lia].
        -- destruct Hh as (Hn & Hex' & Hlt'). split; [lia|]. split; [done|].
           intros _. destruct iterations as [|iterations].
           ++ cbn in Hnew. 
              assert (new = []) as -> by (destruct new; [done|cbn in *; lia]).
              rewrite app_nil_r in Hnew. rewrite Hnew. lia.
           ++ apply Hlt'. lia.
Qed.

End RunFacts.

(** ** The transitions of the controller *)

Section Transitions.

Context {W : Type}.
Variable propose : option str -> W -> option (str * W).
Variable evaluate : str -> W -> option (Evaluation.t * W).
Variable max_attempts : Z.

#[local] Abbreviation creator := (_creator_node propose).
#[local] Abbreviation critic := (_critic_node evaluate max_attempts).

Lemma creator_flags state r state' r' :
  creator state r = (Ret state', r') ->
  GraphState.approved state' = GraphState.approved state
  /\ GraphState.get_exhausted state' = GraphState.get_exhausted state
  /\ GraphState.attempts state' = GraphState.attempts state.
Proof.
  destruct (GraphState.get_exhausted state) eqn:E.
  - rewrite creator_exhausted by done. by intros [= <- <-].
  - rewrite creator_live by done.
    destruct (propose _ _) as [[caption w]|]; [|done].
    by intros [= <- <-].
Qed.

(** C2. In every state reachable from the initial state by the two nodes,
    in any order and whatever the capabilities answer, [approved] and
    [exhausted] are not both true. *)
Theorem flags_exclusive state :
  reachable propose evaluate max_attempts state ->
  ~ (GraphState.approved state = true
     /\ GraphState.get_exhausted state = true).
Proof.
  induction 1 as [product audience
                 | state r state' r' _ IH Hnode
                 | state r state' r' _ IH Hnode].
  - cbn. intros [? _]. discriminate.
  - apply creator_flags in Hnode as (-> & -> & _). exact IH.
  - destruct (GraphState.get_exhausted state) eqn:E.
    + rewrite critic_exhausted in Hnode by done. injection Hnode as <- <-.
      by rewrite E.
    + rewrite critic_live in Hnode by done.
      destruct (evaluate _ _) as [[evaluation w]|]; [|done].
      injection Hnode as <- <-. apply record_flags.
Qed.

(** C4. An evaluate step appends the attempt and, when the verdict is
    rejected and the history is then at least [max_attempts] long, sets
    [exhausted] true, [approved] false, the feedback to the budget message
    and the attributes to the verdict's with [status] set to rejected and
    [exhausted] to true; otherwise it copies the verdict's flag, reasons
    and attributes and sets [exhausted] false. *)
Theorem critic_verdict state r evaluation w :
  GraphState.get_exhausted state = false ->
  evaluate (GraphState.caption state) (world r) = Some (evaluation, w) ->
  exists state',
    critic state r
    = (Ret state', logged r w [CallEvaluate (GraphState.caption state)])
    /\ GraphState.attempts state'
       = GraphState.attempts state ++
         [ {| Attempt.caption := GraphState.caption state;
              Attempt.evaluation := evaluation |} ]
    /\ GraphState.caption state' = GraphState.caption state
    /\ (Evaluation.approved evaluation = false ->
        (max_attempts <= len (GraphState.attempts state'))%Z ->
        GraphState.exhausted state' = Some true
        /\ GraphState.approved state' = false
        /\ GraphState.feedback state'
           = Some (lit "Attempt budget exhausted after "
                   ++ str_of_int max_attempts
                   ++ lit " tries. Last feedback: "
                   ++ Evaluation.feedback evaluation)
        /\ GraphState.metadata state'
           = <[lit "status" := lit "rejected"]>
             (<[lit "exhausted" := lit "true"]>
              (Evaluation.metadata evaluation))
        /\ GraphState.metadata state' !! lit "status" = Some (lit "rejected")
        /\ GraphState.metadata state' !! lit "exhausted" = Some (lit "true")
        /\ (forall key : str,
              key <> lit "status" -> key <> lit "exhausted" ->
              GraphState.metadata state' !! key
              = Evaluation.metadata evaluation !! key))
    /\ (Evaluation.approved evaluation = true
        \/ (len (GraphState.attempts state') < max_attempts)%Z ->
        GraphState.exhausted state' = Some false
        /\ GraphState.approved state' = Evaluation.approved evaluation
        /\ GraphState.feedback state' = Some (Evaluation.feedback evaluation)
        /\ GraphState.metadata state' = Evaluation.metadata evaluation).
Proof.
  intros E Hev. rewrite critic_live, Hev by done.
  eexists. split; [reflexivity|]. split; [apply record_attempts|].
  assert (lit "status" <> lit "exhausted") as Hne by (by vm_compute).
  unfold record_evaluation.
  set (attempts := GraphState.attempts state ++ _).
  destruct (Z.geb_spec (len attempts) max_attempts) as [Hge|Hlt];
    destruct (Evaluation.approved evaluation) eqn:Ha;
    cbn [andb negb GraphState.caption GraphState.exhausted GraphState.approved
         GraphState.feedback GraphState.metadata GraphState.attempts].
  all: split; [done|].
  all: split; [intros Hrej Hlen; try discriminate; try lia
              |intros [Hacc|Hlen]; try discriminate; try lia; done].
  split; [done|]. split; [done|]. split.
  { reflexivity. }
  split; [by rewrite insert_insert_ne|].
  split; [by rewrite lookup_insert_ne, lookup_insert_eq|].
  split; [by rewrite lookup_insert_eq|].
  intros key H1 H2. by rewrite !lookup_insert_ne.
Qed.

(** C5, as the code has it. On a state whose [exhausted] flag is true,
    the generate step and the evaluate step return that state unchanged
    and call neither capability: the run, its world and its calls, is
    unchanged too. *)
Theorem exhausted_no_op state r :
  GraphState.get_exhausted state = true ->
  creator state r = (Ret state, r) /\ critic state r = (Ret state, r).
Proof.
  intros E. split; [by apply creator_exhausted|by apply critic_exhausted].
Qed.

End Transitions.

(** ** The rule-based critic *)

Section CriticFacts.

Context `{Builtins}.

Lemma existsb_negb_forallb {A} (f : A -> bool) (l : list A) :
  existsb f l = negb (forallb (fun x => negb (f x)) l).
Proof.
  induction l as [|a l IH]; [done|]. cbn. rewrite IH. by destruct (f a).
Qed.

(** C6. The critic's verdict is the one of the four rules taken in their
    fixed order: accepted with "Approved" and the attributes [status],
    [length], [word_count] and [brand_safety_check] when none fails, and
    otherwise rejected, the reasons being the messages of all the failed
    rules in that order joined by spaces and the attributes [status] only;
    and no rule fails exactly when the caption has an emoji, at most
    [max_words] words, the product name and no blocked term. *)
Theorem critic_evaluate_rules (self : Critic.t) (caption : str) :
  Critic.evaluate self caption = Critic.evaluate_by_rules self caption
  /\ (Critic.failures (Critic.rules self caption) = [] <->
      AdcpPayload.contains_emoji caption = true
      /\ (len (split caption) <= Critic.max_words self)%Z
      /\ contains (lower (Critic.product self)) (lower caption) = true
      /\ forall term, term ∈ Critic.blocklist self ->
                      contains term (lower caption) = false)
  /\ (Evaluation.approved (Critic.evaluate self caption) = true <->
      Critic.failures (Critic.rules self caption) = []).
Proof.
  assert (Hblock :
    forallb (fun term => negb (contains term (lower caption)))
            (elements (Critic.blocklist self)) = true <->
    forall term, term ∈ Critic.blocklist self ->
                 contains term (lower caption) = false).
  { rewrite forallb_forall. split.
    - intros Hall term Hin. apply negb_true_iff, Hall.
      apply list_elem_of_In. by apply elem_of_elements.
    - intros Hall term Hin. apply negb_true_iff, Hall.
      apply elem_of_elements. by apply list_elem_of_In. }
  split; [|split].
  - unfold Critic.evaluate, Critic.evaluate_by_rules, Critic.rules, Critic.failures.
    rewrite existsb_negb_forallb, Z.gtb_ltb, Z.ltb_antisym.
    cbn [List.filter Critic.holds Critic.message].
    destruct (AdcpPayload.contains_emoji caption);
      destruct (len (split caption) <=? Critic.max_words self)%Z;
      destruct (contains (lower (Critic.product self)) (lower caption));
      destruct (forallb _ _);
      cbn [negb app fmap list_fmap Critic.message].
    all: unfold list_to_map; cbn [foldr fst snd]; rewrite ?insert_empty.
    all: reflexivity.
  - unfold Critic.rules, Critic.failures.
    cbn [List.filter Critic.holds Critic.message].
    rewrite <- Hblock, <- Z.leb_le.
    destruct (AdcpPayload.contains_emoji caption);
      destruct (len (split caption) <=? Critic.max_words self)%Z;
      destruct (contains (lower (Critic.product self)) (lower caption));
      destruct (forallb _ _);
      cbn [negb fmap list_fmap Critic.message].
    all: split; [intros Hnil|intros (? & ? & ? & ?)]; try discriminate.
    all: repeat split; reflexivity.
  - unfold Critic.evaluate, Critic.rules, Critic.failures.
    rewrite existsb_negb_forallb, Z.gtb_ltb, Z.ltb_antisym.
    cbn [List.filter Critic.holds Critic.message].
    destruct (AdcpPayload.contains_emoji caption);
      destruct (len (split caption) <=? Critic.max_words self)%Z;
      destruct (contains (lower (Critic.product self)) (lower caption));
      destruct (forallb _ _);
      cbn [negb app fmap list_fmap Critic.message Evaluation.approved].
    all: split; intros Hx; try discriminate Hx; reflexivity.
Qed.

End CriticFacts.

(** ** The final payload *)

Section PayloadFacts.

Context `{Builtins}.

(** The attribute [key] as an integer: parsed when the mapping has it,
    the recomputed value otherwise. *)
Lemma int_get_or_int (meta : gmap str str) (key : str) (recomputed : Z) :
  AdcpPayload.int (AdcpPayload.get_or_int meta key recomputed)
  = match meta !! key with
    | Some v => int_of_str v
    | None => Some recomputed
    end.
Proof. unfold AdcpPayload.get_or_int. by destruct (meta !! key). Qed.

(** C8, as the code has it. When the [length] and [word_count]
    attributes, where present, are integer literals, the projection
    returns the fixed envelope: version "1.0", task "creative_generation",
    the audience, the caption as the only asset, a [text_ad], the product,
    and a metadata block whose [length] and [word_count] are the parsed
    attributes when present and otherwise the caption's number of code
    points and of white-space separated words, whose sentiment is
    "energetic" and whose [brand_safety_check] is the attribute or
    "unknown". *)
Theorem build_adcp_payload_envelope
    (product audience caption : str) (meta : gmap str str) (l wc : Z) :
  match meta !! lit "length" with
  | Some v => int_of_str v = Some l
  | None => l = len caption
  end ->
  match meta !! lit "word_count" with
  | Some v => int_of_str v = Some wc
  | None => wc = len (split caption)
  end ->
  AdcpPayload.build_adcp_payload product audience caption meta
  = Some {|
      AdcpPayload.adcp_version := lit "1.0";
      AdcpPayload.task := lit "creative_generation";
      AdcpPayload.payload := {|
        AdcpPayload.target_audience := audience;
        AdcpPayload.creative_assets :=
          [ {| AdcpPayload.type := lit "text_ad";
               AdcpPayload.content := caption |} ];
        AdcpPayload.product := product;
      |};
      AdcpPayload.metadata := {|
        AdcpPayload.length := l;
        AdcpPayload.word_count := wc;
        AdcpPayload.sentiment := lit "energetic";
        AdcpPayload.brand_safety_check :=
          match meta !! lit "brand_safety_check" with
          | Some v => v
          | None => lit "unknown"
          end;
      |};
    |}.
Proof.
  intros Hl Hwc. unfold AdcpPayload.build_adcp_payload.
  rewrite !int_get_or_int.
  destruct (meta !! lit "length") as [v|]; [rewrite Hl|subst l];
    (destruct (meta !! lit "word_count") as [v'|]; [rewrite Hwc|subst wc]);
    cbn [mbind option_bind]; by destruct (meta !! lit "brand_safety_check").
Qed.

(** An attribute that is present and is no integer literal makes the
    projection raise. *)
Lemma build_adcp_payload_raises
    (product audience caption : str) (meta : gmap str str) (key v : str) :
  key = lit "length" \/ key = lit "word_count" ->
  meta !! key = Some v ->
  int_of_str v = None ->
  AdcpPayload.build_adcp_payload product audience caption meta = None.
Proof.
  intros Hkey Hv Hint. unfold AdcpPayload.build_adcp_payload.
  rewrite !int_get_or_int.
  destruct Hkey as [-> | ->]; rewrite Hv, Hint; [done|].
  by destruct (match meta !! lit "length" with Some _ => _ | None => _ end).
Qed.

End PayloadFacts.

(** ** Building a run *)

Section RunWorkflowFacts.

Context `{Builtins}.
Context {Temp Env : Type}.
Variable zero : Temp.
Variable draw : Env -> nat * Env.
Variable llm_propose :
  LLMCreator.t Temp -> option str -> Env -> option (str * Env).
Variable llm_evaluate :
  LLMCritic.t Temp -> str -> Env -> option (Evaluation.t * Env).
Variable constructs : LLM Temp -> bool.
Variable recursion_limit : nat.

(** C9. With provider "openai" and a model identifier that contains ":",
    [_build_llm] raises its [ValueError], and [run_workflow] ends with
    that error, whose message is not empty, whatever its other arguments
    and whatever the constructors of the clients and the recursion limit
    would do: no capability has been called and the graph has not been
    run. *)
Theorem openai_model_tag_rejected
    (product audience : str) (max_attempts : Z)
    (creator_mode critic_mode model : str) (temperature : Temp)
    (base_url : str) (api_key openai_base_url : option str) (env : Env) :
  contains (lit ":") model = true ->
  exists message,
    message <> []
    /\ contains (lit "provider=openai but model looks like an Ollama tag")
                message = true
    /\ _build_llm constructs (lit "openai") model temperature base_url api_key
                  openai_base_url = inl (ValueError message)
    /\ run_workflow zero draw llm_propose llm_evaluate constructs
         recursion_limit product audience
         max_attempts creator_mode critic_mode model temperature base_url
         (lit "openai") api_key openai_base_url env
       = (NotBuilt (ValueError message), []).
Proof.
  intros Hmodel. eexists. split; [|split; [|split]].
  3:{ unfold _build_llm. rewrite decide_True by done. rewrite Hmodel.
      reflexivity. }
  - by vm_compute.
  - by vm_compute.
  - unfold run_workflow, _build_llm. rewrite decide_True by done.
    by rewrite Hmodel.
Qed.

(** Any other provider, and "openai" with a model name without ":", gets
    the client its constructor returns. *)
Lemma build_llm_accepts (provider model : str) (temperature : Temp)
    (base_url : str) (api_key openai_base_url : option str) :
  (forall llm, constructs llm = true) ->
  provider <> lit "openai" \/ contains (lit ":") model = false ->
  exists llm,
    _build_llm constructs provider model temperature base_url api_key
      openai_base_url
    = inr llm.
Proof.
  intros Hconstructs Hok. unfold _build_llm, construct.
  destruct (decide (provider = lit "openai")) as [-> | Hne].
  - destruct Hok as [Hne | ->]; [done|]. rewrite Hconstructs. by eexists.
  - rewrite Hconstructs. by eexists.
Qed.

(** A constructor that raises leaves [_build_llm] with its exception. *)
Lemma build_llm_client_error (provider model : str) (temperature : Temp)
    (base_url : str) (api_key openai_base_url : option str) :
  (forall llm, constructs llm = false) ->
  provider <> lit "openai" \/ contains (lit ":") model = false ->
  _build_llm constructs provider model temperature base_url api_key
    openai_base_url
  = inl ClientError.
Proof.
  intros Hconstructs Hok. unfold _build_llm, construct.
  destruct (decide (provider = lit "openai")) as [-> | Hne].
  - destruct Hok as [Hne | ->]; [done|]. rewrite Hconstructs. reflexivity.
  - rewrite Hconstructs. reflexivity.
Qed.

End RunWorkflowFacts.

(** ** The template creator *)

Section CreatorFacts.

Context `{Builtins}.

Lemma propose_self (self : Creator.t) feedback r caption self' :
  Creator.propose self feedback r = Some (caption, self') -> self' = self.
Proof.
  unfold Creator.propose.
  destruct feedback as [fb|], (Creator.attempts self) as [|a l];
    intros Hp; simplify_option_eq; done.
Qed.

Lemma reachable_init_only (product audience : str) (self : Creator.t) :
  Creator.reachable product audience self ->
  self = Creator.__init__ product audience.
Proof.
  induction 1 as [|self feedback r caption self' _ IH Hp]; [done|].
  apply propose_self in Hp. congruence.
Qed.

Ltac eval_lits :=
  repeat match goal with
  | |- context [lit ?s] =>
    let v := eval vm_compute in (lit s) in change (lit s) with v
  end.

(** Formatting each template gives the caption written out. *)
Lemma format_templates (product audience : str) (kwargs : gmap str str) (i : nat) :
  kwargs !! lit "product" = Some product ->
  kwargs !! lit "audience" = Some audience ->
  i < 4 ->
  exists template caption,
    Creator.templates (Creator.__init__ product audience) !! i = Some template
    /\ format template kwargs = Some caption
    /\ Creator.captions product audience !! i = Some caption.
Proof.
  intros Hp Ha Hi.
  change (lit "product") with [112; 114; 111; 100; 117; 99; 116]%N in Hp.
  change (lit "audience") with [97; 117; 100; 105; 101; 110; 99; 101]%N in Ha.
  destruct i as [|[|[|[|i]]]]; [| | | |lia]; eexists; eexists.
  all: split; [reflexivity|].
  all: split; [|reflexivity].
  all: eval_lits; unfold format.
  all: repeat (cbn [format_from N.eqb Pos.eqb app mbind option_bind];
               rewrite ?Hp, ?Ha).
  all: reflexivity.
Qed.

(** C10. On every creator object a program can hold the internal list of
    attempts is empty, and [propose] returns, for every feedback, an
    absent one or a rejection reason, the caption it returns for no
    feedback: the template drawn with product and audience substituted,
    one of four captions; the object is left as it was. *)
Theorem creator_ignores_feedback
    (product audience : str) (self : Creator.t)
    (feedback : option str) (r : nat) :
  Creator.reachable product audience self ->
  Creator.attempts self = []
  /\ exists caption,
       Creator.propose self feedback r = Some (caption, self)
       /\ Creator.propose self None r = Some (caption, self)
       /\ Creator.captions product audience !! (r mod 4) = Some caption.
Proof.
  intros Hreach. apply reachable_init_only in Hreach as ->.
  split; [reflexivity|].
  destruct (format_templates product audience
              (<[lit "product" := product]> {[lit "audience" := audience]})
              (r mod 4))
    as (template & caption & Ht & Hf & Hc).
  { apply lookup_insert_eq. }
  { rewrite lookup_insert_ne by (by vm_compute). apply lookup_singleton_eq. }
  { apply Nat.mod_upper_bound. lia. }
  exists caption.
  assert (Hpropose : forall fb,
    Creator.propose (Creator.__init__ product audience) fb r
    = Some (caption, Creator.__init__ product audience)).
  { intros fb. unfold Creator.propose, Creator._pick_template.
    cbn [Creator.attempts Creator.__init__ Creator.product Creator.audience].
    change (length (Creator.templates _)) with 4.
    destruct fb; rewrite Ht; cbn [mbind option_bind]; by rewrite Hf. }
  by rewrite !Hpropose.
Qed.

End CreatorFacts.

(** ** The properties on the scenarios of the tests *)

Section Scenarios.

#[local] Existing Instance ascii_builtins.

Lemma flags_exclusive_witness :
  let state :=
    record_evaluation 0
      (with_caption (initial_state (lit "Prod") (lit "QA")) (lit "bad caption"))
      Tests.always_reject in
  ~ (GraphState.approved state = true
     /\ GraphState.get_exhausted state = true).
Proof.
  intros state.
  apply (flags_exclusive Tests.sequence_propose Tests.always_reject_evaluate 0).
  apply (reachable_critic _ _ _
           (with_caption (initial_state (lit "Prod") (lit "QA")) (lit "bad caption"))
           {| world := []; calls := [] |} state
           {| world := []; calls := [CallEvaluate (lit "bad caption")] |}).
  - apply (reachable_creator _ _ _ (initial_state (lit "Prod") (lit "QA"))
             {| world := [lit "bad caption"]; calls := [] |} _
             {| world := []; calls := [CallPropose None] |}).
    + apply reachable_initial.
    + vm_compute. reflexivity.
  - vm_compute. reflexivity.
Defined.

Lemma critic_verdict_witness :
  exists state',
    _critic_node Tests.always_reject_evaluate 0
      (Tests.state_of_test (lit "bad caption") (Some false))
      {| world := tt; calls := [] |}
    = (Ret state',
       {| world := tt; calls := [CallEvaluate (lit "bad caption")] |})
    /\ GraphState.exhausted state' = Some true
    /\ GraphState.approved state' = false
    /\ GraphState.feedback state'
       = Some (lit "Attempt budget exhausted after 0 tries. Last feedback: Always reject")
    /\ GraphState.metadata state' !! lit "status" = Some (lit "rejected")
    /\ GraphState.metadata state' !! lit "exhausted" = Some (lit "true").
Proof.
  destruct (critic_verdict Tests.always_reject_evaluate 0
              (Tests.state_of_test (lit "bad caption") (Some false))
              {| world := tt; calls := [] |} Tests.always_reject tt)
    as (state' & Hnode & Hatt & _ & Hexhausted & _); [reflexivity|reflexivity|].
  exists state'. split; [exact Hnode|].
  destruct Hexhausted as (He & Ha & Hf & _ & Hs & Hx & _);
    [reflexivity|rewrite Hatt; vm_compute; discriminate|].
  repeat split; assumption.
Defined.

(** An accepted state is not exhausted: both nodes call their capability
    on it and return another state. *)
Lemma accepted_state_not_no_op :
  let state := {|
    GraphState.product := lit "Prod";
    GraphState.audience := lit "QA";
    GraphState.caption := lit "this one is ok";
    GraphState.feedback := Some (lit "Approved");
    GraphState.approved := true;
    GraphState.attempts := [];
    GraphState.metadata := {[ lit "status" := lit "approved" ]};
    GraphState.exhausted := Some false;
  |} in
  let r : Run (list str) := {| world := []; calls := [] |} in
  GraphState.approved state = true
  /\ _route state = done
  /\ _creator_node Tests.sequence_propose state r
     = (Ret (with_caption state (lit "fallback")),
        {| world := []; calls := [CallPropose (Some (lit "Approved"))] |})
  /\ _creator_node Tests.sequence_propose state r <> (Ret state, r)
  /\ _critic_node Tests.always_reject_evaluate 3 state r <> (Ret state, r)
  /\ calls (snd (_critic_node Tests.always_reject_evaluate 3 state r))
     = [CallEvaluate (lit "this one is ok")].
Proof.
  intros state r. split; [reflexivity|]. split; [reflexivity|].
  split; [reflexivity|]. split; [|split].
  - vm_compute. intros Heq. discriminate Heq.
  - vm_compute. intros Heq. discriminate Heq.
  - reflexivity.
Qed.

Lemma exhausted_no_op_witness :
  let state :=
    record_evaluation 0 (Tests.state_of_test (lit "bad caption") (Some false))
      Tests.always_reject in
  let r : Run (list str) := {| world := [lit "next"]; calls := [] |} in
  _creator_node Tests.sequence_propose state r = (Ret state, r)
  /\ _critic_node Tests.always_reject_evaluate 0 state r = (Ret state, r).
Proof.
  intros state r.
  apply (exhausted_no_op Tests.sequence_propose Tests.always_reject_evaluate 0).
  reflexivity.
Defined.

End Scenarios.

Section MoreScenarios.

#[local] Existing Instance ascii_builtins.

(** Scenario C, with the critic of the tests: "Prod rocks ⚡" breaks no
    rule. *)
Lemma critic_evaluate_rules_witness :
  let critic := Critic.__init__ (lit "Prod") 10 in
  Critic.failures (Critic.rules critic (lit "Prod rocks ⚡")) = []
  /\ Evaluation.approved (Critic.evaluate critic (lit "Prod rocks ⚡")) = true.
Proof.
  intros critic.
  destruct (critic_evaluate_rules critic (lit "Prod rocks ⚡"))
    as (_ & _ & Happroved).
  assert (Hnone : Critic.failures (Critic.rules critic (lit "Prod rocks ⚡")) = [])
    by (vm_compute; reflexivity).
  split; [exact Hnone|]. apply Happroved. exact Hnone.
Defined.

(** Scenario E. *)
Lemma build_adcp_payload_envelope_witness :
  AdcpPayload.build_adcp_payload (lit "Prod") (lit "QA") (lit "Prod rocks ⚡")
    (<[lit "length" := lit "12"]>
     (<[lit "word_count" := lit "3"]>
      {[ lit "brand_safety_check" := lit "passed" ]}))
  = Some {|
      AdcpPayload.adcp_version := lit "1.0";
      AdcpPayload.task := lit "creative_generation";
      AdcpPayload.payload := {|
        AdcpPayload.target_audience := lit "QA";
        AdcpPayload.creative_assets :=
          [ {| AdcpPayload.type := lit "text_ad";
               AdcpPayload.content := lit "Prod rocks ⚡" |} ];
        AdcpPayload.product := lit "Prod";
      |};
      AdcpPayload.metadata := {|
        AdcpPayload.length := 12;
        AdcpPayload.word_count := 3;
        AdcpPayload.sentiment := lit "energetic";
        AdcpPayload.brand_safety_check := lit "passed";
      |};
    |}.
Proof.
  refine (eq_trans
    (build_adcp_payload_envelope (lit "Prod") (lit "QA") (lit "Prod rocks ⚡")
       (<[lit "length" := lit "12"]>
        (<[lit "word_count" := lit "3"]>
         {[ lit "brand_safety_check" := lit "passed" ]})) 12 3 _ _) _).
  - vm_compute. reflexivity.
  - vm_compute. reflexivity.
  - vm_compute. reflexivity.
Defined.

(** A [length] attribute that is no integer literal: [int] raises and no
    envelope is returned. *)
Lemma build_adcp_payload_not_total :
  AdcpPayload.build_adcp_payload (lit "Prod") (lit "QA") (lit "Prod rocks ⚡")
    {[ lit "length" := lit "abc" ]}
  = None.
Proof. vm_compute. reflexivity. Qed.

(** The command line of the documentation with provider "openai"; the
    constructors and the chat models are not reached. *)
Lemma openai_model_tag_rejected_witness :
  exists message,
    message <> []
    /\ contains (lit "provider=openai but model looks like an Ollama tag")
                message = true
    /\ _build_llm (fun _ => true) (lit "openai") (lit "llama3:8b") 4%Z
         (lit "http://localhost:11434") None None = inl (ValueError message)
    /\ run_workflow 0%Z (fun seed : nat => (seed, S seed))
         (fun _ _ _ => None) (fun _ _ _ => None) (fun _ => true) 25
         (lit "Neon") (lit "Gamers") 5 (lit "llm") (lit "llm")
         (lit "llama3:8b") 4%Z (lit "http://localhost:11434")
         (lit "openai") None None 0
       = (NotBuilt (ValueError message), []).
Proof.
  apply (openai_model_tag_rejected 0%Z (fun seed : nat => (seed, S seed))
           (fun _ _ _ => None) (fun _ _ _ => None) (fun _ => true) 25
           (lit "Neon") (lit "Gamers") 5 (lit "llm") (lit "llm")
           (lit "llama3:8b") 4%Z (lit "http://localhost:11434") None None 0).
  vm_compute. reflexivity.
Defined.

Lemma creator_ignores_feedback_witness :
  let self := Creator.__init__ (lit "Neon") (lit "Gamers") in
  Creator.attempts self = []
  /\ exists caption,
       Creator.propose self (Some (lit "Must contain an emoji.")) 6
       = Some (caption, self)
       /\ Creator.propose self None 6 = Some (caption, self)
       /\ Creator.captions (lit "Neon") (lit "Gamers") !! (6 mod 4)
          = Some caption.
Proof.
  intros self.
  apply (creator_ignores_feedback (lit "Neon") (lit "Gamers") self
           (Some (lit "Must contain an emoji.")) 6).
  apply Creator.reachable_init.
Defined.

End MoreScenarios.

(** ** More on the runs of the graph *)

Section RunShape.

Context {W : Type}.
Variable propose : option str -> W -> option (str * W).
Variable evaluate : str -> W -> option (Evaluation.t * W).
Variable max_attempts : Z.

#[local] Abbreviation record := (record_evaluation max_attempts).
#[local] Abbreviation graph := (build_graph propose evaluate max_attempts).

Lemma record_caption state evaluation :
  GraphState.caption (record state evaluation) = GraphState.caption state.
Proof. unfold record_evaluation. by destruct (_ && _). Qed.

Lemma record_live state evaluation :
  GraphState.get_exhausted (record state evaluation) = false ->
  GraphState.feedback (record state evaluation)
  = Some (Evaluation.feedback evaluation)
  /\ GraphState.approved (record state evaluation)
     = Evaluation.approved evaluation
  /\ GraphState.metadata (record state evaluation)
     = Evaluation.metadata evaluation.
Proof. unfold record_evaluation. by destruct (_ && _). Qed.

Lemma record_exhausted state evaluation :
  GraphState.get_exhausted (record state evaluation) = true ->
  Evaluation.approved evaluation = false
  /\ (max_attempts <= len (GraphState.attempts state) + 1)%Z
  /\ GraphState.approved (record state evaluation) = false
  /\ GraphState.feedback (record state evaluation)
     = Some (exhausted_feedback max_attempts evaluation)
  /\ GraphState.metadata (record state evaluation)
     = exhausted_metadata evaluation.
Proof.
  unfold record_evaluation, GraphState.get_exhausted.
  set (attempts := GraphState.attempts state ++ _).
  assert (Hlen : len attempts = (len (GraphState.attempts state) + 1)%Z).
  { unfold len, attempts. rewrite length_app. cbn [length]. lia. }
  destruct (Z.geb_spec (len attempts) max_attempts) as [Hge|Hlt];
    destruct (Evaluation.approved evaluation);
    cbn [andb negb GraphState.exhausted GraphState.approved GraphState.feedback
         GraphState.metadata default];
    intros Hx; try discriminate Hx.
  split; [reflexivity|]. split; [lia|]. split; [reflexivity|].
  unfold exhausted_feedback, exhausted_metadata.
  change (lit " tries. Last feedback: ")
    with (lit " tries. " ++ lit "Last feedback: ").
  rewrite <- !app_assoc. split; reflexivity.
Qed.

(** The shape of a run from a state that is not exhausted. *)
Lemma iterate_shape iterations : forall state r h r',
  GraphState.get_exhausted state = false ->
  iterate graph iterations state r = (Ret h, r') ->
  exists new,
    GraphState.attempts (progress_state h) = GraphState.attempts state ++ new
    /\ calls r' = calls r ++ calls_of (GraphState.feedback state) new
    /\ Forall (returned_by evaluate) new
    /\ match h with
       | Pending state' =>
         length new = iterations
         /\ Forall rejected new
         /\ GraphState.get_exhausted state' = false
         /\ (new = [] -> state' = state)
         /\ (new <> [] -> GraphState.approved state' = false)
       | AtEnd state' =>
         exists earlier final,
           new = earlier ++ [final]
           /\ Forall rejected earlier
           /\ (earlier <> [] ->
               (len (GraphState.attempts state) + len earlier < max_attempts)%Z)
           /\ GraphState.caption state' = Attempt.caption final
           /\ GraphState.approved state'
              = Evaluation.approved (Attempt.evaluation final)
           /\ GraphState.get_exhausted state'
              = negb (Evaluation.approved (Attempt.evaluation final))
           /\ (Evaluation.approved (Attempt.evaluation final) = false ->
               (max_attempts <= len (GraphState.attempts state'))%Z
               /\ GraphState.feedback state'
                  = Some (exhausted_feedback max_attempts
                            (Attempt.evaluation final))
               /\ GraphState.metadata state'
                  = exhausted_metadata (Attempt.evaluation final))
           /\ (Evaluation.approved (Attempt.evaluation final) = true ->
               GraphState.feedback state'
               = Some (Evaluation.feedback (Attempt.evaluation final))
               /\ GraphState.metadata state'
                  = Evaluation.metadata (Attempt.evaluation final))
       end.
Proof.
  induction iterations as [|iterations IH]; intros state r h r' E Hrun.
  - cbn in Hrun. injection Hrun as <- <-. exists []. cbn.
    rewrite !app_nil_r. repeat split; try done.
  - rewrite iterate_S in Hrun by done. cbn zeta in Hrun.
    destruct (propose _ _) as [[caption w1]|]; [|done].
    destruct (evaluate caption w1) as [[evaluation w2]|] eqn:Hev; [|done].
    set (attempt := {| Attempt.caption := caption; Attempt.evaluation := evaluation |}).
    set (state' := record (with_caption state caption) evaluation) in *.
    assert (Hatt : GraphState.attempts state' = GraphState.attempts state ++ [attempt])
      by apply record_attempts.
    assert (Hcap : GraphState.caption state' = caption) by apply record_caption.
    assert (Hret : returned_by evaluate attempt) by (by exists w1, w2).
    destruct (_route state') eqn:Hroute.
    + injection Hrun as <- <-. exists [attempt].
      split; [exact Hatt|]. split; [reflexivity|].
      split; [constructor; [exact Hret|constructor]|].
      exists [], attempt. split; [reflexivity|]. split; [constructor|].
      split; [intros Hne; congruence|]. split; [exact Hcap|].
      change (Attempt.evaluation attempt) with evaluation.
      destruct (GraphState.get_exhausted state') eqn:E'.
      * apply record_exhausted in E' as (Hrej & Hlen & Happ & Hfb & Hmeta).
        fold state' in Happ, Hfb, Hmeta. rewrite Happ, Hrej. cbn [negb].
        split; [reflexivity|]. split; [reflexivity|]. split.
        -- intros _. split; [|split; [exact Hfb|exact Hmeta]].
           cbn [with_caption GraphState.attempts] in Hlen.
           rewrite Hatt. unfold len in *. rewrite length_app. cbn [length]. lia.
        -- intros Hx. discriminate Hx.
      * pose proof E' as Hlive. apply record_live in Hlive as (Hfb & Happ & Hmeta).
        fold state' in Hfb, Happ, Hmeta. unfold _route in Hroute.
        rewrite E', Happ in Hroute. rewrite Happ.
        destruct (Evaluation.approved evaluation); [|discriminate Hroute].
        cbn [negb]. split; [reflexivity|]. split; [reflexivity|]. split.
        -- intros Hx. discriminate Hx.
        -- intros _. split; [exact Hfb|exact Hmeta].
    + pose proof Hroute as Hretry.
      apply record_retry in Hretry as (Hrej & Hlt & Hex).
      cbn [with_caption GraphState.attempts] in Hlt.
      pose proof Hex as Hlive. apply record_live in Hlive as (Hfb & Happ & _).
      fold state' in Hfb, Happ.
      apply IH in Hrun as (new & Hnew & Hcalls & Hall & Hh); [|exact Hex].
      exists (attempt :: new).
      split; [rewrite Hnew, Hatt, <- app_assoc; reflexivity|].
      split.
      { rewrite Hcalls.
        cbn [calls_of]. change (Attempt.evaluation attempt) with evaluation.
        change (Attempt.caption attempt) with caption.
        rewrite Hfb. unfold logged. cbn [calls].
        rewrite <- app_assoc. reflexivity. }
      split; [constructor; [exact Hret|exact Hall]|].
      assert (Hlen' : len (GraphState.attempts state')
                      = (len (GraphState.attempts state) + 1)%Z).
      { unfold len. rewrite Hatt, length_app. cbn [length]. lia. }
      destruct h as [final_state|pending_state].
      * destruct Hh as (earlier & final & -> & Hearlier & Hbudget & Hrest).
        exists (attempt :: earlier), final. split; [reflexivity|].
        split; [constructor; [exact Hrej|exact Hearlier]|].
        split; [|exact Hrest].
        intros _. destruct earlier as [|e earlier'].
        -- unfold len in *. cbn [length]. lia.
        -- assert (e :: earlier' <> []) as Hne by congruence.
           specialize (Hbudget Hne). unfold len in *. cbn [length] in *. lia.
      * destruct Hh as (Hlen & Hrejected & Hex' & Hnil & Hne).
        split; [cbn [length]; lia|].
        split; [constructor; [exact Hrej|exact Hrejected]|].
        split; [exact Hex'|].
        split; [intros Hx; discriminate Hx|]. intros _.
        destruct new as [|n new'].
        -- rewrite Hnil by reflexivity. rewrite Happ. exact Hrej.
        -- apply Hne. congruence.
Qed.

(** One call of each kind for every attempt of a history. *)
Lemma calls_of_counts (feedback : option str) (attempts : list Attempt.t) :
  count_propose (calls_of feedback attempts) = length attempts
  /\ count_evaluate (calls_of feedback attempts) = length attempts.
Proof.
  revert feedback.
  induction attempts as [|a l IH]; intros feedback; [split; reflexivity|].
  destruct (IH (Some (Evaluation.feedback (Attempt.evaluation a)))) as (IHp & IHe).
  cbn [calls_of]. unfold count_propose, count_evaluate in *.
  cbn [List.filter is_propose is_evaluate length]. rewrite IHp, IHe.
  split; reflexivity.
Qed.

(** As many iterations as the budget allows reach [END]. *)
Lemma enough_iterations_stop (iterations : nat) state r out r' :
  GraphState.get_exhausted state = false ->
  iterate graph iterations state r = (out, r') ->
  Z.to_nat (Z.max 1 (max_attempts - len (GraphState.attempts state))) <= iterations ->
  forall state', out <> Ret (Pending state').
Proof.
  intros E Hrun Hleast state' ->.
  apply iterate_run in Hrun as (cs & _ & _ & _ & _ & Hout); [|exact E].
  destruct Hout as (_ & (new & Hnew & Hlen) & Hn & _ & Hlt).
  cbn [progress_state] in Hnew.
  assert (0 < iterations) as Hpos by lia. specialize (Hlt Hpos).
  rewrite Hnew in Hlt. unfold len in *. rewrite length_app in Hlt. lia.
Qed.

(** A finished run from an empty history ends accepted or else exhausted,
    with a history of at least one and at most [max 1 max_attempts]
    attempts, which accounts for all its calls. *)
Lemma finished_run_bounds (iterations : nat) state r state' r' :
  GraphState.get_exhausted state = false ->
  GraphState.attempts state = [] ->
  iterate graph iterations state r = (Ret (AtEnd state'), r') ->
  GraphState.approved state' = negb (GraphState.get_exhausted state')
  /\ 1 <= length (GraphState.attempts state') <= Z.to_nat (Z.max 1 max_attempts)
  /\ calls r' = calls r ++ calls_of (GraphState.feedback state)
                             (GraphState.attempts state').
Proof.
  intros E Hempty Hrun.
  apply iterate_shape in Hrun as (new & Hnew & Hcalls & _ & Hdone); [|exact E].
  destruct Hdone as (earlier & final & -> & _ & Hbudget & _ & Ha & Hx & _).
  cbn [progress_state] in Hnew. rewrite Hempty in Hnew, Hbudget.
  cbn [app] in Hnew. rewrite Hnew.
  split; [rewrite Ha, Hx; by destruct (Evaluation.approved _)|].
  split; [|exact Hcalls].
  rewrite length_app. cbn [length]. split; [lia|].
  destruct earlier as [|e earlier']; [cbn [length]; lia|].
  assert (e :: earlier' <> []) as Hne by congruence.
  specialize (Hbudget Hne). unfold len in *. cbn [length] in *. lia.
Qed.

End RunShape.

(** ** Runs that keep an invariant of the capabilities *)

Section RunInvariant.

Context {W : Type}.
Variable propose : option str -> W -> option (str * W).
Variable evaluate : str -> W -> option (Evaluation.t * W).
Variable max_attempts : Z.

#[local] Abbreviation graph := (build_graph propose evaluate max_attempts).

(** When, on the worlds of an invariant [Inv], the generator returns a
    caption with [PC] and the evaluator returns for such a caption a
    verdict with [PE], both keeping [Inv], then a run raises nothing and
    every attempt it appends has [PC] and [PE]. *)
Lemma iterate_invariant
    (Inv : W -> Prop) (PC : str -> Prop) (PE : str -> Evaluation.t -> Prop) :
  (forall feedback w, Inv w ->
     exists caption w', propose feedback w = Some (caption, w')
                        /\ Inv w' /\ PC caption) ->
  (forall caption w, Inv w -> PC caption ->
     exists evaluation w', evaluate caption w = Some (evaluation, w')
                           /\ Inv w' /\ PE caption evaluation) ->
  forall iterations state r out r',
    GraphState.get_exhausted state = false ->
    Inv (world r) ->
    iterate graph iterations state r = (out, r') ->
    exists h new,
      out = Ret h
      /\ Inv (world r')
      /\ GraphState.attempts (progress_state h) = GraphState.attempts state ++ new
      /\ Forall (fun attempt =>
                   PC (Attempt.caption attempt)
                   /\ PE (Attempt.caption attempt) (Attempt.evaluation attempt))
                new.
Proof.
  intros Hpropose Hevaluate.
  induction iterations as [|iterations IH]; intros state r out r' E Hinv Hrun.
  - cbn in Hrun. injection Hrun as <- <-. exists (Pending state), [].
    split; [reflexivity|]. split; [exact Hinv|].
    split; [by rewrite app_nil_r|constructor].
  - rewrite iterate_S in Hrun by exact E. cbn zeta in Hrun.
    destruct (Hpropose (GraphState.feedback state) (world r) Hinv)
      as (caption & w1 & Hp & Hinv1 & Hpc).
    rewrite Hp in Hrun.
    destruct (Hevaluate caption w1 Hinv1 Hpc) as (evaluation & w2 & He & Hinv2 & Hpe).
    rewrite He in Hrun.
    set (attempt := {| Attempt.caption := caption; Attempt.evaluation := evaluation |}).
    set (state' := record_evaluation max_attempts (with_caption state caption) evaluation) in *.
    assert (Hatt : GraphState.attempts state' = GraphState.attempts state ++ [attempt])
      by apply record_attempts.
    destruct (_route state') eqn:Hroute.
    + injection Hrun as <- <-. exists (AtEnd state'), [attempt].
      split; [reflexivity|]. split; [exact Hinv2|]. split; [exact Hatt|].
      constructor; [split; [exact Hpc|exact Hpe]|constructor].
    + apply record_retry in Hroute as (_ & _ & Hex).
      apply IH in Hrun as (h & new & -> & Hinv' & Hnew & Hall);
        [|exact Hex|exact Hinv2].
      exists h, (attempt :: new). split; [reflexivity|]. split; [exact Hinv'|].
      split; [rewrite Hnew, Hatt, <- app_assoc; reflexivity|].
      constructor; [split; [exact Hpc|exact Hpe]|exact Hall].
Qed.

End RunInvariant.

(** ** The limit on the steps of a run *)

Section StepLimit.

Context {W : Type}.
Variable propose : option str -> W -> option (str * W).
Variable evaluate : str -> W -> option (Evaluation.t * W).
Variable max_attempts : Z.

#[local] Abbreviation graph := (build_graph propose evaluate max_attempts).

(** A run of [2 * n] steps and some more is [n] iterations, and what the
    steps left over do from the state about to be retried. *)
Lemma super_steps_iterate (app : Graph W) (n e : nat) : forall state r,
  super_steps app (2 * n + S e) to_creator state r
  = match iterate app n state r with
    | (Raised, r') => (Raised, r')
    | (Ret (AtEnd state'), r') => (Ret (Done state'), r')
    | (Ret (Pending state'), r') => super_steps app (S e) to_creator state' r'
    end.
Proof.
  induction n as [|n IH]; intros state r; [reflexivity|].
  replace (2 * S n + S e) with (S (S (2 * n + S e))) by lia.
  cbn [super_steps iterate]. unfold bind.
  destruct (creator_node app state r) as [[s1|] r1]; [|reflexivity].
  destruct (critic_node app s1 r1) as [[s2|] r2]; [|reflexivity].
  destruct (router app s2); [|apply IH].
  replace (2 * n + S e) with (S (2 * n + e)) by lia. reflexivity.
Qed.

Lemma limit_split (limit : nat) :
  1 <= limit ->
  exists e, e <= 1 /\ limit = 2 * ((limit - 1) / 2) + S e.
Proof.
  intros Hpos. exists ((limit - 1) mod 2). split.
  - pose proof (Nat.mod_upper_bound (limit - 1) 2). lia.
  - pose proof (Nat.div_mod_eq (limit - 1) 2). lia.
Qed.

(** One or two steps from a creator do not reach [END]. *)
Lemma last_steps_not_Done (app : Graph W) (e : nat) state r state' r' :
  e <= 1 ->
  super_steps app (S e) to_creator state r <> (Ret (Done state'), r').
Proof.
  intros He. destruct e as [|[|e]]; [| |lia]; cbn [super_steps]; unfold bind, ret.
  - destruct (creator_node app state r) as [[s1|] r1]; discriminate.
  - destruct (creator_node app state r) as [[s1|] r1]; [|discriminate].
    destruct (critic_node app s1 r1) as [[s2|] r2]; [|discriminate].
    destruct (router app s2); discriminate.
Qed.

(** A run reaches [END] under the limit exactly when its iterations do,
    those that fit under the limit with one step to spare. *)
Lemma invoke_Done (app : Graph W) (recursion_limit : nat) state r state' r' :
  invoke app recursion_limit state r = (Ret (Done state'), r')
  <-> 1 <= recursion_limit
      /\ iterate app ((recursion_limit - 1) / 2) state r
         = (Ret (AtEnd state'), r').
Proof.
  unfold invoke. destruct (Nat.le_gt_cases 1 recursion_limit) as [Hpos|Hzero].
  - destruct (limit_split recursion_limit Hpos) as (e & He & Hsplit).
    rewrite Hsplit at 1. rewrite super_steps_iterate.
    destruct (iterate app _ state r) as [[[s|s]|] r1].
    + split; [intros [= -> ->]; split; [exact Hpos|reflexivity]|].
      intros (_ & [= -> ->]). reflexivity.
    + split; [|intros (_ & Hx); discriminate Hx].
      intros Hx. destruct (last_steps_not_Done _ _ _ _ _ _ He Hx).
    + split; [discriminate|intros (_ & Hx); discriminate Hx].
  - assert (recursion_limit = 0) as -> by lia. cbn.
    split; [discriminate|]. intros (Hx & _). lia.
Qed.

(** The iterations of a run that ends at [END] fit under any limit above
    twice their number. *)
Lemma iterate_invoke (app : Graph W) (n recursion_limit : nat)
    state r state' r' :
  iterate app n state r = (Ret (AtEnd state'), r') ->
  2 * n < recursion_limit ->
  invoke app recursion_limit state r = (Ret (Done state'), r').
Proof.
  intros Hrun Hlimit. unfold invoke.
  replace recursion_limit with (2 * n + S (recursion_limit - 2 * n - 1)) by lia.
  rewrite super_steps_iterate, Hrun. reflexivity.
Qed.

(** The last step, and the last two, of a run that the limit cuts. *)
Lemma last_step state r :
  GraphState.get_exhausted state = false ->
  super_steps graph 1 to_creator state r
  = let feedback := GraphState.feedback state in
    match propose feedback (world r) with
    | None => (Raised, logged r (world r) [CallPropose feedback])
    | Some (caption, w1) =>
      (Ret GraphRecursionError, logged r w1 [CallPropose feedback])
    end.
Proof.
  intros E. cbn [super_steps build_graph creator_node].
  unfold bind. rewrite creator_live by exact E.
  destruct (propose _ _) as [[caption w1]|]; reflexivity.
Qed.

Lemma last_two_steps state r :
  GraphState.get_exhausted state = false ->
  super_steps graph 2 to_creator state r
  = let feedback := GraphState.feedback state in
    match propose feedback (world r) with
    | None => (Raised, logged r (world r) [CallPropose feedback])
    | Some (caption, w1) =>
      let log := [CallPropose feedback; CallEvaluate caption] in
      match evaluate caption w1 with
      | None => (Raised, logged r w1 log)
      | Some (evaluation, w2) => (Ret GraphRecursionError, logged r w2 log)
      end
    end.
Proof.
  intros E. cbn [super_steps build_graph creator_node critic_node router].
  unfold bind at 1. rewrite creator_live by exact E.
  destruct (propose _ _) as [[caption w1]|]; [|reflexivity].
  unfold bind at 1. rewrite critic_live by exact E.
  cbn [world logged GraphState.caption with_caption].
  fold (logged r w1 [CallPropose (GraphState.feedback state)]).
  destruct (evaluate _ _) as [[evaluation w2]|].
  - rewrite logged_logged. cbn [app]. destruct (_route _); reflexivity.
  - rewrite logged_logged. reflexivity.
Qed.

(** Capabilities that return on every call. *)
Lemma iterate_returns :
  (forall feedback w, is_Some (propose feedback w)) ->
  (forall caption w, is_Some (evaluate caption w)) ->
  forall n state r,
    GraphState.get_exhausted state = false ->
    exists h, fst (iterate graph n state r) = Ret h.
Proof.
  intros Hpropose Hevaluate n state r E.
  destruct (iterate graph n state r) as [out r'] eqn:Hrun.
  apply (iterate_invariant propose evaluate max_attempts
           (fun _ => True) (fun _ => True) (fun _ _ => True)) in Hrun
    as (h & _ & -> & _); [exists h; reflexivity| | |exact E|exact I].
  - intros feedback w _. destruct (Hpropose feedback w) as ([caption w'] & ->).
    exists caption, w'. split; [reflexivity|split; exact I].
  - intros caption w _ _. destruct (Hevaluate caption w) as ([evaluation w'] & ->).
    exists evaluation, w'. split; [reflexivity|split; exact I].
Qed.

(** The calls of a run, however it ends: at most as many iterations as
    the budget allows were begun. *)
Lemma invoke_calls (recursion_limit : nat) state r :
  GraphState.get_exhausted state = false ->
  exists cs,
    calls (snd (invoke graph recursion_limit state r)) = calls r ++ cs
    /\ count_evaluate cs <= count_propose cs
    /\ count_propose cs
       <= Z.to_nat (Z.max 1 (max_attempts - len (GraphState.attempts state))).
Proof.
  intros E. unfold invoke.
  destruct (Nat.le_gt_cases 1 recursion_limit) as [Hpos|Hzero].
  2:{ assert (recursion_limit = 0) as -> by lia. exists [].
      cbn. rewrite app_nil_r. split; [reflexivity|]. split; lia. }
  destruct (limit_split recursion_limit Hpos) as (e & He & ->).
  rewrite super_steps_iterate.
  destruct (iterate graph _ state r) as [out r1] eqn:Hrun.
  apply iterate_run in Hrun as (cs & Hcs & Hp & Hep & Hbound & Hout); [|exact E].
  destruct out as [[s|s]|].
  1,3: exists cs; cbn [snd]; split; [exact Hcs|]; split; lia.
  destruct Hout as (Hpe & (new & Hnew & Hlen) & Hn & Hex & Hlt).
  cbn [progress_state] in Hnew.
  assert (Hone : S (count_propose cs)
                 <= Z.to_nat (Z.max 1 (max_attempts
                                       - len (GraphState.attempts state)))).
  { destruct ((recursion_limit - 1) / 2) as [|n] eqn:Hn0; [lia|].
    assert (Hlt' : (len (GraphState.attempts s) < max_attempts)%Z)
      by (apply Hlt; lia).
    rewrite Hnew in Hlt'. unfold len in *. rewrite length_app in Hlt'. lia. }
  assert (Hcount : forall c, count_propose (cs ++ [c]) <= S (count_propose cs)
                             /\ count_evaluate (cs ++ [c]) <= S (count_evaluate cs)).
  { intros c. unfold count_propose, count_evaluate.
    rewrite !List.filter_app, !length_app.
    destruct c; cbn [List.filter is_propose is_evaluate length]; lia. }
  assert (Hprop : forall fb, count_propose (cs ++ [CallPropose fb])
                             = S (count_propose cs)
                             /\ count_evaluate (cs ++ [CallPropose fb])
                                = count_evaluate cs).
  { intros fb. unfold count_propose, count_evaluate.
    rewrite !List.filter_app, !length_app.
    cbn [List.filter is_propose is_evaluate length]. lia. }
  assert (Hboth : forall fb c,
            count_propose (cs ++ [CallPropose fb; CallEvaluate c])
            = S (count_propose cs)
            /\ count_evaluate (cs ++ [CallPropose fb; CallEvaluate c])
               = S (count_evaluate cs)).
  { intros fb c. unfold count_propose, count_evaluate.
    rewrite !List.filter_app, !length_app.
    cbn [List.filter is_propose is_evaluate length]. lia. }
  destruct e as [|[|e]]; [| |lia].
  - rewrite last_step by exact Hex. cbn zeta.
    destruct (propose _ _) as [[caption w1]|]; cbn [snd logged calls];
      rewrite Hcs, <- app_assoc; eexists; (split; [reflexivity|]);
      destruct (Hprop (GraphState.feedback s)) as (-> & ->); split; lia.
  - rewrite last_two_steps by exact Hex. cbn zeta.
    destruct (propose _ _) as [[caption w1]|].
    2:{ cbn [snd logged calls]. rewrite Hcs, <- app_assoc.
        eexists. split; [reflexivity|].
        destruct (Hprop (GraphState.feedback s)) as (-> & ->). split; lia. }
    destruct (evaluate _ _) as [[evaluation w2]|]; cbn [snd logged calls];
      rewrite Hcs, <- app_assoc; eexists; (split; [reflexivity|]);
      destruct (Hboth (GraphState.feedback s) caption) as (-> & ->); split; lia.
Qed.

Lemma calls_of_app (feedback : option str) (l1 l2 : list Attempt.t) :
  calls_of feedback (l1 ++ l2)
  = calls_of feedback l1 ++ calls_of (feedback_after feedback l1) l2.
Proof.
  revert feedback. induction l1 as [|a l1 IH]; intros feedback; [reflexivity|].
  cbn [app calls_of feedback_after foldl]. rewrite IH. reflexivity.
Qed.

(** The feedback of a state about to be retried is the one in force
    after the attempts made. *)
Lemma iterate_pending_feedback (n : nat) : forall state r s r' new,
  GraphState.get_exhausted state = false ->
  iterate graph n state r = (Ret (Pending s), r') ->
  GraphState.attempts s = GraphState.attempts state ++ new ->
  GraphState.feedback s = feedback_after (GraphState.feedback state) new.
Proof.
  induction n as [|n IH]; intros state r s r' new E Hrun Hnew.
  - cbn in Hrun. injection Hrun as <- <-.
    rewrite <- (app_nil_r (GraphState.attempts state)) in Hnew at 1.
    apply app_inv_head in Hnew as <-. reflexivity.
  - rewrite iterate_S in Hrun by exact E. cbn zeta in Hrun.
    destruct (propose _ _) as [[caption w1]|]; [|discriminate].
    destruct (evaluate caption w1) as [[evaluation w2]|]; [|discriminate].
    set (state1 := record_evaluation max_attempts (with_caption state caption)
                     evaluation) in *.
    destruct (_route state1) eqn:Hroute; [discriminate|].
    apply record_retry in Hroute as (_ & _ & Hex).
    pose proof Hex as Hlive. apply record_live in Hlive as (Hfb & _).
    fold state1 in Hfb.
    pose proof Hrun as Hshape.
    apply iterate_shape in Hshape as (new1 & Hnew1 & _); [|exact Hex].
    cbn [progress_state] in Hnew1.
    assert (Hatt : GraphState.attempts state1
                   = GraphState.attempts state
                     ++ [ {| Attempt.caption := caption;
                             Attempt.evaluation := evaluation |} ])
      by apply record_attempts.
    rewrite Hatt, <- app_assoc in Hnew1. rewrite Hnew1 in Hnew.
    apply app_inv_head in Hnew as <-.
    rewrite (IH state1 _ s r' new1 Hex Hrun) by (rewrite Hnew1, Hatt, <- app_assoc; reflexivity).
    rewrite Hfb. reflexivity.
Qed.

(** A run that the limit cuts has made all its steps: whole iterations,
    each with its attempt, and for an odd limit one more call of the
    generator. *)
Lemma invoke_cut (recursion_limit : nat) state r r' :
  GraphState.get_exhausted state = false ->
  invoke graph recursion_limit state r = (Ret GraphRecursionError, r') ->
  exists new pending,
    calls r' = calls r ++ calls_of (GraphState.feedback state) new ++ pending
    /\ Forall (returned_by evaluate) new
    /\ (pending = []
        \/ pending
           = [CallPropose (feedback_after (GraphState.feedback state) new)])
    /\ 2 * length new + length pending = recursion_limit.
Proof.
  intros E. unfold invoke.
  destruct (Nat.le_gt_cases 1 recursion_limit) as [Hpos|Hzero].
  2:{ assert (recursion_limit = 0) as -> by lia. cbn. intros [= <-].
      exists [], []. cbn. rewrite app_nil_r.
      split; [reflexivity|]. split; [constructor|]. split; [by left|reflexivity]. }
  destruct (limit_split recursion_limit Hpos) as (e & He & Hsplit).
  rewrite Hsplit at 1. rewrite super_steps_iterate.
  destruct (iterate graph _ state r) as [out r1] eqn:Hrun.
  destruct out as [[s|s]|]; [discriminate| |discriminate].
  pose proof Hrun as Hshape.
  apply iterate_shape in Hshape as (new & Hnew & Hcalls & Hall & Hh); [|exact E].
  destruct Hh as (Hlen & _ & Hex & _).
  cbn [progress_state] in Hnew.
  pose proof (iterate_pending_feedback _ _ _ _ _ _ E Hrun Hnew) as Hfb.
  destruct e as [|[|e]]; [| |lia].
  - rewrite last_step by exact Hex. cbn zeta.
    destruct (propose _ _) as [[caption w1]|]; [|discriminate].
    intros [= <-]. exists new, [CallPropose (GraphState.feedback s)].
    cbn [logged calls]. rewrite Hcalls, <- app_assoc.
    split; [reflexivity|]. split; [exact Hall|].
    split; [right; rewrite Hfb; reflexivity|]. cbn [length]. lia.
  - rewrite last_two_steps by exact Hex. cbn zeta.
    destruct (propose _ _) as [[caption w1]|]; [|discriminate].
    destruct (evaluate caption w1) as [[evaluation w2]|] eqn:Hev; [|discriminate].
    intros [= <-].
    exists (new ++ [ {| Attempt.caption := caption;
                        Attempt.evaluation := evaluation |} ]), [].
    cbn [logged calls]. rewrite Hcalls, <- app_assoc, app_nil_r.
    split; [rewrite calls_of_app, Hfb; reflexivity|].
    split.
    { apply Forall_app. split; [exact Hall|].
      constructor; [exists w1, w2; exact Hev|constructor]. }
    split; [by left|]. rewrite length_app. cbn [length]. lia.
Qed.

(** A run that reaches [END]: its shape is that of its iterations, and
    they fit under the limit with a step to spare. *)
Lemma invoke_iterations (recursion_limit : nat) state r state' r' :
  GraphState.get_exhausted state = false ->
  invoke graph recursion_limit state r = (Ret (Done state'), r') ->
  exists n new,
    iterate graph n state r = (Ret (AtEnd state'), r')
    /\ GraphState.attempts state' = GraphState.attempts state ++ new
    /\ 1 <= length new
    /\ 2 * length new < recursion_limit.
Proof.
  intros E Hrun. apply invoke_Done in Hrun as (Hpos & Hrun).
  exists ((recursion_limit - 1) / 2).
  pose proof Hrun as Hcount.
  apply iterate_run in Hcount as (cs & _ & Hp & Hep & _ & Hout); [|exact E].
  destruct Hout as (_ & (new & Hnew & Hlen) & _ & Hone).
  cbn [progress_state] in Hnew. exists new.
  split; [exact Hrun|]. split; [exact Hnew|]. split; [lia|].
  pose proof (Nat.div_mod_eq (recursion_limit - 1) 2). lia.
Qed.

(** When, on the worlds of an invariant [Inv], the generator returns a
    caption with [PC] and the evaluator returns for such a caption a
    verdict with [PE], both keeping [Inv], a run whose budget fits under
    the limit reaches [END], and every attempt it appends has [PC] and
    [PE]. *)
Lemma invoke_invariant
    (Inv : W -> Prop) (PC : str -> Prop) (PE : str -> Evaluation.t -> Prop)
    (recursion_limit : nat) state r :
  (forall feedback w, Inv w ->
     exists caption w', propose feedback w = Some (caption, w')
                        /\ Inv w' /\ PC caption) ->
  (forall caption w, Inv w -> PC caption ->
     exists evaluation w', evaluate caption w = Some (evaluation, w')
                           /\ Inv w' /\ PE caption evaluation) ->
  GraphState.get_exhausted state = false ->
  Inv (world r) ->
  2 * Z.to_nat (Z.max 1 (max_attempts - len (GraphState.attempts state)))
  < recursion_limit ->
  exists state' r' new,
    invoke graph recursion_limit state r = (Ret (Done state'), r')
    /\ Inv (world r')
    /\ GraphState.attempts state' = GraphState.attempts state ++ new
    /\ Forall (fun attempt =>
                 PC (Attempt.caption attempt)
                 /\ PE (Attempt.caption attempt) (Attempt.evaluation attempt))
              new.
Proof.
  intros Hpropose Hevaluate E Hinv Hlimit.
  set (n := (recursion_limit - 1) / 2).
  assert (Hn : Z.to_nat (Z.max 1 (max_attempts
                                  - len (GraphState.attempts state))) <= n
               /\ 2 * n < recursion_limit).
  { subst n. pose proof (Nat.div_mod_eq (recursion_limit - 1) 2).
    pose proof (Nat.mod_upper_bound (recursion_limit - 1) 2). lia. }
  destruct Hn as (Hbudget & Hfits).
  destruct (iterate graph n state r) as [out r'] eqn:Hrun.
  pose proof Hrun as Hret.
  apply (iterate_invariant propose evaluate max_attempts Inv PC PE
           Hpropose Hevaluate) in Hret as (h & new & -> & Hinv' & Hnew & Hall);
    [|exact E|exact Hinv].
  destruct h as [state'|pending].
  2:{ exfalso.
      apply (enough_iterations_stop propose evaluate max_attempts _ _ _ _ _ E Hrun
               Hbudget pending). reflexivity. }
  exists state', r', new. cbn [progress_state] in Hnew.
  split; [exact (iterate_invoke _ _ _ _ _ _ _ Hrun Hfits)|].
  split; [exact Hinv'|]. split; [exact Hnew|exact Hall].
Qed.

(** Capabilities that return on every call: a run whose budget fits under
    the limit reaches [END]. *)
Lemma invoke_returns (recursion_limit : nat) state r :
  (forall feedback w, is_Some (propose feedback w)) ->
  (forall caption w, is_Some (evaluate caption w)) ->
  GraphState.get_exhausted state = false ->
  2 * Z.to_nat (Z.max 1 (max_attempts - len (GraphState.attempts state)))
  < recursion_limit ->
  exists state' r',
    invoke graph recursion_limit state r = (Ret (Done state'), r').
Proof.
  intros Hpropose Hevaluate E Hlimit.
  destruct (invoke_invariant (fun _ => True) (fun _ => True) (fun _ _ => True)
              recursion_limit state r) as (state' & r' & _ & Hrun & _);
    [| |exact E|exact I|exact Hlimit|exists state', r'; exact Hrun].
  - intros feedback w _. destruct (Hpropose feedback w) as ([caption w'] & ->).
    exists caption, w'. split; [reflexivity|split; exact I].
  - intros caption w _ _. destruct (Hevaluate caption w) as ([evaluation w'] & ->).
    exists evaluation, w'. split; [reflexivity|split; exact I].
Qed.

(** An evaluator that rejects everything: a run whose budget does not fit
    under the limit is cut by it. *)
Lemma always_rejected_cut (recursion_limit : nat) state r :
  (forall feedback w, is_Some (propose feedback w)) ->
  (forall caption w, is_Some (evaluate caption w)) ->
  (forall caption w evaluation w',
     evaluate caption w = Some (evaluation, w') ->
     Evaluation.approved evaluation = false) ->
  GraphState.get_exhausted state = false ->
  recursion_limit
  <= 2 * Z.to_nat (Z.max 1 (max_attempts - len (GraphState.attempts state))) ->
  fst (invoke graph recursion_limit state r) = Ret GraphRecursionError.
Proof.
  intros Hpropose Hevaluate Hrejects E Hlimit. unfold invoke.
  destruct (Nat.le_gt_cases 1 recursion_limit) as [Hpos|Hzero].
  2:{ assert (recursion_limit = 0) as -> by lia. reflexivity. }
  destruct (limit_split recursion_limit Hpos) as (e & He & Hsplit).
  rewrite Hsplit at 1. rewrite super_steps_iterate.
  set (n := (recursion_limit - 1) / 2) in *.
  destruct (iterate_returns Hpropose Hevaluate n state r E) as (h & Hh).
  destruct (iterate graph n state r) as [out r1] eqn:Hrun.
  cbn [fst] in Hh. subst out.
  destruct h as [state'|s].
  - exfalso. pose proof Hrun as Hshape.
    apply iterate_shape in Hshape as (new & Hnew & _ & Hall & Hdone); [|exact E].
    destruct Hdone as (earlier & final & -> & _ & _ & _ & _ & _ & Hrej & _).
    apply Forall_app in Hall as (_ & Hfinal).
    inversion Hfinal as [|? ? (w & w' & Hev) _].
    apply Hrejects in Hev. destruct (Hrej Hev) as (Hge & _).
    apply iterate_run in Hrun as (cs & _ & Hp & Hep & _ & Hout); [|exact E].
    destruct Hout as (_ & (new' & Hnew' & Hlen') & _).
    cbn [progress_state] in Hnew, Hnew'.
    assert (Hsame : length (GraphState.attempts state ++ earlier ++ [final])
                    = length (GraphState.attempts state ++ new'))
      by (rewrite <- Hnew, <- Hnew'; reflexivity).
    rewrite Hnew in Hge. unfold len in *.
    rewrite !length_app in *. cbn [length] in *. lia.
  - apply iterate_shape in Hrun as (new & _ & _ & _ & _ & _ & Hex & _);
      [|exact E].
    destruct e as [|[|e]]; [| |lia].
    + rewrite last_step by exact Hex. cbn zeta.
      destruct (Hpropose (GraphState.feedback s) (world r1)) as ([c w1] & ->).
      reflexivity.
    + rewrite last_two_steps by exact Hex. cbn zeta.
      destruct (Hpropose (GraphState.feedback s) (world r1)) as ([c w1] & ->).
      destruct (Hevaluate c w1) as ([ev w2] & ->). reflexivity.
Qed.

End StepLimit.
(** ** The attempt loop *)

Section Loop.

Context {W : Type}.
Variable propose : option str -> W -> option (str * W).
Variable evaluate : str -> W -> option (Evaluation.t * W).


(** C3. With [max_attempts = 0] a fresh run calls the generator once and
    the evaluator at most once, whatever the recursion limit from 3 on;
    when both calls return, the calls are exactly one [propose(None)] and
    one [evaluate] of the caption proposed, the run ends at [END] after
    this one iteration, and a rejected verdict leaves [exhausted] true,
    [approved] false and a feedback that contains
    "Attempt budget exhausted". *)
Theorem zero_budget (steps : nat) (product audience : str) (w : W) :
  let run := invoke (build_graph propose evaluate 0) (3 + steps)
               (initial_state product audience)
               {| world := w; calls := [] |} in
  count_propose (calls (snd run)) = 1
  /\ count_evaluate (calls (snd run)) <= 1
  /\ (forall caption w1 evaluation w2,
        propose None w = Some (caption, w1) ->
        evaluate caption w1 = Some (evaluation, w2) ->
        exists state',
          run = (Ret (Done state'),
                 {| world := w2;
                    calls := [CallPropose None; CallEvaluate caption] |})
          /\ GraphState.attempts state'
             = [ {| Attempt.caption := caption;
                    Attempt.evaluation := evaluation |} ]
          /\ (Evaluation.approved evaluation = false ->
              GraphState.exhausted state' = Some true
              /\ GraphState.approved state' = false
              /\ exists feedback,
                   GraphState.feedback state' = Some feedback
                   /\ contains (lit "Attempt budget exhausted") feedback = true)).
Proof.
  intros run. subst run. unfold invoke.
  change (3 + steps) with (2 * 1 + S steps).
  rewrite super_steps_iterate, iterate_S by reflexivity.
  cbn [initial_state GraphState.feedback world].
  destruct (propose None w) as [[caption w1]|].
  2:{ split; [reflexivity|]. split; [cbn; lia|]. intros; discriminate. }
  cbn zeta. destruct (evaluate caption w1) as [[evaluation w2]|] eqn:Hev.
  2:{ split; [reflexivity|]. split; [cbn; lia|].
      intros c w1' ev w2' [= <- <-]; congruence. }
  set (state' := record_evaluation 0 _ evaluation).
  assert (_route state' = done) as ->.
  { destruct (_route state') eqn:Hroute; [reflexivity|].
    apply record_retry in Hroute as (_ & Hlt & _). unfold len in Hlt.
    cbn in Hlt. lia. }
  split; [reflexivity|]. split; [cbn; lia|].
  intros c w1' ev w2' [= <- <-] Hev'. rewrite Hev in Hev'.
  injection Hev' as <- <-.
  exists state'. split; [reflexivity|]. split; [apply record_attempts|].
  intros Hrej. subst state'. unfold record_evaluation.
  cbn [with_caption GraphState.attempts GraphState.caption app].
  rewrite Hrej. cbn [negb andb len length Z.of_nat Z.geb Z.compare].
  cbn [GraphState.exhausted GraphState.approved GraphState.feedback].
  split; [reflexivity|]. split; [reflexivity|].
  eexists. split; [reflexivity|].
  change (lit "Attempt budget exhausted after ")
    with (lit "Attempt budget exhausted" ++ lit " after ").
  rewrite <- app_assoc. apply contains_prefix.
Qed.

End Loop.

(** ** The history *)

Section History.

Context {W : Type}.
Variable propose : option str -> W -> option (str * W).
Variable evaluate : str -> W -> option (Evaluation.t * W).
Variable max_attempts : Z.

#[local] Abbreviation creator := (_creator_node propose).
#[local] Abbreviation critic := (_critic_node evaluate max_attempts).
#[local] Abbreviation graph := (build_graph propose evaluate max_attempts).


End History.
(** ** Runs under the limit *)

Section RunProperties.

Context {W : Type}.
Variable propose : option str -> W -> option (str * W).
Variable evaluate : str -> W -> option (Evaluation.t * W).
Variable max_attempts : Z.

#[local] Abbreviation graph := (build_graph propose evaluate max_attempts).

(** Any integer budget and any history already recorded. A run from a
    state that is not exhausted begins at most
    [max 1 (max_attempts - len history)] iterations, however it ends. When
    the capabilities return on every call and twice that many steps are
    fewer than the recursion limit, the run reaches [END] after at least
    one and at most that many iterations, each with one call to either
    capability and one attempt; a budget of zero or less, or one already
    used up by the history, gives exactly one iteration. *)
Theorem budget_any_integer (recursion_limit : nat) state r :
  GraphState.get_exhausted state = false ->
  let budget :=
    Z.to_nat (Z.max 1 (max_attempts - len (GraphState.attempts state))) in
  let run := invoke graph recursion_limit state r in
  (exists cs,
     calls (snd run) = calls r ++ cs
     /\ count_propose cs <= budget
     /\ count_evaluate cs <= count_propose cs)
  /\ ((forall feedback w, is_Some (propose feedback w)) ->
      (forall caption w, is_Some (evaluate caption w)) ->
      2 * budget < recursion_limit ->
      exists state' new,
        fst run = Ret (Done state')
        /\ GraphState.attempts state' = GraphState.attempts state ++ new
        /\ 1 <= length new <= budget
        /\ calls (snd run)
           = calls r ++ calls_of (GraphState.feedback state) new
        /\ count_propose (calls_of (GraphState.feedback state) new)
           = length new
        /\ count_evaluate (calls_of (GraphState.feedback state) new)
           = length new
        /\ ((max_attempts - len (GraphState.attempts state) <= 1)%Z ->
            length new = 1)).
Proof.
  intros E budget run. subst run. split.
  - destruct (invoke_calls propose evaluate max_attempts recursion_limit
                state r E) as (cs & Hcs & Hep & Hp).
    exists cs. split; [exact Hcs|]. split; [exact Hp|exact Hep].
  - intros Hpropose Hevaluate Hlimit.
    destruct (invoke_returns propose evaluate max_attempts recursion_limit
                state r Hpropose Hevaluate E Hlimit) as (state' & r' & Hrun).
    rewrite Hrun. cbn [fst snd].
    apply invoke_Done in Hrun as (_ & Hrun).
    apply iterate_shape in Hrun as (new & Hnew & Hcalls & _ & Hdone); [|exact E].
    destruct Hdone as (earlier & final & -> & _ & Hbudget & _).
    cbn [progress_state] in Hnew.
    destruct (calls_of_counts (GraphState.feedback state) (earlier ++ [final]))
      as (Hcp & Hce).
    assert (Hlen : 1 <= length (earlier ++ [final]) <= budget).
    { rewrite length_app. cbn [length]. split; [lia|].
      destruct earlier as [|e earlier']; [cbn [length]; lia|].
      assert (e :: earlier' <> []) as Hne by congruence.
      specialize (Hbudget Hne). subst budget. unfold len in *.
      cbn [length] in *. lia. }
    exists state', (earlier ++ [final]).
    split; [reflexivity|]. split; [exact Hnew|]. split; [exact Hlen|].
    split; [exact Hcalls|]. split; [exact Hcp|]. split; [exact Hce|].
    intros Hone. subst budget. lia.
Qed.

(** A finished run: the attempts it appended are rejected ones followed by
    a last one; the final state has the caption and the flag of that last
    attempt, and is exhausted exactly when that attempt was rejected, so a
    final state is either accepted or exhausted and not both; it carries
    the last verdict's reasons and attributes when accepted and the budget
    message and marked attributes when exhausted. *)
Theorem finished_run_last_attempt (recursion_limit : nat) state r state' r' :
  GraphState.get_exhausted state = false ->
  invoke graph recursion_limit state r = (Ret (Done state'), r') ->
  exists earlier final,
    GraphState.attempts state'
    = GraphState.attempts state ++ earlier ++ [final]
    /\ Forall rejected earlier
    /\ GraphState.caption state' = Attempt.caption final
    /\ GraphState.approved state'
       = Evaluation.approved (Attempt.evaluation final)
    /\ GraphState.get_exhausted state'
       = negb (Evaluation.approved (Attempt.evaluation final))
    /\ GraphState.feedback state'
       = Some (if Evaluation.approved (Attempt.evaluation final)
               then Evaluation.feedback (Attempt.evaluation final)
               else exhausted_feedback max_attempts (Attempt.evaluation final))
    /\ GraphState.metadata state'
       = (if Evaluation.approved (Attempt.evaluation final)
          then Evaluation.metadata (Attempt.evaluation final)
          else exhausted_metadata (Attempt.evaluation final)).
Proof.
  intros E Hrun. apply invoke_Done in Hrun as (_ & Hrun).
  apply iterate_shape in Hrun as (new & Hnew & _ & _ & Hdone); [|exact E].
  destruct Hdone as (earlier & final & -> & Hearlier & _ & Hc & Ha & Hx & Hrej & Hacc).
  exists earlier, final. cbn [progress_state] in Hnew.
  split; [exact Hnew|]. split; [exact Hearlier|]. split; [exact Hc|].
  split; [exact Ha|]. split; [exact Hx|].
  destruct (Evaluation.approved (Attempt.evaluation final)).
  - destruct Hacc as (Hf & Hm); [reflexivity|]. split; [exact Hf|exact Hm].
  - destruct Hrej as (_ & Hf & Hm); [reflexivity|]. split; [exact Hf|exact Hm].
Qed.

(** Exhaustion comes exactly at the budget: a finished run leaves a history
    of at most [max max_attempts (len history + 1)] attempts, and of exactly
    that many when it ends exhausted. *)
Theorem exhausted_at_budget (recursion_limit : nat) state r state' r' :
  GraphState.get_exhausted state = false ->
  invoke graph recursion_limit state r = (Ret (Done state'), r') ->
  let budget := Z.max max_attempts (len (GraphState.attempts state) + 1) in
  (len (GraphState.attempts state') <= budget)%Z
  /\ (GraphState.get_exhausted state' = true ->
      len (GraphState.attempts state') = budget).
Proof.
  intros E Hrun budget. apply invoke_Done in Hrun as (_ & Hrun).
  apply iterate_shape in Hrun as (new & Hnew & _ & _ & Hdone); [|exact E].
  destruct Hdone as (earlier & final & -> & _ & Hbudget & _ & _ & Hx & Hrej & _).
  cbn [progress_state] in Hnew, Hrej.
  assert (Hlen : len (GraphState.attempts state')
                 = (len (GraphState.attempts state) + len earlier + 1)%Z).
  { unfold len. rewrite Hnew, !length_app. cbn [length]. lia. }
  assert (Hearlier : earlier = [] \/ earlier <> []).
  { destruct earlier; [left; reflexivity|right; congruence]. }
  subst budget. split.
  - destruct Hearlier as [-> | Hne].
    + unfold len in *. cbn [length] in *. lia.
    + specialize (Hbudget Hne). unfold len in *. lia.
  - intros Hex. rewrite Hex in Hx. symmetry in Hx. apply negb_true_iff in Hx.
    destruct (Hrej Hx) as (Hge & _).
    destruct Hearlier as [-> | Hne].
    + unfold len in *. cbn [length] in *. lia.
    + specialize (Hbudget Hne). unfold len in *. lia.
Qed.

(** The calls of a run follow its history. In a run that reaches [END],
    for each attempt appended the generator was called with the feedback
    then in force, the initial state's for the first attempt and the
    preceding verdict's reasons for the others, and the evaluator with the
    attempt's caption, which returned the attempt's verdict. A run that
    the recursion limit cuts has made as many steps as the limit, in the
    same order: whole iterations and, for an odd limit, one more call of
    the generator with the feedback then in force. *)
Theorem calls_follow_history (recursion_limit : nat) state r h r' :
  GraphState.get_exhausted state = false ->
  invoke graph recursion_limit state r = (Ret h, r') ->
  match h with
  | Done state' =>
    exists new,
      GraphState.attempts state' = GraphState.attempts state ++ new
      /\ calls r' = calls r ++ calls_of (GraphState.feedback state) new
      /\ Forall (returned_by evaluate) new
  | GraphRecursionError =>
    exists new pending,
      calls r' = calls r ++ calls_of (GraphState.feedback state) new ++ pending
      /\ Forall (returned_by evaluate) new
      /\ (pending = []
          \/ pending
             = [CallPropose (feedback_after (GraphState.feedback state) new)])
      /\ 2 * length new + length pending = recursion_limit
  end.
Proof.
  intros E Hrun. destruct h as [state'|].
  - apply invoke_Done in Hrun as (_ & Hrun).
    apply iterate_shape in Hrun as (new & Hnew & Hcalls & Hall & _); [|exact E].
    exists new. split; [exact Hnew|]. split; [exact Hcalls|exact Hall].
  - destruct (invoke_cut propose evaluate max_attempts recursion_limit
                state r r' E Hrun) as (new & pending & Hcalls & Hall & Hp & Hl).
    exists new, pending. split; [exact Hcalls|]. split; [exact Hall|].
    split; [exact Hp|exact Hl].
Qed.

End RunProperties.

(** ** The loop on the scenarios of the tests *)

(** Scenario A: the captions "bad caption" and "this one is ok", a critic
    that accepts captions containing "ok", a budget of 3; the recursion
    limit is 25. The second caption is accepted. *)
Lemma scenario_a_run :
  exists final r',
    invoke (build_graph Tests.sequence_propose (Tests.flaky_evaluate (lit "ok")) 3)
      25 (Tests.state_of_test [] None)
      {| world := [lit "bad caption"; lit "this one is ok"]; calls := [] |}
    = (Ret (Done final), r')
    /\ GraphState.approved final = true
    /\ length (GraphState.attempts final) = 2
    /\ contains (lit "ok") (GraphState.caption final) = true.
Proof. eexists. eexists. split; [vm_compute; reflexivity|]. repeat split. Qed.

Lemma sequence_propose_returns (feedback : option str) (w : list str) :
  is_Some (Tests.sequence_propose feedback w).
Proof. destruct w; eexists; reflexivity. Qed.


Lemma always_reject_returns {W} (caption : str) (w : W) :
  is_Some (Tests.always_reject_evaluate caption w).
Proof. eexists. reflexivity. Qed.



(** Scenario B: a critic that always rejects, a budget of 0. *)
Lemma zero_budget_witness :
  exists state',
    invoke (build_graph Tests.sequence_propose Tests.always_reject_evaluate 0)
      25 (initial_state (lit "Prod") (lit "QA"))
      {| world := [lit "bad caption"]; calls := [] |}
    = (Ret (Done state'),
       {| world := [];
          calls := [CallPropose None; CallEvaluate (lit "bad caption")] |})
    /\ GraphState.exhausted state' = Some true
    /\ GraphState.approved state' = false
    /\ exists feedback,
         GraphState.feedback state' = Some feedback
         /\ contains (lit "Attempt budget exhausted") feedback = true.
Proof.
  destruct (zero_budget Tests.sequence_propose Tests.always_reject_evaluate
              22 (lit "Prod") (lit "QA") [lit "bad caption"])
    as (_ & _ & Hrun).
  destruct (Hrun (lit "bad caption") [] Tests.always_reject [])
    as (state' & Hinvoke & _ & Hrejected); [reflexivity|reflexivity|].
  exists state'. split; [exact Hinvoke|]. apply Hrejected. reflexivity.
Defined.


(** ** The attempt log *)

Lemma entries_from_lookup (idx : Z) (attempts : list Attempt.t) (i : nat) :
  AdcpWorkflow.entries_from idx attempts !! i
  = (fun attempt =>
       {| AdcpWorkflow.sequence := idx + Z.of_nat i;
          AdcpWorkflow.type := lit "text_ad";
          AdcpWorkflow.content := Attempt.caption attempt;
          AdcpWorkflow.status :=
            default (lit "unknown")
              (Evaluation.metadata (Attempt.evaluation attempt) !! lit "status");
          AdcpWorkflow.feedback :=
            Evaluation.feedback (Attempt.evaluation attempt) |})
    <$> attempts !! i.
Proof.
  revert idx i. induction attempts as [|a l IH]; intros idx i; [reflexivity|].
  destruct i as [|i]; cbn [AdcpWorkflow.entries_from lookup list_lookup fmap option_fmap option_map].
  - rewrite Z.add_0_r. reflexivity.
  - change ((a :: l) !! S i) with (l !! i).
    rewrite IH. replace (idx + 1 + Z.of_nat i)%Z with (idx + Z.of_nat (S i))%Z by lia.
    reflexivity.
Qed.

(** The attempt log has the fixed header and one entry for each attempt of
    the history, in the same order and numbered from 1: the entry of the
    attempt at position [i] has sequence [i + 1], the attempt's caption as
    content, its verdict's reasons as feedback, and as status the [status]
    attribute of the verdict, or "unknown" when the verdict has none. *)
Theorem attempts_log_entries (attempts : list Attempt.t) :
  let log := AdcpWorkflow._attempts_as_adcp attempts in
  AdcpWorkflow.adcp_version log = lit "1.0"
  /\ AdcpWorkflow.task log = lit "creative_generation_log"
  /\ length (AdcpWorkflow.attempts log) = length attempts
  /\ forall (i : nat) (attempt : Attempt.t),
       attempts !! i = Some attempt ->
       AdcpWorkflow.attempts log !! i
       = Some {|
           AdcpWorkflow.sequence := Z.of_nat i + 1;
           AdcpWorkflow.type := lit "text_ad";
           AdcpWorkflow.content := Attempt.caption attempt;
           AdcpWorkflow.status :=
             match Evaluation.metadata (Attempt.evaluation attempt)
                   !! lit "status" with
             | Some status => status
             | None => lit "unknown"
             end;
           AdcpWorkflow.feedback :=
             Evaluation.feedback (Attempt.evaluation attempt) |}.
Proof.
  intros log. split; [reflexivity|]. split; [reflexivity|]. split.
  - subst log. cbn [AdcpWorkflow._attempts_as_adcp AdcpWorkflow.attempts].
    generalize 1%Z. induction attempts as [|a l IH]; intros idx; [reflexivity|].
    cbn [AdcpWorkflow.entries_from length]. by rewrite IH.
  - intros i attempt Hi. subst log.
    cbn [AdcpWorkflow._attempts_as_adcp AdcpWorkflow.attempts].
    rewrite entries_from_lookup, Hi. cbn [fmap option_fmap option_map].
    rewrite (Z.add_comm 1). unfold default.
    reflexivity.
Qed.

(** ** Verdicts of the rule-based critic and the final payload *)

Section VerdictFacts.

Context `{Builtins}.

Ltac compute_lits :=
  repeat match goal with
  | |- context [lit ?s] =>
    let v := eval vm_compute in (lit s) in change (lit s) with v
  end.

Ltac lit_neq := vm_compute; discriminate.

Lemma join_nonempty (sep first : str) (rest : list str) :
  first <> [] -> join sep (first :: rest) <> [].
Proof.
  intros Hfirst. destruct first as [|c first]; [congruence|].
  destruct rest; cbn [join app]; discriminate.
Qed.

Lemma rules_messages_nonempty (self : Critic.t) (caption : str) :
  Forall (fun r => Critic.message r <> []) (Critic.rules self caption).
Proof.
  unfold Critic.rules.
  repeat constructor; cbn [Critic.message]; compute_lits; cbn [app]; discriminate.
Qed.

Lemma failures_nonempty (rs : list Critic.rule) :
  Forall (fun r => Critic.message r <> []) rs ->
  Forall (fun m : str => m <> []) (Critic.failures rs).
Proof.
  unfold Critic.failures. induction 1 as [|r rs Hr _ IH]; [constructor|].
  cbn [List.filter]. destruct (negb (Critic.holds r)); [|exact IH].
  cbn [fmap list_fmap]. constructor; [exact Hr|exact IH].
Qed.

(** The critic's verdict, by the failures of the rule set. *)
Lemma evaluate_by_failures (self : Critic.t) (caption : str) :
  Critic.evaluate self caption
  = match Critic.failures (Critic.rules self caption) with
    | [] =>
      {| Evaluation.approved := true;
         Evaluation.feedback := lit "Approved";
         Evaluation.metadata :=
           <[lit "status" := lit "approved"]>
           (<[lit "length" := str_of_int (len caption)]>
           (<[lit "word_count" := str_of_int (len (split caption))]>
           {[ lit "brand_safety_check" := lit "passed" ]})) |}
    | failed =>
      {| Evaluation.approved := false;
         Evaluation.feedback := join (lit " ") failed;
         Evaluation.metadata := {[ lit "status" := lit "rejected" ]} |}
    end.
Proof.
  unfold Critic.evaluate, Critic.rules, Critic.failures.
  rewrite existsb_negb_forallb, Z.gtb_ltb, Z.ltb_antisym.
  cbn [List.filter Critic.holds Critic.message].
  destruct (AdcpPayload.contains_emoji caption);
    destruct (len (split caption) <=? Critic.max_words self)%Z;
    destruct (contains (lower (Critic.product self)) (lower caption));
    destruct (forallb _ _);
    cbn [negb app fmap list_fmap Critic.message].
  all: reflexivity.
Qed.

(** The attributes of an accepted and of a rejected verdict. *)
Lemma critic_metadata (self : Critic.t) (caption : str) :
  let verdict := Critic.evaluate self caption in
  (Evaluation.approved verdict = true ->
   Evaluation.metadata verdict !! lit "status" = Some (lit "approved")
   /\ Evaluation.metadata verdict !! lit "length"
      = Some (str_of_int (len caption))
   /\ Evaluation.metadata verdict !! lit "word_count"
      = Some (str_of_int (len (split caption)))
   /\ Evaluation.metadata verdict !! lit "brand_safety_check"
      = Some (lit "passed"))
  /\ (Evaluation.approved verdict = false ->
      Evaluation.metadata verdict = {[ lit "status" := lit "rejected" ]}).
Proof.
  intros verdict. subst verdict. rewrite evaluate_by_failures.
  assert (Hsl : lit "status" <> lit "length") by lit_neq.
  assert (Hsw : lit "status" <> lit "word_count") by lit_neq.
  assert (Hsb : lit "status" <> lit "brand_safety_check") by lit_neq.
  assert (Hlw : lit "length" <> lit "word_count") by lit_neq.
  assert (Hlb : lit "length" <> lit "brand_safety_check") by lit_neq.
  assert (Hwb : lit "word_count" <> lit "brand_safety_check") by lit_neq.
  destruct (Critic.failures (Critic.rules self caption)) as [|first rest];
    cbn [Evaluation.metadata Evaluation.approved].
  - split; [|intros Hx; discriminate Hx]. intros _.
    split; [apply lookup_insert_eq|]. split.
    { rewrite lookup_insert_ne by exact Hsl. apply lookup_insert_eq. }
    split.
    { rewrite lookup_insert_ne by exact Hsw.
      rewrite lookup_insert_ne by exact Hlw. apply lookup_insert_eq. }
    rewrite lookup_insert_ne by exact Hsb.
    rewrite lookup_insert_ne by exact Hlb.
    rewrite lookup_insert_ne by exact Hwb. apply lookup_singleton_eq.
  - split; [intros Hx; discriminate Hx|]. intros _. reflexivity.
Qed.

(** The payload, by the three attributes the projection reads. *)
Lemma payload_of_keys (product audience caption : str)
    (metadata : gmap str str) (length_ word_count_ : Z) :
  from_option int_of_str (Some (len caption)) (metadata !! lit "length")
  = Some length_ ->
  from_option int_of_str (Some (len (split caption)))
    (metadata !! lit "word_count") = Some word_count_ ->
  AdcpPayload.build_adcp_payload product audience caption metadata
  = Some {|
      AdcpPayload.adcp_version := lit "1.0";
      AdcpPayload.task := lit "creative_generation";
      AdcpPayload.payload := {|
        AdcpPayload.target_audience := audience;
        AdcpPayload.creative_assets :=
          [ {| AdcpPayload.type := lit "text_ad";
               AdcpPayload.content := caption |} ];
        AdcpPayload.product := product;
      |};
      AdcpPayload.metadata := {|
        AdcpPayload.length := length_;
        AdcpPayload.word_count := word_count_;
        AdcpPayload.sentiment := lit "energetic";
        AdcpPayload.brand_safety_check :=
          default (lit "unknown") (metadata !! lit "brand_safety_check");
      |};
    |}.
Proof.
  intros Hl Hw. unfold AdcpPayload.build_adcp_payload.
  rewrite !int_get_or_int.
  destruct (metadata !! lit "length"); cbn [from_option] in Hl; rewrite Hl;
    (destruct (metadata !! lit "word_count"); cbn [from_option] in Hw;
     rewrite Hw); reflexivity.
Qed.

(** A verdict of the rule-based critic is well formed: its [status]
    attribute is "approved" when it is accepted and "rejected" when it is
    not, its reasons are never empty, an accepted verdict carries the
    caption's length and word count in decimal and [brand_safety_check]
    "passed", and a rejected one carries [status] only. *)
Theorem critic_verdict_well_formed (self : Critic.t) (caption : str) :
  let verdict := Critic.evaluate self caption in
  Evaluation.metadata verdict !! lit "status"
  = Some (if Evaluation.approved verdict then lit "approved" else lit "rejected")
  /\ Evaluation.feedback verdict <> []
  /\ (Evaluation.approved verdict = true ->
      Evaluation.metadata verdict !! lit "length"
      = Some (str_of_int (len caption))
      /\ Evaluation.metadata verdict !! lit "word_count"
         = Some (str_of_int (len (split caption)))
      /\ Evaluation.metadata verdict !! lit "brand_safety_check"
         = Some (lit "passed"))
  /\ (Evaluation.approved verdict = false ->
      Evaluation.metadata verdict = {[ lit "status" := lit "rejected" ]}).
Proof.
  intros verdict.
  destruct (critic_metadata self caption) as (Hacc & Hrej). fold verdict in Hacc, Hrej.
  split; [|split; [|split]].
  - destruct (Evaluation.approved verdict).
    + apply Hacc. reflexivity.
    + rewrite Hrej by reflexivity. apply lookup_singleton_eq.
  - subst verdict. rewrite evaluate_by_failures.
    pose proof (failures_nonempty _ (rules_messages_nonempty self caption)) as Hne.
    destruct (Critic.failures (Critic.rules self caption)) as [|first rest];
      cbn [Evaluation.feedback].
    + compute_lits. discriminate.
    + apply join_nonempty. by inversion Hne.
  - intros Ha. destruct (Hacc Ha) as (_ & Hl & Hw & Hb).
    split; [exact Hl|]. split; [exact Hw|exact Hb].
  - exact Hrej.
Qed.

(** The payload built from an accepted verdict of the rule-based critic,
    as [main] builds it: when [int] reads back the two numbers the critic
    printed, the payload is returned, with the caption's length and word
    count and [brand_safety_check] "passed". *)
Theorem payload_of_approved_verdict
    (self : Critic.t) (product audience caption : str) :
  Evaluation.approved (Critic.evaluate self caption) = true ->
  int_of_str (str_of_int (len caption)) = Some (len caption) ->
  int_of_str (str_of_int (len (split caption))) = Some (len (split caption)) ->
  AdcpPayload.build_adcp_payload product audience caption
    (Evaluation.metadata (Critic.evaluate self caption))
  = Some {|
      AdcpPayload.adcp_version := lit "1.0";
      AdcpPayload.task := lit "creative_generation";
      AdcpPayload.payload := {|
        AdcpPayload.target_audience := audience;
        AdcpPayload.creative_assets :=
          [ {| AdcpPayload.type := lit "text_ad";
               AdcpPayload.content := caption |} ];
        AdcpPayload.product := product;
      |};
      AdcpPayload.metadata := {|
        AdcpPayload.length := len caption;
        AdcpPayload.word_count := len (split caption);
        AdcpPayload.sentiment := lit "energetic";
        AdcpPayload.brand_safety_check := lit "passed";
      |};
    |}.
Proof.
  intros Happroved Hlen Hwords.
  destruct (critic_metadata self caption) as (Hmeta & _).
  destruct (Hmeta Happroved) as (_ & Hl & Hw & Hb).
  rewrite (payload_of_keys product audience caption _
             (len caption) (len (split caption))).
  - rewrite Hb. reflexivity.
  - rewrite Hl. exact Hlen.
  - rewrite Hw. exact Hwords.
Qed.

(** After a rejection the attributes have none of the three keys, in the
    verdict and in the exhausted state alike. *)
Lemma rejected_metadata_keys (self : Critic.t) (evaluated : str)
    (metadata : gmap str str) :
  Evaluation.approved (Critic.evaluate self evaluated) = false ->
  metadata = Evaluation.metadata (Critic.evaluate self evaluated)
  \/ metadata = exhausted_metadata (Critic.evaluate self evaluated) ->
  metadata !! lit "length" = None
  /\ metadata !! lit "word_count" = None
  /\ metadata !! lit "brand_safety_check" = None.
Proof.
  intros Hrejected Hmeta.
  destruct (critic_metadata self evaluated) as (_ & Hstatus).
  specialize (Hstatus Hrejected).
  destruct Hmeta as [-> | ->]; unfold exhausted_metadata; rewrite Hstatus.
  - repeat split; apply lookup_singleton_ne; lit_neq.
  - repeat split.
    all: rewrite lookup_insert_ne by lit_neq.
    all: rewrite lookup_insert_ne by lit_neq.
    all: apply lookup_empty.
Qed.

(** The payload built after a rejection by the rule-based critic, whether
    the attributes are the verdict's or those of the exhausted state, and
    whatever the final caption: [int] has nothing to parse, the length and
    the word count are recomputed from the caption and
    [brand_safety_check] is "unknown". *)
Theorem payload_of_rejected_verdict
    (self : Critic.t) (product audience evaluated caption : str)
    (metadata : gmap str str) :
  Evaluation.approved (Critic.evaluate self evaluated) = false ->
  metadata = Evaluation.metadata (Critic.evaluate self evaluated)
  \/ metadata = exhausted_metadata (Critic.evaluate self evaluated) ->
  AdcpPayload.build_adcp_payload product audience caption metadata
  = Some {|
      AdcpPayload.adcp_version := lit "1.0";
      AdcpPayload.task := lit "creative_generation";
      AdcpPayload.payload := {|
        AdcpPayload.target_audience := audience;
        AdcpPayload.creative_assets :=
          [ {| AdcpPayload.type := lit "text_ad";
               AdcpPayload.content := caption |} ];
        AdcpPayload.product := product;
      |};
      AdcpPayload.metadata := {|
        AdcpPayload.length := len caption;
        AdcpPayload.word_count := len (split caption);
        AdcpPayload.sentiment := lit "energetic";
        AdcpPayload.brand_safety_check := lit "unknown";
      |};
    |}.
Proof.
  intros Hrejected Hmeta.
  destruct (rejected_metadata_keys self evaluated metadata Hrejected Hmeta)
    as (Hl & Hw & Hb).
  rewrite (payload_of_keys product audience caption _
             (len caption) (len (split caption))).
  - rewrite Hb. reflexivity.
  - rewrite Hl. reflexivity.
  - rewrite Hw. reflexivity.
Qed.

End VerdictFacts.

(** ** The ASCII built-ins read back the integers they print *)

Lemma lit_cons_ascii (c : ascii) (s : string) :
  (N_of_ascii c <? 0x80)%N = true ->
  lit (String c s) = N_of_ascii c :: lit s.
Proof.
  intros Hc. unfold lit. cbn [list_ascii_of_string map utf8_decode].
  change (List.map N_of_ascii (list_ascii_of_string s))
    with (map N_of_ascii (list_ascii_of_string s)).
  rewrite Hc. reflexivity.
Qed.

Lemma digits_value_digit (k : N) (acc : Z) (b : bool) (t : str) :
  (k < 10)%N ->
  digits_value acc b ((48 + k)%N :: t)
  = digits_value (acc * 10 + Z.of_N k) true t.
Proof.
  intros Hk. cbn [digits_value]. unfold is_digit.
  replace (48 + k - 48)%N with k by lia.
  destruct (N.leb_spec 48 (48 + k)); [|lia].
  destruct (N.leb_spec (48 + k) 57); [|lia]. reflexivity.
Qed.

Ltac uint_cases d IH :=
  induction d as [|d IH|d IH|d IH|d IH|d IH|d IH|d IH|d IH|d IH|d IH].

Ltac read_digit :=
  cbn [NilEmpty.string_of_uint Pos.of_uint_acc Pos.of_uint];
  rewrite lit_cons_ascii by reflexivity;
  match goal with
  | |- context [N_of_ascii ?c] =>
    let v := eval vm_compute in (N_of_ascii c - 48)%N in
    change (N_of_ascii c) with (48 + v)%N
  end;
  rewrite digits_value_digit by reflexivity.

Lemma digits_value_acc (d : Decimal.uint) : forall acc : positive,
  digits_value (Z.pos acc) true (lit (NilEmpty.string_of_uint d))
  = Some (Z.pos (Pos.of_uint_acc d acc)).
Proof.
  uint_cases d IH; intros acc; [reflexivity|..].
  all: read_digit; rewrite <- IH; f_equal; lia.
Qed.

Lemma digits_value_zero (d : Decimal.uint) : forall b : bool,
  d <> Decimal.Nil \/ b = true ->
  digits_value 0 b (lit (NilEmpty.string_of_uint d))
  = Some (Z.of_N (Pos.of_uint d)).
Proof.
  uint_cases d IH; intros b Hb.
  - destruct Hb as [Hb | ->]; [congruence|reflexivity].
  - read_digit. apply IH. right. reflexivity.
  - read_digit. apply digits_value_acc.
  - read_digit. apply digits_value_acc.
  - read_digit. apply digits_value_acc.
  - read_digit. apply digits_value_acc.
  - read_digit. apply digits_value_acc.
  - read_digit. apply digits_value_acc.
  - read_digit. apply digits_value_acc.
  - read_digit. apply digits_value_acc.
  - read_digit. apply digits_value_acc.
Qed.

Lemma lstrip_nonspace (s : str) :
  Forall (fun c => isspace c = false) s -> lstrip s = s.
Proof. intros [|c t Hc _]; [reflexivity|]. cbn [lstrip]. by rewrite Hc. Qed.

Lemma strip_nonspace (s : str) :
  Forall (fun c => isspace c = false) s -> strip s = s.
Proof.
  intros Hs. unfold strip. rewrite (lstrip_nonspace s Hs).
  rewrite lstrip_nonspace by (by apply Forall_rev).
  apply rev_involutive.
Qed.

Lemma digits_nonspace (d : Decimal.uint) :
  Forall (fun c => isspace c = false) (lit (NilEmpty.string_of_uint d)).
Proof.
  uint_cases d IH; [constructor|..].
  all: cbn [NilEmpty.string_of_uint]; rewrite lit_cons_ascii by reflexivity.
  all: constructor; [reflexivity|exact IH].
Qed.

Lemma ascii_int_digits (d : Decimal.uint) :
  d <> Decimal.Nil ->
  ascii_int (lit (NilEmpty.string_of_uint d)) = Some (Z.of_N (Pos.of_uint d)).
Proof.
  intros Hd. unfold ascii_int. rewrite strip_nonspace by apply digits_nonspace.
  rewrite <- (digits_value_zero d false) by (left; exact Hd).
  destruct d; [congruence|..].
  all: cbn [NilEmpty.string_of_uint]; rewrite lit_cons_ascii by reflexivity.
  all: reflexivity.
Qed.

(** [int(str(n))] is [n] for the ASCII built-ins. *)
Lemma ascii_int_str_of_int (n : Z) :
  (0 <= n)%Z -> ascii_int (str_of_int n) = Some n.
Proof.
  intros Hn. destruct n as [|p|p]; [reflexivity| |lia].
  unfold str_of_int. cbn [Z.to_int NilZero.string_of_int].
  pose proof (Unsigned.to_uint_nonnil p) as Hnil.
  unfold NilZero.string_of_uint.
  destruct (Pos.to_uint p) eqn:Hp; [congruence|..].
  all: rewrite <- Hp, ascii_int_digits by (rewrite Hp; discriminate).
  all: by rewrite Unsigned.of_to.
Qed.

(** ** The template creator in front of the rule-based critic *)

Section TemplateFacts.

Context `{Builtins}.

Ltac compute_lits_in H :=
  repeat match type of H with
  | context [lit ?s] =>
    let v := eval vm_compute in (lit s) in change (lit s) with v in H
  end.

Lemma contains_emoji_app (s t : str) :
  AdcpPayload.contains_emoji (s ++ t)
  = AdcpPayload.contains_emoji s || AdcpPayload.contains_emoji t.
Proof. apply existsb_app. Qed.

Lemma captions_have_emoji (product audience caption : str) :
  caption ∈ Creator.captions product audience ->
  AdcpPayload.contains_emoji caption = true.
Proof.
  rewrite list_elem_of_In. unfold Creator.captions. cbn [In].
  intros [<- | [<- | [<- | [<- | []]]]].
  all: rewrite !contains_emoji_app.
  all: rewrite !orb_true_iff; repeat right; reflexivity.
Qed.

(** The creator as built proposes the caption of the template drawn and
    stays as it is. *)
Lemma init_propose (product audience : str) (feedback : option str) (r : nat) :
  exists caption,
    Creator.propose (Creator.__init__ product audience) feedback r
    = Some (caption, Creator.__init__ product audience)
    /\ Creator.captions product audience !! (r mod 4) = Some caption.
Proof.
  destruct (format_templates product audience
              (<[lit "product" := product]> {[lit "audience" := audience]})
              (r mod 4))
    as (template & caption & Ht & Hf & Hc).
  { apply lookup_insert_eq. }
  { rewrite lookup_insert_ne by (vm_compute; discriminate).
    apply lookup_singleton_eq. }
  { apply Nat.mod_upper_bound. lia. }
  exists caption. split; [|exact Hc].
  unfold Creator.propose, Creator._pick_template.
  cbn [Creator.attempts Creator.__init__ Creator.product Creator.audience].
  change (length (Creator.templates _)) with 4.
  destruct feedback; rewrite Ht; cbn [mbind option_bind]; rewrite Hf; reflexivity.
Qed.

Lemma proposed_caption (product audience : str) (self : Creator.t)
    (feedback : option str) (r : nat) (caption : str) (self' : Creator.t) :
  Creator.reachable product audience self ->
  Creator.propose self feedback r = Some (caption, self') ->
  self' = self /\ caption ∈ Creator.captions product audience.
Proof.
  intros Hreach Hp. apply reachable_init_only in Hreach as ->.
  destruct (init_propose product audience feedback r) as (caption' & Hp' & Hc).
  rewrite Hp' in Hp. injection Hp as <- <-. split; [reflexivity|].
  apply list_elem_of_lookup. exists (r mod 4). exact Hc.
Qed.

(** Whatever the product and the audience, a caption proposed by the
    template creator has an emoji, so the rule-based critic never gives
    "Must contain an emoji." among its reasons for it. *)
Theorem template_captions_pass_emoji_rule
    (product audience : str) (self : Creator.t) (feedback : option str)
    (r : nat) (caption : str) (self' : Creator.t) (critic : Critic.t) :
  Creator.reachable product audience self ->
  Creator.propose self feedback r = Some (caption, self') ->
  AdcpPayload.contains_emoji caption = true
  /\ lit "Must contain an emoji." ∉ Critic.failures (Critic.rules critic caption).
Proof.
  intros Hreach Hp.
  destruct (proposed_caption _ _ _ _ _ _ _ Hreach Hp) as (_ & Hin).
  apply captions_have_emoji in Hin. split; [exact Hin|].
  unfold Critic.rules, Critic.failures.
  cbn [List.filter Critic.holds]. rewrite Hin. cbn [negb].
  destruct (len (split caption) <=? Critic.max_words critic)%Z;
    destruct (contains (lower (Critic.product critic)) (lower caption));
    destruct (forallb _ _);
    cbn [negb fmap list_fmap Critic.message].
  all: rewrite list_elem_of_In; cbn [In].
  all: intros Hx; repeat (destruct Hx as [Hx|Hx]); try exact Hx.
  all: compute_lits_in Hx; cbn [app] in Hx; discriminate Hx.
Qed.

End TemplateFacts.

(** ** The run and the report in rule-based mode *)

Section RuleBasedRun.

Context `{Builtins}.
Context {Temp Env : Type}.
Variable zero : Temp.
Variable draw : Env -> nat * Env.
Variable llm_propose :
  LLMCreator.t Temp -> option str -> Env -> option (str * Env).
Variable llm_evaluate :
  LLMCritic.t Temp -> str -> Env -> option (Evaluation.t * Env).
Variable constructs : LLM Temp -> bool.
Variable recursion_limit : nat.

Lemma rule_based_propose (product audience : str) feedback (w : @Agents Temp Env) :
  rule_based product audience w ->
  exists caption w',
    propose_dispatch draw llm_propose feedback w = Some (caption, w')
    /\ rule_based product audience w'
    /\ caption ∈ Creator.captions product audience.
Proof.
  intros (Hc & Hk). unfold propose_dispatch. rewrite Hc.
  destruct (draw (env w)) as [r env'].
  destruct (init_propose product audience feedback r) as (caption & Hp & Hcap).
  rewrite Hp. cbn [mbind option_bind].
  eexists. eexists. split; [reflexivity|]. split; [split; [reflexivity|exact Hk]|].
  apply list_elem_of_lookup. exists (r mod 4). exact Hcap.
Qed.

Lemma rule_based_evaluate (product audience : str) caption (w : @Agents Temp Env) :
  rule_based product audience w ->
  exists evaluation w',
    evaluate_dispatch llm_evaluate caption w = Some (evaluation, w')
    /\ rule_based product audience w'
    /\ evaluation
       = Critic.evaluate (Critic.__init__ product Critic.default_max_words) caption.
Proof.
  intros (Hc & Hk). unfold evaluate_dispatch. rewrite Hk.
  eexists. eexists. split; [reflexivity|]. split; [split; [exact Hc|exact Hk]|].
  reflexivity.
Qed.

(** The graph over the template creator and the rule-based critic, from
    the initial state: when the steps of the budget are fewer than the
    recursion limit the run reaches [END], and every attempt pairs one of
    the creator's captions with the critic's verdict for it. *)
Lemma rule_based_invoke (product audience : str)
    (max_attempts : Z) (w : @Agents Temp Env) :
  rule_based product audience w ->
  2 * Z.to_nat (Z.max 1 max_attempts) < recursion_limit ->
  exists final r',
    invoke (build_graph (propose_dispatch draw llm_propose)
              (evaluate_dispatch llm_evaluate) max_attempts)
      recursion_limit (initial_state product audience)
      {| world := w; calls := [] |}
    = (Ret (Done final), r')
    /\ GraphState.approved final = negb (GraphState.get_exhausted final)
    /\ 1 <= length (GraphState.attempts final) <= Z.to_nat (Z.max 1 max_attempts)
    /\ calls r' = calls_of None (GraphState.attempts final)
    /\ (exists earlier last,
          GraphState.attempts final = earlier ++ [last]
          /\ GraphState.caption final = Attempt.caption last
          /\ GraphState.approved final
             = Evaluation.approved (Attempt.evaluation last)
          /\ GraphState.feedback final
             = Some (if Evaluation.approved (Attempt.evaluation last)
                     then Evaluation.feedback (Attempt.evaluation last)
                     else exhausted_feedback max_attempts
                            (Attempt.evaluation last))
          /\ GraphState.metadata final
             = (if Evaluation.approved (Attempt.evaluation last)
                then Evaluation.metadata (Attempt.evaluation last)
                else exhausted_metadata (Attempt.evaluation last)))
    /\ Forall (fun attempt =>
                 Attempt.caption attempt ∈ Creator.captions product audience
                 /\ Attempt.evaluation attempt
                    = Critic.evaluate
                        (Critic.__init__ product Critic.default_max_words)
                        (Attempt.caption attempt))
              (GraphState.attempts final).
Proof.
  intros Hw Hlimit.
  destruct (invoke_invariant (propose_dispatch draw llm_propose)
              (evaluate_dispatch llm_evaluate) max_attempts
              (rule_based product audience)
              (fun caption => caption ∈ Creator.captions product audience)
              (fun caption evaluation =>
                 evaluation = Critic.evaluate
                                (Critic.__init__ product Critic.default_max_words)
                                caption)
              recursion_limit (initial_state product audience)
              {| world := w; calls := [] |})
    as (final & r' & new & Hrun & _ & Hnew & Hall).
  { intros feedback w0 Hw0. apply rule_based_propose. exact Hw0. }
  { intros caption w0 Hw0 _. apply rule_based_evaluate. exact Hw0. }
  { reflexivity. }
  { exact Hw. }
  { unfold len. cbn [initial_state GraphState.attempts length]. lia. }
  cbn [initial_state GraphState.attempts app] in Hnew.
  exists final, r'. split; [exact Hrun|].
  apply invoke_Done in Hrun as (_ & Hrun).
  pose proof Hrun as Hbounds.
  apply finished_run_bounds in Hbounds as (Hflags & Hlen & Hcalls);
    [|reflexivity|reflexivity].
  cbn [initial_state GraphState.feedback calls app] in Hcalls.
  split; [exact Hflags|]. split; [exact Hlen|]. split; [exact Hcalls|].
  rewrite <- Hnew in Hall. split; [|exact Hall].
  apply iterate_shape in Hrun as (new' & Hnew' & _ & _ & Hdone); [|reflexivity].
  destruct Hdone as (earlier & last & -> & _ & _ & Hcap & Happ & _ & Hrej & Hacc).
  cbn [initial_state GraphState.attempts progress_state app] in Hnew'.
  exists earlier, last. split; [exact Hnew'|]. split; [exact Hcap|].
  split; [exact Happ|].
  destruct (Evaluation.approved (Attempt.evaluation last)).
  - destruct Hacc as (Hf & Hm); [reflexivity|]. split; [exact Hf|exact Hm].
  - destruct Hrej as (_ & Hf & Hm); [reflexivity|]. split; [exact Hf|exact Hm].
Qed.

(** With the template creator and the rule-based critic, a provider and
    model that pass the guard of [_build_llm], clients whose constructors
    return, and a budget whose [2 * max 1 max_attempts] steps are fewer
    than the recursion limit, [run_workflow] raises nothing: it returns a
    final state that is accepted or else exhausted, after at most
    [max 1 max_attempts] calls to each capability and one attempt for each
    evaluator call; every caption tried is one of the creator's four
    captions and every verdict is the critic's verdict for its caption. *)
Theorem rule_based_run_completes
    (product audience : str) (max_attempts : Z)
    (creator_mode critic_mode model : str) (temperature : Temp)
    (base_url provider : str) (api_key openai_base_url : option str)
    (env : Env) :
  creator_mode <> lit "llm" ->
  critic_mode <> lit "llm" ->
  provider <> lit "openai" \/ contains (lit ":") model = false ->
  (forall llm, constructs llm = true) ->
  2 * Z.to_nat (Z.max 1 max_attempts) < recursion_limit ->
  exists final log,
    run_workflow zero draw llm_propose llm_evaluate constructs recursion_limit
      product audience
      max_attempts creator_mode critic_mode model temperature base_url
      provider api_key openai_base_url env
    = (Invoked (Ret (Done final)), log)
    /\ GraphState.approved final = negb (GraphState.get_exhausted final)
    /\ 1 <= length (GraphState.attempts final) <= Z.to_nat (Z.max 1 max_attempts)
    /\ count_propose log = length (GraphState.attempts final)
    /\ count_evaluate log = length (GraphState.attempts final)
    /\ GraphState.caption final ∈ Creator.captions product audience
    /\ (let verdict :=
          Critic.evaluate (Critic.__init__ product Critic.default_max_words)
            (GraphState.caption final) in
        GraphState.approved final = Evaluation.approved verdict
        /\ GraphState.feedback final
           = Some (if Evaluation.approved verdict
                   then Evaluation.feedback verdict
                   else exhausted_feedback max_attempts verdict)
        /\ GraphState.metadata final
           = (if Evaluation.approved verdict
              then Evaluation.metadata verdict
              else exhausted_metadata verdict))
    /\ Forall (fun attempt =>
                 Attempt.caption attempt ∈ Creator.captions product audience
                 /\ Attempt.evaluation attempt
                    = Critic.evaluate
                        (Critic.__init__ product Critic.default_max_words)
                        (Attempt.caption attempt))
              (GraphState.attempts final).
Proof.
  intros Hcreator Hcritic Hllm Hconstructs Hlimit. unfold run_workflow.
  destruct (build_llm_accepts constructs provider model temperature base_url
              api_key openai_base_url Hconstructs Hllm) as (creator_llm & ->).
  destruct (build_llm_accepts constructs provider model zero base_url api_key
              openai_base_url Hconstructs Hllm) as (critic_llm & ->).
  rewrite (decide_False (P := creator_mode = lit "llm")) by exact Hcreator.
  rewrite (decide_False (P := critic_mode = lit "llm")) by exact Hcritic.
  cbv zeta.
  destruct (rule_based_invoke product audience max_attempts
              {| creator := TemplateCreator (Creator.__init__ product audience);
                 critic := RuleCritic
                             (Critic.__init__ product Critic.default_max_words);
                 env := env |})
    as (final & r' & -> & Hflags & Hlen & Hcalls & Hlast & Hall);
    [split; reflexivity|exact Hlimit|].
  destruct (calls_of_counts None (GraphState.attempts final)) as (Hcp & Hce).
  destruct Hlast as (earlier & last & Hatt & Hcap & Happ & Hf & Hm).
  exists final, (calls r'). split; [reflexivity|].
  split; [exact Hflags|]. split; [exact Hlen|].
  rewrite Hcalls. split; [exact Hcp|]. split; [exact Hce|].
  split; [|split; [|exact Hall]].
  - rewrite Hatt, Forall_app in Hall. destruct Hall as (_ & Hlast).
    inversion Hlast as [|? ? (Hin & _) _]. rewrite Hcap. exact Hin.
  - rewrite Hatt, Forall_app in Hall. destruct Hall as (_ & Hlast).
    inversion Hlast as [|? ? (_ & Hverdict) _]. cbv zeta.
    rewrite Hcap, <- Hverdict. split; [exact Happ|]. split; [exact Hf|exact Hm].
Qed.


End RuleBasedRun.

(** ** White space at the ends of a string *)

Section StripFacts.

Implicit Types s t : str.

Lemma lstrip_split s :
  exists w, s = w ++ lstrip s /\ blank w.
Proof.
  induction s as [|c s (w & Hs & Hw)]; [exists []; split; [reflexivity|constructor]|].
  cbn [lstrip]. destruct (isspace c) eqn:Hc.
  - exists (c :: w). split; [cbn [app]; congruence|by constructor].
  - exists []. split; [reflexivity|constructor].
Qed.

Lemma lstrip_head s c t : lstrip s = c :: t -> isspace c = false.
Proof.
  induction s as [|c' s IH]; [discriminate|]. cbn [lstrip].
  destruct (isspace c') eqn:Hc; [exact IH|]. intros [= -> _]. exact Hc.
Qed.

Lemma lstrip_fixed s :
  (forall c t, s = c :: t -> isspace c = false) -> lstrip s = s.
Proof.
  destruct s as [|c t]; [reflexivity|]. intros Hs. cbn [lstrip].
  by rewrite (Hs c t eq_refl).
Qed.

Lemma lstrip_lstrip s : lstrip (lstrip s) = lstrip s.
Proof. apply lstrip_fixed. intros c t. apply lstrip_head. Qed.

Lemma lstrip_blank s : lstrip s = [] <-> blank s.
Proof.
  induction s as [|c s IH]; [split; [constructor|reflexivity]|].
  cbn [lstrip]. destruct (isspace c) eqn:Hc.
  - rewrite IH. split; [by constructor|by inversion 1].
  - split; [discriminate|]. inversion 1; congruence.
Qed.

Lemma blank_rev s : blank (rev s) <-> blank s.
Proof. unfold blank. split; intros Hs; [rewrite <- (rev_involutive s)|]; by apply Forall_rev. Qed.

Lemma strip_blank s : strip s = [] <-> blank s.
Proof.
  unfold strip. split.
  - intros Hs. apply (f_equal (@rev N)) in Hs. rewrite rev_involutive in Hs.
    cbn [rev] in Hs. apply lstrip_blank in Hs.
    apply (proj1 (blank_rev _)) in Hs.
    apply lstrip_blank. destruct (lstrip s) as [|c t] eqn:Hl; [reflexivity|].
    apply lstrip_head in Hl. inversion Hs; congruence.
  - intros Hs. apply lstrip_blank in Hs. rewrite Hs. reflexivity.
Qed.

(** What [strip] leaves begins and ends with code points that are not
    white, and stripping it again changes nothing. *)
Lemma strip_split s :
  exists w w', s = w ++ strip s ++ w' /\ blank w /\ blank w'.
Proof.
  destruct (lstrip_split s) as (w & Hs & Hw).
  destruct (lstrip_split (rev (lstrip s))) as (w' & Hr & Hw').
  exists w, (rev w'). split; [|split; [exact Hw|by apply (proj2 (blank_rev _))]].
  unfold strip. rewrite <- rev_app_distr, <- Hr, rev_involutive. exact Hs.
Qed.

Lemma strip_head s c t : strip s = c :: t -> isspace c = false.
Proof.
  unfold strip. intros Hs.
  destruct (lstrip_split (rev (lstrip s))) as (w & Hr & Hw).
  apply (f_equal (@rev N)) in Hr. rewrite rev_involutive, rev_app_distr, Hs in Hr.
  cbn [app] in Hr. apply (lstrip_head s c (t ++ rev w)). exact Hr.
Qed.

Lemma strip_last s c t : strip s = t ++ [c] -> isspace c = false.
Proof.
  unfold strip. intros Hs. apply (f_equal (@rev N)) in Hs.
  rewrite rev_involutive, rev_app_distr in Hs. cbn [rev app] in Hs.
  by apply lstrip_head in Hs.
Qed.

Lemma strip_strip s : strip (strip s) = strip s.
Proof.
  assert (Hl : lstrip (strip s) = strip s).
  { apply lstrip_fixed. intros c t. apply strip_head. }
  unfold strip at 1. rewrite Hl. unfold strip.
  rewrite rev_involutive, lstrip_lstrip. reflexivity.
Qed.

End StripFacts.

(** ** The model-backed agents *)

Section ChatFacts.

Context `{Builtins}.
Context {Temp Env : Type}.
Variable chat : LLM Temp -> list message -> Env -> option (str * Env).

Lemma splitlines_from_nil (cur s : str) :
  splitlines_from cur s = [] <-> cur = [] /\ s = [].
Proof.
  revert cur. induction s as [|c t IH]; intros cur.
  - cbn [splitlines_from]. destruct cur; split; try discriminate.
    + intros _. split; reflexivity.
    + reflexivity.
    + intros (Hc & _). discriminate Hc.
  - cbn [splitlines_from]. destruct (is_linebreak c).
    + split; [discriminate|]. intros (_ & Hs). discriminate Hs.
    + rewrite IH. split.
      * intros (Hc & _). destruct cur; discriminate Hc.
      * intros (_ & Hs). discriminate Hs.
Qed.

Lemma splitlines_head (s : str) : head (splitlines s) = None <-> s = [].
Proof.
  unfold splitlines. destruct (splitlines_from [] s) as [|l ls] eqn:Hs.
  - apply splitlines_from_nil in Hs as (_ & ->). split; reflexivity.
  - split; [discriminate|]. intros ->. discriminate Hs.
Qed.

(** An answer of the chat model that is empty or white space only makes
    [LLMCritic.evaluate] raise (the first line of no line); any other
    answer gives a verdict. *)
Theorem llm_critic_raises_on_blank_answer
    (self : LLMCritic.t Temp) (caption : str) (env : Env)
    (content : str) (env' : Env) :
  (forall messages,
     chat (LLMCritic.llm self) messages env = Some (content, env')) ->
  (LLMCritic_evaluate chat self caption env = None <-> blank content)
  /\ (~ blank content ->
      exists verdict,
        LLMCritic_evaluate chat self caption env = Some (verdict, env')).
Proof.
  intros Hchat. unfold LLMCritic_evaluate. rewrite Hchat.
  cbn [mbind option_bind]. rewrite strip_strip.
  destruct (head (splitlines (strip content))) as [first_line|] eqn:Hhead.
  - assert (Hne : ~ blank content).
    { intros Hb. apply strip_blank in Hb. rewrite Hb in Hhead. discriminate Hhead. }
    cbn [option_bind mbind].
    destruct (contains (lit "approved") (lower first_line)
              && negb (contains (lit "rejected") (lower first_line))).
    + split; [split; [discriminate|intros Hb; destruct (Hne Hb)]|].
      intros _. eexists. reflexivity.
    + split; [split; [discriminate|intros Hb; destruct (Hne Hb)]|].
      intros _. eexists. reflexivity.
  - apply splitlines_head, strip_blank in Hhead. cbn [option_bind mbind].
    split; [split; [intros _; exact Hhead|reflexivity]|].
    intros Hne. destruct (Hne Hhead).
Qed.

Ltac lit_neq := vm_compute; discriminate.

(** The four attributes of a verdict of the model-backed critic. *)
Lemma attributes_lookups (caption status brand : str) :
  let metadata : gmap str str :=
    <[lit "status" := status]>
    (<[lit "length" := str_of_int (len caption)]>
    (<[lit "word_count" := str_of_int (len (split caption))]>
    {[ lit "brand_safety_check" := brand ]})) in
  metadata !! lit "status" = Some status
  /\ metadata !! lit "brand_safety_check" = Some brand
  /\ metadata !! lit "length" = Some (str_of_int (len caption))
  /\ metadata !! lit "word_count" = Some (str_of_int (len (split caption))).
Proof.
  assert (Hsl : lit "status" <> lit "length") by lit_neq.
  assert (Hsw : lit "status" <> lit "word_count") by lit_neq.
  assert (Hsb : lit "status" <> lit "brand_safety_check") by lit_neq.
  assert (Hlw : lit "length" <> lit "word_count") by lit_neq.
  assert (Hlb : lit "length" <> lit "brand_safety_check") by lit_neq.
  assert (Hwb : lit "word_count" <> lit "brand_safety_check") by lit_neq.
  intros metadata. subst metadata. split; [apply lookup_insert_eq|].
  split.
  { rewrite lookup_insert_ne by exact Hsb.
    rewrite lookup_insert_ne by exact Hlb.
    rewrite lookup_insert_ne by exact Hwb. apply lookup_singleton_eq. }
  split.
  { rewrite lookup_insert_ne by exact Hsl. apply lookup_insert_eq. }
  rewrite lookup_insert_ne by exact Hsw.
  rewrite lookup_insert_ne by exact Hlw. apply lookup_insert_eq.
Qed.

(** The attributes the projection reads, in a verdict of the model-backed
    critic. *)
Lemma llm_critic_metadata
    (self : LLMCritic.t Temp) (caption : str) (env : Env)
    (verdict : Evaluation.t) (env' : Env) :
  LLMCritic_evaluate chat self caption env = Some (verdict, env') ->
  Evaluation.metadata verdict !! lit "length"
  = Some (str_of_int (len caption))
  /\ Evaluation.metadata verdict !! lit "word_count"
     = Some (str_of_int (len (split caption)))
  /\ Evaluation.metadata verdict !! lit "brand_safety_check"
     = Some (if Evaluation.approved verdict then lit "passed" else lit "failed").
Proof.
  unfold LLMCritic_evaluate.
  destruct (chat _ _ _) as [[content env1]|]; [|discriminate].
  cbn [mbind option_bind].
  destruct (head (splitlines _)) as [first_line|]; [|discriminate].
  cbn [mbind option_bind].
  destruct (contains (lit "approved") (lower first_line)
            && negb (contains (lit "rejected") (lower first_line)));
    intros [= <- <-];
    cbn [Evaluation.metadata Evaluation.approved].
  - destruct (attributes_lookups caption (lit "approved") (lit "passed"))
      as (_ & Hb & Hl & Hw).
    split; [exact Hl|]. split; [exact Hw|exact Hb].
  - destruct (attributes_lookups caption (lit "rejected") (lit "failed"))
      as (_ & Hb & Hl & Hw).
    split; [exact Hl|]. split; [exact Hw|exact Hb].
Qed.

(** A verdict of [LLMCritic.evaluate] is well formed: [status] is
    "approved" and [brand_safety_check] "passed" when it is accepted,
    "rejected" and "failed" when it is not; [length] and [word_count] are
    the caption's, in decimal; the reasons are "Approved" when accepted and
    are never empty. *)
Theorem llm_critic_verdict_well_formed
    (self : LLMCritic.t Temp) (caption : str) (env : Env)
    (verdict : Evaluation.t) (env' : Env) :
  LLMCritic_evaluate chat self caption env = Some (verdict, env') ->
  Evaluation.metadata verdict !! lit "status"
  = Some (if Evaluation.approved verdict then lit "approved" else lit "rejected")
  /\ Evaluation.metadata verdict !! lit "brand_safety_check"
     = Some (if Evaluation.approved verdict then lit "passed" else lit "failed")
  /\ Evaluation.metadata verdict !! lit "length"
     = Some (str_of_int (len caption))
  /\ Evaluation.metadata verdict !! lit "word_count"
     = Some (str_of_int (len (split caption)))
  /\ Evaluation.feedback verdict <> []
  /\ (Evaluation.approved verdict = true ->
      Evaluation.feedback verdict = lit "Approved").
Proof.
  unfold LLMCritic_evaluate.
  destruct (chat _ _ _) as [[content env1]|]; [|discriminate].
  cbn [mbind option_bind].
  destruct (head (splitlines _)) as [first_line|]; [|discriminate].
  cbn [mbind option_bind].
  destruct (contains (lit "approved") (lower first_line)
            && negb (contains (lit "rejected") (lower first_line)));
    intros [= <- <-];
    cbn [Evaluation.metadata Evaluation.approved Evaluation.feedback];
    destruct (attributes_lookups caption (lit "approved") (lit "passed")) as (A1 & A2 & A3 & A4);
    destruct (attributes_lookups caption (lit "rejected") (lit "failed")) as (R1 & R2 & R3 & R4).
  - split; [exact A1|]. split; [exact A2|]. split; [exact A3|].
    split; [exact A4|]. split; [lit_neq|]. intros _. reflexivity.
  - split; [exact R1|]. split; [exact R2|]. split; [exact R3|].
    split; [exact R4|]. split; [|intros Hx; discriminate Hx].
    unfold str_or. destruct (strip _); [lit_neq|discriminate].
Qed.

Lemma sub_spaces_head (s : str) (c : N) (t : str) :
  sub_spaces true s = c :: t -> isspace c = false.
Proof.
  induction s as [|c' s IH]; [discriminate|]. cbn [sub_spaces].
  destruct (isspace c') eqn:Hc; [exact IH|]. intros [= <- _]. exact Hc.
Qed.

Lemma sub_spaces_single_spaced (s : str) : forall in_run,
  single_spaced (sub_spaces in_run s).
Proof.
  induction s as [|c0 s IH]; intros in_run i c Hi Hc; [discriminate Hi|].
  cbn [sub_spaces] in *. destruct (isspace c0) eqn:Hc0.
  - destruct in_run; [exact (IH true i c Hi Hc)|].
    destruct i as [|i].
    + injection Hi as <-. split; [reflexivity|]. intros c' Hc'.
      destruct (sub_spaces true s) as [|c1 t] eqn:Hs; [discriminate Hc'|].
      injection Hc' as <-. exact (sub_spaces_head s c1 t Hs).
    + exact (IH true i c Hi Hc).
  - destruct i as [|i].
    + injection Hi as <-. congruence.
    + exact (IH false i c Hi Hc).
Qed.

(** [LLMCreator.propose] raises only when the chat model does; the caption
    it returns has no white space but single spaces, none next to another;
    and an empty feedback is treated as an absent one. *)
Theorem llm_creator_caption_single_spaced
    (self : LLMCreator.t Temp) (feedback : option str) (env : Env)
    (content : str) (env' : Env) :
  (forall messages,
     chat (LLMCreator.llm self) messages env = Some (content, env')) ->
  (exists caption,
     LLMCreator_propose chat self feedback env = Some (caption, env')
     /\ single_spaced caption)
  /\ LLMCreator_propose chat self (Some []) env
     = LLMCreator_propose chat self None env.
Proof.
  intros Hchat. split; [|reflexivity].
  unfold LLMCreator_propose. rewrite Hchat. cbn [mbind option_bind].
  eexists. split; [reflexivity|]. apply sub_spaces_single_spaced.
Qed.

End ChatFacts.

(** ** Words and single spaces *)

Section WordFacts.

Implicit Types s t cur w : str.

#[local] Abbreviation sp := [0x20%N].
#[local] Abbreviation rstrip := (fun s => rev (lstrip (rev s))).

Lemma lstrip_app s t :
  lstrip (s ++ t) = match lstrip s with [] => lstrip t | l => l ++ t end.
Proof.
  induction s as [|c s IH]; [reflexivity|]. cbn [app lstrip].
  destruct (isspace c); [exact IH|reflexivity].
Qed.

Lemma rstrip_cons_nonspace c s :
  isspace c = false -> rstrip (c :: s) = c :: rstrip s.
Proof.
  intros Hc. cbn [rev]. rewrite lstrip_app.
  destruct (lstrip (rev s)) as [|c' l].
  - cbn [lstrip]. rewrite Hc. reflexivity.
  - rewrite rev_app_distr. reflexivity.
Qed.

Lemma rstrip_cons_space c s :
  isspace c = true ->
  rstrip (c :: s) = match rstrip s with [] => [] | l => c :: l end.
Proof.
  intros Hc. cbn [rev]. rewrite lstrip_app.
  destruct (lstrip (rev s)) as [|c' l].
  - cbn [lstrip]. rewrite Hc. reflexivity.
  - rewrite rev_app_distr. cbn [rev app].
    destruct (rev l ++ [c']) eqn:Hl; [|reflexivity].
    destruct (rev l); discriminate Hl.
Qed.

Lemma split_from_words cur s :
  Forall (fun c => isspace c = false) cur ->
  Forall word (split_from cur s).
Proof.
  revert cur. induction s as [|c s IH]; intros cur Hcur.
  - cbn [split_from]. destruct cur; [constructor|].
    constructor; [split; [discriminate|exact Hcur]|constructor].
  - cbn [split_from]. destruct (isspace c) eqn:Hc.
    + destruct cur.
      * apply IH. constructor.
      * constructor; [split; [discriminate|exact Hcur]|]. apply IH. constructor.
    + apply IH. apply Forall_app. split; [exact Hcur|].
      constructor; [exact Hc|constructor].
Qed.

Lemma split_words s : Forall word (split s).
Proof. apply split_from_words. constructor. Qed.

Lemma join_nil (ws : list str) :
  Forall word ws -> join sp ws = [] -> ws = [].
Proof.
  intros Hws. destruct Hws as [|w ws (Hw & _) _]; [reflexivity|].
  destruct w as [|c w]; [congruence|]. destruct ws; discriminate.
Qed.

Lemma join_cons w (ws : list str) :
  join sp (w :: ws) = match ws with [] => w | _ => w ++ sp ++ join sp ws end.
Proof. destruct ws; reflexivity. Qed.

(** Collapsing the white space and stripping gives the words joined by
    single spaces. *)
Lemma join_split_from s :
  (forall cur, cur <> [] ->
     join sp (split_from cur s) = cur ++ rstrip (sub_spaces false s))
  /\ join sp (split_from [] s) = rstrip (sub_spaces true s).
Proof.
  induction s as [|c s (IHa & IHb)].
  - split; [|reflexivity]. intros cur Hcur. cbn [split_from sub_spaces].
    destruct cur; [congruence|]. cbn [join rev lstrip]. by rewrite app_nil_r.
  - cbn [split_from sub_spaces]. destruct (isspace c) eqn:Hc.
    + split; [|exact IHb]. intros cur Hcur.
      destruct cur as [|c0 cur]; [congruence|].
      rewrite join_cons, rstrip_cons_space by reflexivity.
      rewrite <- IHb.
      destruct (split_from [] s) as [|w ws] eqn:Hs.
      * cbn [join]. by rewrite app_nil_r.
      * destruct (join sp (w :: ws)) eqn:Hj; [|reflexivity].
        apply join_nil in Hj; [discriminate Hj|].
        rewrite <- Hs. apply split_from_words. constructor.
    + split.
      * intros cur Hcur. rewrite IHa by (destruct cur; discriminate).
        rewrite rstrip_cons_nonspace by exact Hc.
        rewrite <- app_assoc. reflexivity.
      * cbn [app]. rewrite (IHa [c]) by discriminate.
        rewrite rstrip_cons_nonspace by exact Hc. reflexivity.
Qed.

Lemma lstrip_sub_spaces s : lstrip (sub_spaces false s) = sub_spaces true s.
Proof.
  destruct s as [|c s]; [reflexivity|]. cbn [sub_spaces].
  destruct (isspace c) eqn:Hc.
  - cbn [lstrip]. change (isspace 32) with true. cbn iota.
    apply lstrip_fixed. intros c' t. apply sub_spaces_head.
  - cbn [lstrip]. rewrite Hc. reflexivity.
Qed.

Lemma strip_sub_spaces s : strip (sub_spaces false s) = join sp (split s).
Proof.
  unfold strip, split. rewrite lstrip_sub_spaces.
  symmetry. apply join_split_from.
Qed.

Lemma split_from_word w cur s :
  Forall (fun c => isspace c = false) w ->
  split_from cur (w ++ s) = split_from (cur ++ w) s.
Proof.
  intros Hw. revert cur. induction Hw as [|c w Hc _ IH]; intros cur.
  - by rewrite app_nil_r.
  - cbn [app split_from]. rewrite Hc, IH, <- app_assoc. reflexivity.
Qed.

(** Splitting words joined by single spaces gives the words back. *)
Lemma split_join (ws : list str) :
  Forall word ws -> split (join sp ws) = ws.
Proof.
  unfold split. induction 1 as [|w ws (Hne & Hw) Hws IH]; [reflexivity|].
  rewrite join_cons. destruct ws as [|w' ws].
  - replace (split_from [] w) with (split_from [] (w ++ []))
      by (by rewrite app_nil_r).
    rewrite split_from_word by exact Hw.
    cbn [app split_from]. destruct w; [congruence|reflexivity].
  - rewrite split_from_word by exact Hw. cbn [app split_from].
    change (isspace 32) with true. cbn iota.
    destruct w; [congruence|]. by rewrite IH.
Qed.

End WordFacts.

(** ** The heuristic repair of a caption *)

Section ApplyFeedbackFacts.

Context `{Builtins}.

(** [Creator._apply_feedback] returns a normalised caption: its words
    joined by single spaces, with no white space at either end. When the
    feedback asks for a shorter caption ("too long" or "under") and not for
    the product name, the caption returned has at most 15 words. *)
Theorem apply_feedback_normalised (self : Creator.t) (caption feedback : str) :
  let result := Creator._apply_feedback self caption feedback in
  result = join [0x20%N] (split result)
  /\ Forall word (split result)
  /\ strip result = result
  /\ (contains (lit "too long") (lower feedback)
      || contains (lit "under") (lower feedback) = true ->
      contains (lit "mention the product") (lower feedback) = false ->
      (len (split result) <= 15)%Z).
Proof.
  intros result. subst result. unfold Creator._apply_feedback.
  set (c1 := if contains (lit "emoji") _ && _ then _ else caption).
  set (c2 := if contains (lit "too long") _ || _ then _ else c1).
  set (c3 := if contains (lit "mention the product") _ && _ then _ else c2).
  cbv zeta. rewrite strip_sub_spaces.
  assert (Hsplit : split (join [0x20%N] (split c3)) = split c3)
    by (apply split_join, split_words).
  split; [by rewrite Hsplit|]. split; [apply split_words|].
  split; [rewrite <- strip_sub_spaces; apply strip_strip|].
  intros Hlong Hproduct. rewrite Hsplit. subst c3. rewrite Hproduct.
  cbn [andb]. subst c2. rewrite Hlong.
  rewrite split_join by (apply Forall_take, split_words).
  unfold len. rewrite length_take. lia.
Qed.

End ApplyFeedbackFacts.

(** ** The payload after a verdict of the model-backed critic *)

Section ChatPayloadFacts.

Context `{Builtins}.
Context {Temp Env : Type}.
Variable chat : LLM Temp -> list message -> Env -> option (str * Env).

(** The payload built from the attributes of a verdict of
    [LLMCritic.evaluate], or from those of the exhausted state after it,
    as [main] builds it: when [int] reads back the two numbers the critic
    printed, the payload is returned, with the length and word count of
    the caption evaluated and [brand_safety_check] "passed" or "failed" as
    the verdict is accepted or not. *)
Theorem payload_of_llm_verdict
    (self : LLMCritic.t Temp) (env : Env) (verdict : Evaluation.t) (env' : Env)
    (product audience caption : str) (metadata : gmap str str) :
  LLMCritic_evaluate chat self caption env = Some (verdict, env') ->
  metadata = Evaluation.metadata verdict
  \/ metadata = exhausted_metadata verdict ->
  int_of_str (str_of_int (len caption)) = Some (len caption) ->
  int_of_str (str_of_int (len (split caption))) = Some (len (split caption)) ->
  AdcpPayload.build_adcp_payload product audience caption metadata
  = Some {|
      AdcpPayload.adcp_version := lit "1.0";
      AdcpPayload.task := lit "creative_generation";
      AdcpPayload.payload := {|
        AdcpPayload.target_audience := audience;
        AdcpPayload.creative_assets :=
          [ {| AdcpPayload.type := lit "text_ad";
               AdcpPayload.content := caption |} ];
        AdcpPayload.product := product;
      |};
      AdcpPayload.metadata := {|
        AdcpPayload.length := len caption;
        AdcpPayload.word_count := len (split caption);
        AdcpPayload.sentiment := lit "energetic";
        AdcpPayload.brand_safety_check :=
          if Evaluation.approved verdict then lit "passed" else lit "failed";
      |};
    |}.
Proof.
  intros Hev Hmeta Hlen Hwords.
  destruct (llm_critic_metadata chat self caption env verdict env' Hev)
    as (Hl & Hw & Hb).
  assert (Hkeys : metadata !! lit "length" = Some (str_of_int (len caption))
                  /\ metadata !! lit "word_count"
                     = Some (str_of_int (len (split caption)))
                  /\ metadata !! lit "brand_safety_check"
                     = Some (if Evaluation.approved verdict
                             then lit "passed" else lit "failed")).
  { destruct Hmeta as [-> | ->]; [repeat split; assumption|].
    unfold exhausted_metadata. repeat split.
    all: rewrite lookup_insert_ne by (vm_compute; discriminate).
    all: rewrite lookup_insert_ne by (vm_compute; discriminate).
    all: assumption. }
  destruct Hkeys as (Hl' & Hw' & Hb').
  rewrite (payload_of_keys product audience caption _
             (len caption) (len (split caption))).
  - rewrite Hb'. reflexivity.
  - rewrite Hl'. exact Hlen.
  - rewrite Hw'. exact Hwords.
Qed.

End ChatPayloadFacts.

(** ** The report after a run *)

Section ReportFacts.

Context `{Builtins}.
Context {W : Type}.
Variable propose : option str -> W -> option (str * W).
Variable evaluate : str -> W -> option (Evaluation.t * W).
Variable max_attempts : Z.

Lemma parseable_payload (product audience caption : str)
    (metadata : gmap str str) :
  parseable metadata <->
  is_Some (AdcpPayload.build_adcp_payload product audience caption metadata).
Proof.
  unfold parseable, AdcpPayload.build_adcp_payload.
  rewrite !int_get_or_int.
  destruct (metadata !! lit "length") as [l|];
    destruct (metadata !! lit "word_count") as [w|].
  all: split.
  all: try (intros (Hl & Hw);
            repeat match goal with
            | Hx : forall v, Some ?x = Some v -> _ |- _ =>
              destruct (Hx x eq_refl) as (? & ->); clear Hx
            end;
            cbn [mbind option_bind]; eexists; reflexivity).
  all: intros (p & Hp); split; intros v Hv; try discriminate Hv;
       injection Hv as <-.
  all: repeat match type of Hp with
       | context [int_of_str ?x] =>
         destruct (int_of_str x) eqn:?; cbn [mbind option_bind] in Hp;
         try discriminate Hp
       end.
  all: eexists; reflexivity.
Qed.

Lemma parseable_exhausted (verdict : Evaluation.t) :
  parseable (Evaluation.metadata verdict) ->
  parseable (exhausted_metadata verdict).
Proof.
  unfold parseable, exhausted_metadata. intros (Hl & Hw). split; intros v.
  all: rewrite lookup_insert_ne by (vm_compute; discriminate).
  all: rewrite lookup_insert_ne by (vm_compute; discriminate).
  - apply Hl.
  - apply Hw.
Qed.

(** The attributes of the final state of a finished run are those of a
    verdict the evaluator returned, or those marked exhausted. *)
Lemma final_metadata_parseable
    (recursion_limit : nat) (state : GraphState.t) (r : Run W)
    (final : GraphState.t) (r' : Run W) :
  (forall caption w verdict w',
     evaluate caption w = Some (verdict, w') ->
     parseable (Evaluation.metadata verdict)) ->
  GraphState.get_exhausted state = false ->
  invoke (build_graph propose evaluate max_attempts) recursion_limit state r
  = (Ret (Done final), r') ->
  parseable (GraphState.metadata final).
Proof.
  intros Hparse E Hrun. apply invoke_Done in Hrun as (_ & Hrun).
  apply iterate_shape in Hrun as (new & _ & _ & Hret & Hdone); [|exact E].
  destruct Hdone as (earlier & last & -> & _ & _ & _ & _ & _ & Hrej & Hacc).
  apply Forall_app in Hret as (_ & Hlast).
  inversion Hlast as [|? ? (w & w' & Hev) _]. subst.
  apply Hparse in Hev.
  destruct (Evaluation.approved (Attempt.evaluation last)).
  - destruct Hacc as (_ & ->); [reflexivity|]. exact Hev.
  - destruct Hrej as (_ & _ & ->); [reflexivity|].
    apply parseable_exhausted. exact Hev.
Qed.

(** The report of a final state with a payload. *)
Lemma report_of_payload (product audience : str) (final : GraphState.t)
    (payload : AdcpPayload.Adcp) :
  AdcpPayload.build_adcp_payload product audience
    (GraphState.caption final) (GraphState.metadata final) = Some payload ->
  AdcpWorkflow.report product audience final
  = ((if GraphState.approved final then []
      else [ AdcpWorkflow.Text ([10%N] ++ lit "No approved caption produced.");
             AdcpWorkflow.Reason (GraphState.feedback final) ])
     ++ [ AdcpWorkflow.Text ([10%N] ++ lit "Attempt Log (AdCP-style):");
          AdcpWorkflow.LogJson
            (AdcpWorkflow._attempts_as_adcp (GraphState.attempts final));
          AdcpWorkflow.Text ([10%N] ++ lit "Final AdCP JSON:");
          AdcpWorkflow.PayloadJson payload ],
     AdcpWorkflow.Returned).
Proof.
  intros Hpayload. unfold AdcpWorkflow.report. rewrite Hpayload.
  destruct (GraphState.approved final); reflexivity.
Qed.

(** When every verdict the evaluator returns has attributes that [int]
    accepts where [length] and [word_count] are present, the report of a
    finished run returns: after the notice for a state that is not
    accepted, it prints the attempt log of the history and the final
    payload. An evaluator without this makes the report raise after the
    attempt log. *)
Theorem report_returns_after_run
    (recursion_limit : nat) (state : GraphState.t) (r : Run W)
    (final : GraphState.t) (r' : Run W) (product audience : str) :
  (forall caption w verdict w',
     evaluate caption w = Some (verdict, w') ->
     parseable (Evaluation.metadata verdict)) ->
  GraphState.get_exhausted state = false ->
  invoke (build_graph propose evaluate max_attempts) recursion_limit state r
  = (Ret (Done final), r') ->
  exists payload,
    AdcpPayload.build_adcp_payload product audience
      (GraphState.caption final) (GraphState.metadata final) = Some payload
    /\ AdcpWorkflow.report product audience final
       = ((if GraphState.approved final then []
           else [ AdcpWorkflow.Text ([10%N] ++ lit "No approved caption produced.");
                  AdcpWorkflow.Reason (GraphState.feedback final) ])
          ++ [ AdcpWorkflow.Text ([10%N] ++ lit "Attempt Log (AdCP-style):");
               AdcpWorkflow.LogJson
                 (AdcpWorkflow._attempts_as_adcp (GraphState.attempts final));
               AdcpWorkflow.Text ([10%N] ++ lit "Final AdCP JSON:");
               AdcpWorkflow.PayloadJson payload ],
          AdcpWorkflow.Returned).
Proof.
  intros Hparse E Hrun.
  pose proof (final_metadata_parseable _ _ _ _ _ Hparse E Hrun) as Hmeta.
  apply (parseable_payload product audience (GraphState.caption final)) in Hmeta.
  destruct Hmeta as (payload & Hpayload).
  exists payload. split; [exact Hpayload|].
  apply report_of_payload. exact Hpayload.
Qed.

End ReportFacts.

(** ** The run and the report with a chat model that answers *)

Section AnsweringChat.

Context `{Builtins}.
Context {Temp Env : Type}.
Variable zero : Temp.
Variable draw : Env -> nat * Env.
Variable chat : LLM Temp -> list message -> Env -> option (str * Env).
Variable constructs : LLM Temp -> bool.
Variable recursion_limit : nat.

(** The chat model answers every call with text that is not blank. *)
Hypothesis chat_answers :
  forall llm messages outside,
    exists content outside',
      chat llm messages outside = Some (content, outside') /\ ~ blank content.

(** [int] reads back the integers [str] prints. *)
Hypothesis int_of_str_str_of_int :
  forall n : Z, (0 <= n)%Z -> int_of_str (str_of_int n) = Some n.

#[local] Abbreviation propose :=
  (propose_dispatch draw (LLMCreator_propose chat)).
#[local] Abbreviation evaluate :=
  (evaluate_dispatch (LLMCritic_evaluate chat)).

Lemma llm_creator_returns (self : LLMCreator.t Temp) feedback outside :
  exists caption env', LLMCreator_propose chat self feedback outside = Some (caption, env').
Proof using chat_answers.
  unfold LLMCreator_propose.
  match goal with
  | |- context [chat ?l ?m ?e] =>
    destruct (chat_answers l m e) as (content & env' & -> & _)
  end.
  cbn [mbind option_bind]. eexists. eexists. reflexivity.
Qed.

Lemma llm_critic_returns (self : LLMCritic.t Temp) caption outside :
  exists verdict env', LLMCritic_evaluate chat self caption outside = Some (verdict, env').
Proof using chat_answers.
  unfold LLMCritic_evaluate.
  match goal with
  | |- context [chat ?l ?m ?e] =>
    destruct (chat_answers l m e) as (content & env' & -> & Hnb)
  end.
  cbn [mbind option_bind]. rewrite strip_strip.
  destruct (head (splitlines (strip content))) as [first_line|] eqn:Hhead.
  - cbn [mbind option_bind].
    destruct (contains (lit "approved") (lower first_line)
              && negb (contains (lit "rejected") (lower first_line)));
      eexists; eexists; reflexivity.
  - apply splitlines_head, strip_blank in Hhead. destruct (Hnb Hhead).
Qed.

Lemma len_nonneg {A} (l : list A) : (0 <= len l)%Z.
Proof. unfold len. lia. Qed.

Lemma dispatched_verdict_parseable caption (w : @Agents Temp Env) verdict w' :
  evaluate caption w = Some (verdict, w') ->
  parseable (Evaluation.metadata verdict).
Proof using int_of_str_str_of_int.
  unfold evaluate_dispatch. destruct (critic w) as [self|self].
  - intros [= <- _].
    destruct (critic_metadata self caption) as (Hacc & Hrej).
    destruct (Evaluation.approved (Critic.evaluate self caption)).
    + destruct (Hacc eq_refl) as (_ & Hl & Hw & _). split; intros v Hv.
      * rewrite Hl in Hv. injection Hv as <-.
        rewrite int_of_str_str_of_int by apply len_nonneg. by eexists.
      * rewrite Hw in Hv. injection Hv as <-.
        rewrite int_of_str_str_of_int by apply len_nonneg. by eexists.
    + rewrite (Hrej eq_refl). split; intros v Hv.
      all: rewrite lookup_singleton_ne in Hv by (vm_compute; discriminate).
      all: discriminate Hv.
  - destruct (LLMCritic_evaluate chat self caption (env w))
      as [[verdict' env']|] eqn:Hev; [|discriminate].
    cbn [mbind option_bind]. intros [= <- _].
    destruct (llm_critic_metadata chat self caption (env w) verdict' env' Hev)
      as (Hl & Hw & _).
    split; intros v Hv.
    + rewrite Hl in Hv. injection Hv as <-.
      rewrite int_of_str_str_of_int by apply len_nonneg. by eexists.
    + rewrite Hw in Hv. injection Hv as <-.
      rewrite int_of_str_str_of_int by apply len_nonneg. by eexists.
Qed.

(** Whatever the modes of the creator and the critic, when the chat model
    answers every call with text that is not blank, [int] reads back what
    [str] prints, the constructors of the clients return and the
    [2 * max 1 max_attempts] steps of the budget are fewer than the
    recursion limit, [main] returns for every provider and model that pass
    the guard of [_build_llm]: the run ends accepted or else exhausted,
    and the report prints the attempt log and the final payload. *)
Theorem main_returns_when_chat_answers
    (args : AdcpWorkflow.Args Temp) (outside : Env) :
  AdcpWorkflow.provider args <> lit "openai"
  \/ contains (lit ":") (AdcpWorkflow.model args) = false ->
  (forall llm, constructs llm = true) ->
  2 * Z.to_nat (Z.max 1 (AdcpWorkflow.max_attempts args)) < recursion_limit ->
  exists final payload,
    AdcpWorkflow.main zero draw (LLMCreator_propose chat)
      (LLMCritic_evaluate chat) constructs recursion_limit args outside
    = ((if GraphState.approved final then []
        else [ AdcpWorkflow.Text ([10%N] ++ lit "No approved caption produced.");
               AdcpWorkflow.Reason (GraphState.feedback final) ])
       ++ [ AdcpWorkflow.Text ([10%N] ++ lit "Attempt Log (AdCP-style):");
            AdcpWorkflow.LogJson
              (AdcpWorkflow._attempts_as_adcp (GraphState.attempts final));
            AdcpWorkflow.Text ([10%N] ++ lit "Final AdCP JSON:");
            AdcpWorkflow.PayloadJson payload ],
       AdcpWorkflow.Returned)
    /\ GraphState.approved final = negb (GraphState.get_exhausted final)
    /\ 1 <= length (GraphState.attempts final)
         <= Z.to_nat (Z.max 1 (AdcpWorkflow.max_attempts args)).
Proof using chat_answers int_of_str_str_of_int.
  intros Hllm Hconstructs Hlimit. unfold AdcpWorkflow.main, run_workflow.
  destruct (build_llm_accepts constructs (AdcpWorkflow.provider args)
              (AdcpWorkflow.model args)
              (AdcpWorkflow.temperature args) (AdcpWorkflow.ollama_base_url args)
              (AdcpWorkflow.api_key args) (AdcpWorkflow.openai_base_url args)
              Hconstructs Hllm)
    as (creator_llm & ->).
  destruct (build_llm_accepts constructs (AdcpWorkflow.provider args)
              (AdcpWorkflow.model args)
              zero (AdcpWorkflow.ollama_base_url args)
              (AdcpWorkflow.api_key args) (AdcpWorkflow.openai_base_url args)
              Hconstructs Hllm)
    as (critic_llm & ->).
  cbv zeta.
  set (the_creator := if decide (AdcpWorkflow.creator args = lit "llm") then _ else _).
  set (the_critic := if decide (AdcpWorkflow.critic args = lit "llm") then _ else _).
  set (product := AdcpWorkflow.product args).
  set (audience := AdcpWorkflow.audience args).
  set (Inv := fun w : @Agents Temp Env =>
         creator w = TemplateCreator (Creator.__init__ product audience)
         \/ exists self, creator w = ModelCreator self).
  destruct (invoke_invariant propose evaluate (AdcpWorkflow.max_attempts args)
              Inv (fun _ => True) (fun _ _ => True) recursion_limit
              (initial_state product audience)
              {| world := {| creator := the_creator; critic := the_critic;
                             env := outside |};
                 calls := [] |})
    as (final & r' & new & Hrun & _).
  { intros feedback w Hw. unfold propose_dispatch.
    destruct Hw as [Hw | (self & Hw)]; rewrite Hw.
    - destruct (draw (env w)) as [r env1].
      destruct (init_propose product audience feedback r)
        as (caption & -> & _).
      cbn [mbind option_bind]. eexists. eexists.
      split; [reflexivity|]. split; [left; reflexivity|exact I].
    - destruct (llm_creator_returns self feedback (env w))
        as (caption & env1 & ->).
      cbn [mbind option_bind]. eexists. eexists.
      split; [reflexivity|]. split; [right; eexists; reflexivity|exact I]. }
  { intros caption w Hw _. unfold evaluate_dispatch.
    destruct (critic w) as [self|self].
    - eexists. eexists. split; [reflexivity|]. split; [exact Hw|exact I].
    - destruct (llm_critic_returns self caption (env w))
        as (verdict & env1 & ->).
      cbn [mbind option_bind]. eexists. eexists.
      split; [reflexivity|]. split; [|exact I].
      destruct Hw as [Hw | (c & Hw)]; [left|right; exists c]; exact Hw. }
  { reflexivity. }
  { subst Inv the_creator. cbv beta. cbn [world creator].
    destruct (decide (AdcpWorkflow.creator args = lit "llm"));
      [right; eexists; reflexivity|left; reflexivity]. }
  { unfold len. cbn [initial_state GraphState.attempts length]. lia. }
  rewrite Hrun.
  pose proof Hrun as Hmeta.
  apply final_metadata_parseable in Hmeta;
    [|exact dispatched_verdict_parseable|reflexivity].
  apply (parseable_payload product audience (GraphState.caption final)) in Hmeta.
  destruct Hmeta as (payload & Hpayload).
  exists final, payload.
  split; [apply report_of_payload; exact Hpayload|].
  apply invoke_Done in Hrun as (_ & Hrun).
  apply finished_run_bounds in Hrun as (Hflags & Hlen & _);
    [|reflexivity|reflexivity].
  split; [exact Hflags|exact Hlen].
Qed.

End AnsweringChat.

(** ** Runs that end with an exception of a library *)

Section LimitFacts.

Context {W : Type}.
Variable propose : option str -> W -> option (str * W).
Variable evaluate : str -> W -> option (Evaluation.t * W).
Variable max_attempts : Z.

#[local] Abbreviation graph := (build_graph propose evaluate max_attempts).

(** Capabilities that return on every call and an evaluator that rejects
    every caption: when the recursion limit is below the
    [2 * max 1 (max_attempts - len history)] steps of the budget, the run
    ends with [GraphRecursionError] and in no final state. By then it has
    made as many steps as the limit: whole iterations, each with a
    rejected attempt, and for an odd limit one more call of the
    generator. *)
Theorem recursion_limit_cuts_rejected_run (recursion_limit : nat) state r :
  (forall feedback w, is_Some (propose feedback w)) ->
  (forall caption w, is_Some (evaluate caption w)) ->
  (forall caption w evaluation w',
     evaluate caption w = Some (evaluation, w') ->
     Evaluation.approved evaluation = false) ->
  GraphState.get_exhausted state = false ->
  recursion_limit
  < 2 * Z.to_nat (Z.max 1 (max_attempts - len (GraphState.attempts state))) ->
  let run := invoke graph recursion_limit state r in
  fst run = Ret GraphRecursionError
  /\ exists new pending,
       calls (snd run)
       = calls r ++ calls_of (GraphState.feedback state) new ++ pending
       /\ Forall rejected new
       /\ (pending = []
           \/ pending
              = [CallPropose (feedback_after (GraphState.feedback state) new)])
       /\ 2 * length new + length pending = recursion_limit.
Proof.
  intros Hpropose Hevaluate Hrejects E Hlimit run. subst run.
  pose proof (always_rejected_cut propose evaluate max_attempts recursion_limit
                state r Hpropose Hevaluate Hrejects E) as Hcut.
  destruct (invoke graph recursion_limit state r) as [out r'] eqn:Hrun.
  cbn [fst snd] in *. rewrite Hcut in * by lia. split; [reflexivity|].
  destruct (invoke_cut propose evaluate max_attempts recursion_limit state r r'
              E Hrun) as (new & pending & Hcalls & Hall & Hpending & Hsteps).
  exists new, pending. split; [exact Hcalls|]. split.
  - eapply Forall_impl; [exact Hall|].
    intros attempt (w & w' & Hev). exact (Hrejects _ _ _ _ Hev).
  - split; [exact Hpending|exact Hsteps].
Qed.

End LimitFacts.

Section ConstructorFacts.

Context `{Builtins}.
Context {Temp Env : Type}.
Variable zero : Temp.
Variable draw : Env -> nat * Env.
Variable llm_propose :
  LLMCreator.t Temp -> option str -> Env -> option (str * Env).
Variable llm_evaluate :
  LLMCritic.t Temp -> str -> Env -> option (Evaluation.t * Env).
Variable constructs : LLM Temp -> bool.
Variable recursion_limit : nat.

(** [run_workflow] builds both clients before it looks at the modes: with
    provider "openai" and a model name without ":", a constructor of
    [ChatOpenAI] that raises, for the creator's client or for the
    critic's, ends [run_workflow] with that exception in every mode, the
    rule-based ones too, before any call to a capability; [main] prints
    nothing. *)
Theorem client_error_ends_run (args : AdcpWorkflow.Args Temp) (env : Env) :
  AdcpWorkflow.provider args = lit "openai" ->
  contains (lit ":") (AdcpWorkflow.model args) = false ->
  constructs (ChatOpenAI (AdcpWorkflow.model args) (AdcpWorkflow.temperature args)
                (AdcpWorkflow.api_key args) (AdcpWorkflow.openai_base_url args))
  = false
  \/ constructs (ChatOpenAI (AdcpWorkflow.model args) zero
                   (AdcpWorkflow.api_key args) (AdcpWorkflow.openai_base_url args))
     = false ->
  run_workflow zero draw llm_propose llm_evaluate constructs recursion_limit
    (AdcpWorkflow.product args) (AdcpWorkflow.audience args)
    (AdcpWorkflow.max_attempts args) (AdcpWorkflow.creator args)
    (AdcpWorkflow.critic args) (AdcpWorkflow.model args)
    (AdcpWorkflow.temperature args) (AdcpWorkflow.ollama_base_url args)
    (AdcpWorkflow.provider args) (AdcpWorkflow.api_key args)
    (AdcpWorkflow.openai_base_url args) env
  = (NotBuilt ClientError, [])
  /\ AdcpWorkflow.main zero draw llm_propose llm_evaluate constructs
       recursion_limit args env
     = ([], AdcpWorkflow.Uncaught).
Proof.
  intros Hprovider Hmodel Hraises.
  assert (Hrun : run_workflow zero draw llm_propose llm_evaluate constructs
                   recursion_limit
                   (AdcpWorkflow.product args) (AdcpWorkflow.audience args)
                   (AdcpWorkflow.max_attempts args) (AdcpWorkflow.creator args)
                   (AdcpWorkflow.critic args) (AdcpWorkflow.model args)
                   (AdcpWorkflow.temperature args)
                   (AdcpWorkflow.ollama_base_url args)
                   (AdcpWorkflow.provider args) (AdcpWorkflow.api_key args)
                   (AdcpWorkflow.openai_base_url args) env
                 = (NotBuilt ClientError, [])).
  { unfold run_workflow, _build_llm, construct. rewrite Hprovider.
    rewrite decide_True by reflexivity. rewrite Hmodel.
    destruct (constructs (ChatOpenAI _ (AdcpWorkflow.temperature args) _ _));
      [|reflexivity].
    destruct Hraises as [Hx | ->]; [discriminate Hx|reflexivity]. }
  split; [exact Hrun|]. unfold AdcpWorkflow.main. rewrite Hrun. reflexivity.
Qed.

End ConstructorFacts.

(** * The properties on concrete inputs *)

#[local] Existing Instance ascii_builtins.

(** ** Runs *)



(** A negative budget and a critic that always rejects, under a
    recursion limit of 25: one iteration. *)
Lemma budget_any_integer_witness :
  let run :=
    invoke (build_graph Tests.sequence_propose Tests.always_reject_evaluate (-2))
      25 (Tests.state_of_test [] None)
      {| world := [lit "bad caption"; lit "another"]; calls := [] |} in
  (exists cs,
     calls (snd run) = [] ++ cs
     /\ count_propose cs <= 1
     /\ count_evaluate cs <= count_propose cs)
  /\ (exists state' new,
        fst run = Ret (Done state')
        /\ GraphState.attempts state' = [] ++ new
        /\ length new = 1
        /\ calls (snd run) = [] ++ calls_of None new).
Proof.
  intros run.
  destruct (budget_any_integer Tests.sequence_propose Tests.always_reject_evaluate
              (-2) 25 (Tests.state_of_test [] None)
              {| world := [lit "bad caption"; lit "another"]; calls := [] |})
    as (Hcalls & Hdone); [reflexivity|].
  split; [exact Hcalls|].
  destruct Hdone as (state' & new & Hrun & Hnew & _ & Hlog & _ & _ & Hone).
  - apply sequence_propose_returns.
  - apply always_reject_returns.
  - vm_compute. lia.
  - exists state', new. split; [exact Hrun|]. split; [exact Hnew|].
    split; [apply Hone; vm_compute; discriminate|exact Hlog].
Defined.

Lemma finished_run_last_attempt_witness :
  exists final earlier last,
    GraphState.attempts final = [] ++ earlier ++ [last]
    /\ Forall rejected earlier
    /\ GraphState.caption final = Attempt.caption last
    /\ GraphState.approved final = Evaluation.approved (Attempt.evaluation last)
    /\ GraphState.get_exhausted final
       = negb (Evaluation.approved (Attempt.evaluation last)).
Proof.
  destruct scenario_a_run as (final & r' & Hrun & _).
  destruct (finished_run_last_attempt Tests.sequence_propose
              (Tests.flaky_evaluate (lit "ok")) 3 25 (Tests.state_of_test [] None)
              {| world := [lit "bad caption"; lit "this one is ok"]; calls := [] |}
              final r' eq_refl Hrun)
    as (earlier & last & Hatt & Hrej & Hcap & Happ & Hex & _).
  exists final, earlier, last. repeat split; assumption.
Defined.

(** A critic that always rejects and a budget of 2, under a recursion
    limit of 25. *)
Lemma always_rejected_run :
  exists final r',
    invoke (build_graph Tests.sequence_propose Tests.always_reject_evaluate 2)
      25 (initial_state (lit "Prod") (lit "QA"))
      {| world := [lit "one"; lit "two"; lit "three"]; calls := [] |}
    = (Ret (Done final), r')
    /\ GraphState.get_exhausted final = true.
Proof. eexists. eexists. split; [vm_compute; reflexivity|]. reflexivity. Qed.

Lemma exhausted_at_budget_witness :
  exists final,
    (len (GraphState.attempts final) <= Z.max 2 (0 + 1))%Z
    /\ len (GraphState.attempts final) = Z.max 2 (0 + 1).
Proof.
  destruct always_rejected_run as (final & r' & Hrun & Hex).
  destruct (exhausted_at_budget Tests.sequence_propose
              Tests.always_reject_evaluate 2 25
              (initial_state (lit "Prod") (lit "QA"))
              {| world := [lit "one"; lit "two"; lit "three"]; calls := [] |}
              final r' eq_refl Hrun) as (Hle & Heq).
  exists final. split; [exact Hle|exact (Heq Hex)].
Defined.

Lemma calls_follow_history_witness :
  exists final (r' : Run (list str)) new,
    GraphState.attempts final = [] ++ new
    /\ calls r' = [] ++ calls_of None new
    /\ Forall (returned_by (W := list str) Tests.always_reject_evaluate) new.
Proof.
  destruct always_rejected_run as (final & r' & Hrun & _).
  exists final, r'.
  exact (calls_follow_history Tests.sequence_propose
           Tests.always_reject_evaluate 2 25
           (initial_state (lit "Prod") (lit "QA"))
           {| world := [lit "one"; lit "two"; lit "three"]; calls := [] |}
           (Done final) r' eq_refl Hrun).
Defined.

Lemma attempts_log_entries_witness :
  AdcpWorkflow.attempts
    (AdcpWorkflow._attempts_as_adcp
       [ {| Attempt.caption := lit "bad caption";
            Attempt.evaluation := Tests.always_reject |};
         {| Attempt.caption := lit "this one is ok";
            Attempt.evaluation :=
              {| Evaluation.approved := true;
                 Evaluation.feedback := lit "Approved";
                 Evaluation.metadata := ∅ |} |} ]) !! 1
  = Some {| AdcpWorkflow.sequence := 2;
            AdcpWorkflow.type := lit "text_ad";
            AdcpWorkflow.content := lit "this one is ok";
            AdcpWorkflow.status := lit "unknown";
            AdcpWorkflow.feedback := lit "Approved" |}.
Proof.
  destruct (attempts_log_entries
              [ {| Attempt.caption := lit "bad caption";
                   Attempt.evaluation := Tests.always_reject |};
                {| Attempt.caption := lit "this one is ok";
                   Attempt.evaluation :=
                     {| Evaluation.approved := true;
                        Evaluation.feedback := lit "Approved";
                        Evaluation.metadata := ∅ |} |} ])
    as (_ & _ & _ & Hentry).
  exact (Hentry 1 _ eq_refl).
Defined.

Lemma critic_verdict_well_formed_witness :
  let verdict := Critic.evaluate (Critic.__init__ (lit "Prod") 10) (lit "Prod rocks ⚡") in
  Evaluation.metadata verdict !! lit "length" = Some (lit "12")
  /\ Evaluation.metadata verdict !! lit "word_count" = Some (lit "3")
  /\ Evaluation.metadata verdict !! lit "brand_safety_check" = Some (lit "passed").
Proof.
  intros verdict.
  destruct (critic_verdict_well_formed (Critic.__init__ (lit "Prod") 10)
              (lit "Prod rocks ⚡")) as (_ & _ & Happroved & _).
  apply Happroved. vm_compute. reflexivity.
Defined.

Lemma payload_of_approved_verdict_witness :
  exists payload,
    AdcpPayload.build_adcp_payload (lit "Prod") (lit "QA") (lit "Prod rocks ⚡")
      (Evaluation.metadata
         (Critic.evaluate (Critic.__init__ (lit "Prod") 10) (lit "Prod rocks ⚡")))
    = Some payload
    /\ AdcpPayload.length (AdcpPayload.metadata payload) = 12%Z
    /\ AdcpPayload.brand_safety_check (AdcpPayload.metadata payload) = lit "passed".
Proof.
  eexists. split.
  - apply (payload_of_approved_verdict (Critic.__init__ (lit "Prod") 10)
             (lit "Prod") (lit "QA") (lit "Prod rocks ⚡")).
    + vm_compute. reflexivity.
    + vm_compute. reflexivity.
    + vm_compute. reflexivity.
  - split; reflexivity.
Defined.

Lemma payload_of_rejected_verdict_witness :
  exists payload,
    AdcpPayload.build_adcp_payload (lit "Prod") (lit "QA") (lit "Prod rocks")
      (exhausted_metadata
         (Critic.evaluate (Critic.__init__ (lit "Prod") 10) (lit "Prod rocks")))
    = Some payload
    /\ AdcpPayload.length (AdcpPayload.metadata payload) = 10%Z
    /\ AdcpPayload.brand_safety_check (AdcpPayload.metadata payload) = lit "unknown".
Proof.
  eexists. split.
  - apply (payload_of_rejected_verdict (Critic.__init__ (lit "Prod") 10)
             (lit "Prod") (lit "QA") (lit "Prod rocks") (lit "Prod rocks")).
    + vm_compute. reflexivity.
    + right. reflexivity.
  - split; reflexivity.
Defined.

Lemma template_captions_pass_emoji_rule_witness :
  let caption := lit "Neon: power up, Gamers! ⚡" in
  AdcpPayload.contains_emoji caption = true
  /\ lit "Must contain an emoji."
     ∉ Critic.failures (Critic.rules (Critic.__init__ (lit "Soda") 2) caption).
Proof.
  intros caption.
  apply (template_captions_pass_emoji_rule (lit "Neon") (lit "Gamers")
           (Creator.__init__ (lit "Neon") (lit "Gamers")) None 0 caption
           (Creator.__init__ (lit "Neon") (lit "Gamers"))).
  - apply Creator.reachable_init.
  - vm_compute. reflexivity.
Defined.

(** The command line of a run in rule-based mode: temperatures are
    counted in tenths, the world outside is the seed of the random
    numbers, the constructors of the clients return and the recursion
    limit is 25. *)
Lemma rule_based_run_completes_witness :
  exists final log,
    run_workflow 0%Z (fun seed : nat => (seed, S seed))
      (fun _ _ _ => None) (fun _ _ _ => None) (fun _ => true) 25
      (lit "Neon") (lit "Gamers") 3 (lit "template") (lit "heuristic")
      (lit "llama3:8b") 4%Z (lit "http://localhost:11434") (lit "ollama")
      None None 7
    = (Invoked (Ret (Done final)), log)
    /\ GraphState.approved final = negb (GraphState.get_exhausted final)
    /\ GraphState.caption final ∈ Creator.captions (lit "Neon") (lit "Gamers").
Proof.
  destruct (rule_based_run_completes 0%Z (fun seed : nat => (seed, S seed))
              (fun _ _ _ => None) (fun _ _ _ => None) (fun _ => true) 25
              (lit "Neon") (lit "Gamers") 3 (lit "template") (lit "heuristic")
              (lit "llama3:8b") 4%Z (lit "http://localhost:11434") (lit "ollama")
              None None 7)
    as (final & log & Hrun & Hflags & _ & _ & _ & Hcaption & _).
  - vm_compute. discriminate.
  - vm_compute. discriminate.
  - left. vm_compute. discriminate.
  - intros llm. reflexivity.
  - vm_compute. lia.
  - exists final, log. split; [exact Hrun|]. split; [exact Hflags|exact Hcaption].
Defined.



(** ** The model-backed agents on concrete answers *)



Lemma llm_critic_raises_on_blank_answer_witness :
  LLMCritic_evaluate (answering ([0x20; 0x0A; 0x09]%N)) critic_of_tests
    (lit "Prod rocks") 0
  = None.
Proof.
  apply (llm_critic_raises_on_blank_answer (answering ([0x20; 0x0A; 0x09]%N))
           critic_of_tests (lit "Prod rocks") 0 [0x20; 0x0A; 0x09]%N 1).
  - intros messages. reflexivity.
  - repeat constructor.
Defined.

Lemma llm_critic_verdict_well_formed_witness :
  match LLMCritic_evaluate (answering (lit "REJECTED: Missing emoji."))
          critic_of_tests (lit "Prod rocks") 0 with
  | Some (verdict, _) =>
    Evaluation.approved verdict = false
    /\ Evaluation.metadata verdict !! lit "status" = Some (lit "rejected")
    /\ Evaluation.metadata verdict !! lit "brand_safety_check"
       = Some (lit "failed")
    /\ Evaluation.feedback verdict <> []
  | None => False
  end.
Proof.
  destruct (LLMCritic_evaluate (answering (lit "REJECTED: Missing emoji."))
              critic_of_tests (lit "Prod rocks") 0)
    as [[verdict calls]|] eqn:Hev; [|vm_compute in Hev; discriminate Hev].
  destruct (llm_critic_verdict_well_formed _ _ _ _ _ _ Hev)
    as (Hs & Hb & _ & _ & Hf & _).
  assert (Ha : Evaluation.approved verdict = false).
  { vm_compute in Hev. injection Hev as <- _. reflexivity. }
  rewrite Ha in Hs, Hb. repeat split; assumption.
Defined.

Lemma llm_creator_caption_single_spaced_witness :
  exists caption,
    LLMCreator_propose
      (answering ([0x22%N] ++ lit "Neon   rocks" ++ [0x0A%N] ++ lit "now" ++ [0x22%N]))
      (LLMCreator.__init__ (lit "Neon") (lit "Gamers") (lit "llama3:8b") 4%Z
         (lit "http://localhost:11434") None)
      (Some (lit "Must contain an emoji.")) 0
    = Some (caption, 1)
    /\ single_spaced caption.
Proof.
  apply (llm_creator_caption_single_spaced
           (answering ([0x22%N] ++ lit "Neon   rocks" ++ [0x0A%N] ++ lit "now" ++ [0x22%N]))
           (LLMCreator.__init__ (lit "Neon") (lit "Gamers") (lit "llama3:8b") 4%Z
              (lit "http://localhost:11434") None)
           (Some (lit "Must contain an emoji.")) 0
           ([0x22%N] ++ lit "Neon   rocks" ++ [0x0A%N] ++ lit "now" ++ [0x22%N]) 1).
  intros messages. reflexivity.
Defined.

Lemma payload_of_llm_verdict_witness :
  exists verdict payload,
    LLMCritic_evaluate (answering (lit "APPROVED")) critic_of_tests
      (lit "Prod rocks ⚡") 0 = Some (verdict, 1)
    /\ AdcpPayload.build_adcp_payload (lit "Prod") (lit "QA") (lit "Prod rocks ⚡")
         (Evaluation.metadata verdict) = Some payload
    /\ AdcpPayload.length (AdcpPayload.metadata payload) = 12%Z
    /\ AdcpPayload.brand_safety_check (AdcpPayload.metadata payload)
       = lit "passed".
Proof.
  eexists. eexists. split; [vm_compute; reflexivity|]. split.
  - eapply (payload_of_llm_verdict (answering (lit "APPROVED")) critic_of_tests
              0 _ 1 (lit "Prod") (lit "QA") (lit "Prod rocks ⚡")).
    + vm_compute. reflexivity.
    + left. reflexivity.
    + vm_compute. reflexivity.
    + vm_compute. reflexivity.
  - split; reflexivity.
Defined.

(** A caption of twenty words and the critic's reasons for it. *)
Lemma apply_feedback_normalised_witness :
  let caption :=
    lit "a b c d e f g h i j  k l m n o p q r s t" in
  let feedback := lit "Too long (20 words). Keep under 15." in
  (len (split (Creator._apply_feedback
                 (Creator.__init__ (lit "Neon") (lit "Gamers"))
                 caption feedback)) <= 15)%Z.
Proof.
  intros caption feedback.
  destruct (apply_feedback_normalised
              (Creator.__init__ (lit "Neon") (lit "Gamers")) caption feedback)
    as (_ & _ & _ & Hshort).
  apply Hshort; vm_compute; reflexivity.
Defined.




Lemma flaky_verdicts_parseable (ok caption : str) (w : list str)
    (verdict : Evaluation.t) (w' : list str) :
  Tests.flaky_evaluate ok caption w = Some (verdict, w') ->
  parseable (Evaluation.metadata verdict).
Proof.
  unfold Tests.flaky_evaluate.
  destruct (contains ok caption); intros [= <- _]; cbn [Evaluation.metadata].
  all: split; intros v Hv.
  all: rewrite lookup_singleton_ne in Hv by (vm_compute; discriminate).
  all: discriminate Hv.
Qed.

Lemma report_returns_after_run_witness :
  exists final,
    GraphState.approved final = true
    /\ snd (AdcpWorkflow.report (lit "Prod") (lit "QA") final)
       = AdcpWorkflow.Returned.
Proof.
  destruct scenario_a_run as (final & r' & Hrun & Happroved & _).
  destruct (report_returns_after_run Tests.sequence_propose
              (Tests.flaky_evaluate (lit "ok")) 3 25 (Tests.state_of_test [] None)
              {| world := [lit "bad caption"; lit "this one is ok"]; calls := [] |}
              final r' (lit "Prod") (lit "QA")
              (flaky_verdicts_parseable (lit "ok")) eq_refl Hrun)
    as (payload & _ & Hreport).
  exists final. split; [exact Happroved|]. rewrite Hreport. reflexivity.
Defined.

Lemma build_adcp_payload_raises_witness :
  AdcpPayload.build_adcp_payload (lit "Prod") (lit "QA") (lit "Prod rocks ⚡")
    (<[lit "length" := lit "12"]> {[ lit "word_count" := lit "three" ]})
  = None.
Proof.
  apply (build_adcp_payload_raises (lit "Prod") (lit "QA") (lit "Prod rocks ⚡")
           _ (lit "word_count") (lit "three")).
  - right. reflexivity.
  - vm_compute. reflexivity.
  - vm_compute. reflexivity.
Defined.


(** A chat model that answers "APPROVED" to everything, in "llm" mode;
    the constructors of the clients return and the recursion limit is
    25. *)
Lemma main_returns_when_chat_answers_witness :
  snd (AdcpWorkflow.main 0%Z (fun seed : nat => (seed, S seed))
         (LLMCreator_propose (answering (lit "APPROVED")))
         (LLMCritic_evaluate (answering (lit "APPROVED"))) (fun _ => true) 25
         {| AdcpWorkflow.product := lit "Neon";
            AdcpWorkflow.audience := lit "Gamers";
            AdcpWorkflow.max_attempts := 5;
            AdcpWorkflow.creator := lit "llm";
            AdcpWorkflow.critic := lit "llm";
            AdcpWorkflow.model := lit "llama3:8b";
            AdcpWorkflow.temperature := 4%Z;
            AdcpWorkflow.ollama_base_url := lit "http://localhost:11434";
            AdcpWorkflow.provider := lit "ollama";
            AdcpWorkflow.api_key := None;
            AdcpWorkflow.openai_base_url := None |} 0)
  = AdcpWorkflow.Returned.
Proof.
  destruct (main_returns_when_chat_answers 0%Z (fun seed : nat => (seed, S seed))
              (answering (lit "APPROVED")) (fun _ => true) 25)
    with (args := {| AdcpWorkflow.product := lit "Neon";
                     AdcpWorkflow.audience := lit "Gamers";
                     AdcpWorkflow.max_attempts := 5;
                     AdcpWorkflow.creator := lit "llm";
                     AdcpWorkflow.critic := lit "llm";
                     AdcpWorkflow.model := lit "llama3:8b";
                     AdcpWorkflow.temperature := 4%Z;
                     AdcpWorkflow.ollama_base_url := lit "http://localhost:11434";
                     AdcpWorkflow.provider := lit "ollama";
                     AdcpWorkflow.api_key := None;
                     AdcpWorkflow.openai_base_url := None |})
         (outside := 0)
    as (final & payload & Hmain & _).
  - intros llm messages outside. exists (lit "APPROVED"), (S outside).
    split; [reflexivity|]. intros Hblank. inversion Hblank as [|? ? Hc _].
    vm_compute in Hc. discriminate Hc.
  - exact ascii_int_str_of_int.
  - left. vm_compute. discriminate.
  - intros llm. reflexivity.
  - vm_compute. lia.
  - rewrite Hmain. reflexivity.
Defined.

(** ** Exceptions of the libraries on concrete runs *)

(** A budget of 20 and a critic that always rejects, under a recursion
    limit of 25: thirteen calls of the generator and twelve attempts. *)
Lemma recursion_limit_cuts_rejected_run_witness :
  let run :=
    invoke (build_graph Tests.sequence_propose Tests.always_reject_evaluate 20)
      25 (initial_state (lit "Prod") (lit "QA"))
      {| world := [lit "bad caption"]; calls := [] |} in
  fst run = Ret GraphRecursionError
  /\ exists new pending,
       calls (snd run) = [] ++ calls_of None new ++ pending
       /\ Forall rejected new
       /\ (pending = [] \/ pending = [CallPropose (feedback_after None new)])
       /\ 2 * length new + length pending = 25.
Proof.
  intros run.
  apply (recursion_limit_cuts_rejected_run Tests.sequence_propose
           Tests.always_reject_evaluate 20 25
           (initial_state (lit "Prod") (lit "QA"))
           {| world := [lit "bad caption"]; calls := [] |}).
  - apply sequence_propose_returns.
  - apply always_reject_returns.
  - intros caption w evaluation w' [= <- _]. reflexivity.
  - reflexivity.
  - vm_compute. lia.
Defined.

(** Template and heuristic modes with provider "openai", a model name of
    OpenAI and constructors that find no API key. *)
Lemma client_error_ends_run_witness :
  let args := {| AdcpWorkflow.product := lit "Neon";
                 AdcpWorkflow.audience := lit "Gamers";
                 AdcpWorkflow.max_attempts := 3;
                 AdcpWorkflow.creator := lit "template";
                 AdcpWorkflow.critic := lit "heuristic";
                 AdcpWorkflow.model := lit "gpt-4o-mini";
                 AdcpWorkflow.temperature := 4%Z;
                 AdcpWorkflow.ollama_base_url := lit "http://localhost:11434";
                 AdcpWorkflow.provider := lit "openai";
                 AdcpWorkflow.api_key := None;
                 AdcpWorkflow.openai_base_url := None |} in
  AdcpWorkflow.main 0%Z (fun seed : nat => (seed, S seed))
    (fun _ _ _ => None) (fun _ _ _ => None) (fun _ => false) 25 args 7
  = ([], AdcpWorkflow.Uncaught).
Proof.
  intros args.
  apply (client_error_ends_run 0%Z (fun seed : nat => (seed, S seed))
           (fun _ _ _ => None) (fun _ _ _ => None) (fun _ => false) 25 args 7).
  - reflexivity.
  - vm_compute. reflexivity.
  - left. reflexivity.
Defined.
